(** * helpmate: the quiz life cycle, the topic ledger, the streak and the bookmarks

    A shallow embedding of [quiz_module.py] (with the part of
    [profile_module.py] and [config.py] it shares state with) and the
    properties of the quiz session that the design document states.

    Conventions of the embedding.
    - [st.session_state] is the record [State]; every page function takes the
      state and returns the state it leaves behind, together with how the
      script run ended ([outcome]).
    - A Streamlit script run sees at most one widget click: the click is the
      [quiz_event] (or [gen_event]) given to the page function, and
      [st.button] is true exactly for the button that was clicked. The radio
      keeps the position the student selected and [st.radio] returns the
      option at that position.
    - The provider and [json.loads] are outside the repository: the answer of
      the provider is an input of [generate_quiz], and [json.loads] is a
      parameter of it.
    - Values read from the provider's JSON are [pyval]s; the dicts the code
      builds itself ([answered_questions] entries, [topic_performance]
      entries) are records whose optional keys are [option] fields.
    - Python text is a [string]; [datetime.date] is its day ordinal in [Z]. *)

From Stdlib Require Import ZArith QArith String Ascii List Lia.
From stdpp Require Import gmap strings list fin_maps.

Open Scope string_scope.
Open Scope Z_scope.
Open Scope nat_scope.

Set Warnings "-register-all".

(** ** Python values and builtins *)

Module Py.

(** What [json.loads] can return. [PFloat] carries the exact decimal value of
    the literal. *)
Inductive pyval : Type :=
  | PNone
  | PBool (b : bool)
  | PInt (z : Z)
  | PFloat (q : Q)
  | PStr (s : string)
  | PList (l : list pyval)
  | PDict (d : list (string * pyval)).

(** A dict with string keys, in insertion order. *)
Abbreviation pydict := (list (string * pyval)) (only parsing).

(** [type(v).__name__], as it shows in exception messages. *)
Definition type_name (v : pyval) : string :=
  match v with
  | PNone => "NoneType"
  | PBool _ => "bool"
  | PInt _ => "int"
  | PFloat _ => "float"
  | PStr _ => "str"
  | PList _ => "list"
  | PDict _ => "dict"
  end.

(** [bool(v)] *)
Definition truthy (v : pyval) : bool :=
  match v with
  | PNone => false
  | PBool b => b
  | PInt z => negb (z =? 0)%Z
  | PFloat q => negb (Qeq_bool q 0)
  | PStr s => negb (String.eqb s EmptyString)
  | PList l => match l with [] => false | _ => true end
  | PDict d => match d with [] => false | _ => true end
  end.

(** [k in d] and [d.get(k)] *)
Fixpoint dict_get (d : pydict) (k : string) : option pyval :=
  match d with
  | [] => None
  | (k', v) :: d' => if String.eqb k' k then Some v else dict_get d' k
  end.

Definition dict_has (d : pydict) (k : string) : bool :=
  match dict_get d k with Some _ => true | None => false end.

(** [d[k] = v]: an existing key keeps its place, a new key goes last. *)
Fixpoint dict_set (d : pydict) (k : string) (v : pyval) : pydict :=
  match d with
  | [] => [(k, v)]
  | (k', v') :: d' =>
      if String.eqb k' k then (k', v) :: d' else (k', v') :: dict_set d' k v
  end.

(** [d.setdefault(k, v)], for its effect on [d]. *)
Definition setdefault (d : pydict) (k : string) (v : pyval) : pydict :=
  if dict_has d k then d else dict_set d k v.

(** The numeric value of a value that compares as a number ([True == 1]). *)
Definition num_value (v : pyval) : option Q :=
  match v with
  | PBool b => Some (if b then 1%Q else 0%Q)
  | PInt z => Some (inject_Z z)
  | PFloat q => Some q
  | _ => None
  end.

(** [a == b] on values read from JSON: numbers by value, text and [None] by
    identity of content, lists position by position, dicts key by key
    whatever the order of the keys. *)
Fixpoint py_eq (a b : pyval) {struct a} : bool :=
  match a, b with
  | PNone, PNone => true
  | PStr s, PStr t => String.eqb s t
  | PList l, PList m =>
      (fix all2 (l : list pyval) (m : list pyval) {struct l} : bool :=
         match l, m with
         | [], [] => true
         | x :: l', y :: m' => py_eq x y && all2 l' m'
         | _, _ => false
         end) l m
  | PDict d, PDict e =>
      Nat.eqb (List.length d) (List.length e) &&
      (fix every (d : list (string * pyval)) {struct d} : bool :=
         match d with
         | [] => true
         | (k, v) :: d' =>
             match dict_get e k with
             | Some w => py_eq v w
             | None => false
             end && every d'
         end) d
  | _, _ =>
      match num_value a, num_value b with
      | Some x, Some y => Qeq_bool x y
      | _, _ => false
      end
  end.

(** [l[i]] for a Python index: negative indices count from the end; [None]
    is IndexError. *)
Definition list_item {A : Type} (l : list A) (i : Z) : option A :=
  let n := Z.of_nat (List.length l) in
  if (0 <=? i)%Z then nth_error l (Z.to_nat i)
  else if (0 <=? n + i)%Z then nth_error l (Z.to_nat (n + i))
  else None.

(** [l[v]] when the index is itself a value read from JSON; [None] is
    IndexError or TypeError. *)
Definition list_item_val {A : Type} (l : list A) (v : pyval) : option A :=
  match v with
  | PInt z => list_item l z
  | PBool b => list_item l (if b then 1%Z else 0%Z)
  | _ => None
  end.

(** [str.startswith] *)
Fixpoint startswith (s p : string) : bool :=
  match p, s with
  | EmptyString, _ => true
  | String c p', String c' s' => Ascii.eqb c c' && startswith s' p'
  | String _ _, EmptyString => false
  end.

(** [s.replace(old, new)] for a non-empty [old]: left to right, occurrences
    do not overlap. [skip] counts the characters of a match still to drop. *)
Fixpoint replace_from (old new : string) (skip : nat) (s : string) : string :=
  match s with
  | EmptyString => EmptyString
  | String c s' =>
      match skip with
      | S k => replace_from old new k s'
      | O =>
          if startswith s old
          then new +:+ replace_from old new (String.length old - 1) s'
          else String c (replace_from old new O s')
      end
  end.

Definition replace (s old new : string) : string := replace_from old new O s.

(** The ASCII characters for which [str.isspace] holds. *)
Definition isspace (c : ascii) : bool :=
  let n := nat_of_ascii c in
  (Nat.leb 9 n && Nat.leb n 13) || (Nat.leb 28 n && Nat.leb n 32).

Fixpoint lstrip (s : string) : string :=
  match s with
  | EmptyString => EmptyString
  | String c s' => if isspace c then lstrip s' else s
  end.

Fixpoint rstrip (s : string) : string :=
  match s with
  | EmptyString => EmptyString
  | String c s' =>
      match rstrip s' with
      | EmptyString => if isspace c then EmptyString else String c EmptyString
      | r => String c r
      end
  end.

(** [s.strip()] *)
Definition strip (s : string) : string := rstrip (lstrip s).

(** [s.find(sub)]: the first index at which [sub] starts, [-1] when there is
    none. *)
Fixpoint find_from (sub : string) (i : Z) (s : string) : Z :=
  if startswith s sub then i
  else match s with
       | EmptyString => (-1)%Z
       | String _ s' => find_from sub (i + 1)%Z s'
       end.

Definition find (s sub : string) : Z := find_from sub 0%Z s.

(** [s.rfind(sub)]: the last index at which [sub] starts, [-1] when there is
    none. *)
Fixpoint rfind_from (sub : string) (i : Z) (s : string) : Z :=
  let later := match s with
               | EmptyString => (-1)%Z
               | String _ s' => rfind_from sub (i + 1)%Z s'
               end in
  if (later =? -1)%Z then (if startswith s sub then i else (-1)%Z) else later.

Definition rfind (s sub : string) : Z := rfind_from sub 0%Z s.

(** [s[a:b]] for [0 <= a <= b]. *)
Definition slice (s : string) (a b : Z) : string :=
  String.substring (Z.to_nat a) (Z.to_nat (b - a)) s.

End Py.

(** ** The session state ([config.py], [initialize_session_state]) *)

Module Session.
Import Py.

(** [datetime.date], by day ordinal; [d + timedelta(days=1)] is [d + 1]. *)
Abbreviation date := Z (only parsing).

(** A value of [answered_questions]: a dict with up to four keys. A field is
    [None] when the key is absent; ["selected_idx"] holds [None] for a skipped
    question. *)
Record answer_info : Type := {
  selected_idx : option (option nat);
  is_correct : option bool;
  is_skipped : option bool;
  is_bookmarked : option bool
}.

(** A value of [topic_performance]. *)
Record topic_stats : Type := {
  total_solved : nat;
  correct_solved : nat
}.

(** The keys of [st.session_state] that the quiz pages and the profile page
    share. The keys of the chat and of the PDF analyser ([chat],
    [chat_history], [weak_topics], [pdf_analysis_result], [user_name]) are
    written by neither [display_quiz] nor [display_quiz_generator] and are
    left out. [streak_history] is keyed by the date instead of its ISO text. *)
Record State : Type := {
  quiz_questions : list pydict;
  current_question : nat;
  showing_quiz : bool;
  score : nat;
  answered_questions : gmap nat answer_info;
  total_questions_solved : nat;
  total_correct_answers : nat;
  topics_covered : gset string;
  current_streak : nat;
  last_quiz_date : option date;
  streak_history : gmap date bool;
  topic_performance : gmap string topic_stats;
  current_quiz_main_topic : string;
  bookmarked_questions : list pydict
}.

(** [initialize_session_state()] on a new session. *)
Definition initialize_session_state : State := {|
  quiz_questions := [];
  current_question := 0;
  showing_quiz := false;
  score := 0;
  answered_questions := ∅;
  total_questions_solved := 0;
  total_correct_answers := 0;
  topics_covered := ∅;
  current_streak := 0;
  last_quiz_date := None;
  streak_history := ∅;
  topic_performance := ∅;
  current_quiz_main_topic := EmptyString;
  bookmarked_questions := []
|}.

(** Assignments to one key of the session state. *)
Definition set_quiz_questions (v : list pydict) (s : State) : State :=
  Build_State v (current_question s) (showing_quiz s) (score s)
    (answered_questions s) (total_questions_solved s) (total_correct_answers s)
    (topics_covered s) (current_streak s) (last_quiz_date s) (streak_history s)
    (topic_performance s) (current_quiz_main_topic s) (bookmarked_questions s).

Definition set_current_question (v : nat) (s : State) : State :=
  Build_State (quiz_questions s) v (showing_quiz s) (score s)
    (answered_questions s) (total_questions_solved s) (total_correct_answers s)
    (topics_covered s) (current_streak s) (last_quiz_date s) (streak_history s)
    (topic_performance s) (current_quiz_main_topic s) (bookmarked_questions s).

Definition set_showing_quiz (v : bool) (s : State) : State :=
  Build_State (quiz_questions s) (current_question s) v (score s)
    (answered_questions s) (total_questions_solved s) (total_correct_answers s)
    (topics_covered s) (current_streak s) (last_quiz_date s) (streak_history s)
    (topic_performance s) (current_quiz_main_topic s) (bookmarked_questions s).

Definition set_score (v : nat) (s : State) : State :=
  Build_State (quiz_questions s) (current_question s) (showing_quiz s) v
    (answered_questions s) (total_questions_solved s) (total_correct_answers s)
    (topics_covered s) (current_streak s) (last_quiz_date s) (streak_history s)
    (topic_performance s) (current_quiz_main_topic s) (bookmarked_questions s).

Definition set_answered_questions (v : gmap nat answer_info) (s : State) : State :=
  Build_State (quiz_questions s) (current_question s) (showing_quiz s) (score s)
    v (total_questions_solved s) (total_correct_answers s)
    (topics_covered s) (current_streak s) (last_quiz_date s) (streak_history s)
    (topic_performance s) (current_quiz_main_topic s) (bookmarked_questions s).

Definition set_total_questions_solved (v : nat) (s : State) : State :=
  Build_State (quiz_questions s) (current_question s) (showing_quiz s) (score s)
    (answered_questions s) v (total_correct_answers s)
    (topics_covered s) (current_streak s) (last_quiz_date s) (streak_history s)
    (topic_performance s) (current_quiz_main_topic s) (bookmarked_questions s).

Definition set_total_correct_answers (v : nat) (s : State) : State :=
  Build_State (quiz_questions s) (current_question s) (showing_quiz s) (score s)
    (answered_questions s) (total_questions_solved s) v
    (topics_covered s) (current_streak s) (last_quiz_date s) (streak_history s)
    (topic_performance s) (current_quiz_main_topic s) (bookmarked_questions s).

Definition set_topics_covered (v : gset string) (s : State) : State :=
  Build_State (quiz_questions s) (current_question s) (showing_quiz s) (score s)
    (answered_questions s) (total_questions_solved s) (total_correct_answers s)
    v (current_streak s) (last_quiz_date s) (streak_history s)
    (topic_performance s) (current_quiz_main_topic s) (bookmarked_questions s).

Definition set_current_streak (v : nat) (s : State) : State :=
  Build_State (quiz_questions s) (current_question s) (showing_quiz s) (score s)
    (answered_questions s) (total_questions_solved s) (total_correct_answers s)
    (topics_covered s) v (last_quiz_date s) (streak_history s)
    (topic_performance s) (current_quiz_main_topic s) (bookmarked_questions s).

Definition set_last_quiz_date (v : option date) (s : State) : State :=
  Build_State (quiz_questions s) (current_question s) (showing_quiz s) (score s)
    (answered_questions s) (total_questions_solved s) (total_correct_answers s)
    (topics_covered s) (current_streak s) v (streak_history s)
    (topic_performance s) (current_quiz_main_topic s) (bookmarked_questions s).

Definition set_streak_history (v : gmap date bool) (s : State) : State :=
  Build_State (quiz_questions s) (current_question s) (showing_quiz s) (score s)
    (answered_questions s) (total_questions_solved s) (total_correct_answers s)
    (topics_covered s) (current_streak s) (last_quiz_date s) v
    (topic_performance s) (current_quiz_main_topic s) (bookmarked_questions s).

Definition set_topic_performance (v : gmap string topic_stats) (s : State) : State :=
  Build_State (quiz_questions s) (current_question s) (showing_quiz s) (score s)
    (answered_questions s) (total_questions_solved s) (total_correct_answers s)
    (topics_covered s) (current_streak s) (last_quiz_date s) (streak_history s)
    v (current_quiz_main_topic s) (bookmarked_questions s).

Definition set_current_quiz_main_topic (v : string) (s : State) : State :=
  Build_State (quiz_questions s) (current_question s) (showing_quiz s) (score s)
    (answered_questions s) (total_questions_solved s) (total_correct_answers s)
    (topics_covered s) (current_streak s) (last_quiz_date s) (streak_history s)
    (topic_performance s) v (bookmarked_questions s).

Definition set_bookmarked_questions (v : list pydict) (s : State) : State :=
  Build_State (quiz_questions s) (current_question s) (showing_quiz s) (score s)
    (answered_questions s) (total_questions_solved s) (total_correct_answers s)
    (topics_covered s) (current_streak s) (last_quiz_date s) (streak_history s)
    (topic_performance s) (current_quiz_main_topic s) v.

(** How a script run of a page ends: the page was drawn to its end, a handler
    called [st.rerun()], or an exception left the page function. *)
Inductive outcome : Type :=
  | Rendered
  | Rerun
  | Raised (exn : string).

End Session.

(** ** [quiz_module.py] *)

Module Quiz.
Import Py Session.

(** What the page shows through [st.error], [st.warning] and [st.success]. *)
Inductive message : Type :=
  | Error (text : string)
  | Warning (text : string)
  | Success (text : string).

(** The answer of the content provider to [model.generate_content]: an
    exception, or a response with its [text]. *)
Inductive provider_result : Type :=
  | ProviderRaised (exn : string)
  | ProviderText (text : string).

(** The result of [json.loads]: a value, a [json.JSONDecodeError], or another
    exception. *)
Inductive loads_result : Type :=
  | Loaded (v : pyval)
  | JSONDecodeError (exn : string)
  | LoadsRaised (exn : string).

Definition detailed_steps_default : string :=
  "Explanation not generated. Please refer to solution links.".

Definition no_setdefault (v : pyval) : string :=
  "'" +:+ type_name v +:+ "' object has no attribute 'setdefault'".

Definition not_iterable (v : pyval) : string :=
  "'" +:+ type_name v +:+ "' object is not iterable".

(** The body of the loop of [generate_quiz] (lines 78-82) on one element of
    the parsed array: the three [setdefault] calls. [inl] is the
    AttributeError of a value that has no [setdefault]. *)
Definition ensure_explanation (question : pyval) : string + pydict :=
  match question with
  | PDict d =>
      let d1 := setdefault d "explanation" (PDict []) in
      match dict_get d1 "explanation" with
      | Some (PDict e) =>
          let e1 := setdefault e "detailed_steps" (PStr detailed_steps_default) in
          let e2 := setdefault e1 "youtube_link" (PStr EmptyString) in
          inr (dict_set d1 "explanation" (PDict e2))
      | Some v => inl (no_setdefault v)
      | None => inl (no_setdefault PNone)
      end
  | v => inl (no_setdefault v)
  end.

(** [for question in questions: ...] over a list: the first exception ends
    the loop. *)
Fixpoint ensure_explanations (questions : list pyval) : string + list pydict :=
  match questions with
  | [] => inr []
  | question :: rest =>
      match ensure_explanation question with
      | inl exn => inl exn
      | inr d =>
          match ensure_explanations rest with
          | inl exn => inl exn
          | inr ds => inr (d :: ds)
          end
      end
  end.

(** The same loop over whatever [json.loads] returned. Iterating a dict or a
    text yields texts, which have no [setdefault]; a number cannot be
    iterated. *)
Definition process_questions (questions : pyval) : string + list pydict :=
  match questions with
  | PList l => ensure_explanations l
  | PDict _ | PStr _ => inl (no_setdefault (PStr EmptyString))
  | v => inl (not_iterable v)
  end.

(** Lines 59-65: the text between the first [[] and the last []] of the
    response without its code fences, when there is one. *)
Definition json_candidate (response_text : string) : option string :=
  let response_text :=
    strip (replace (replace response_text "```json" EmptyString) "```" EmptyString) in
  let json_start := find response_text "[" in
  let json_end := (rfind response_text "]" + 1)%Z in
  if negb (json_start =? -1)%Z && negb (json_end =? -1)%Z && (json_end >? json_start)%Z
  then Some (slice response_text json_start json_end)
  else None.

Section Generate.

(** [json.loads] is the standard library's; the development holds for any
    function in its place. *)
Variable json_loads : string -> loads_result.

(** [generate_quiz(topic, difficulty, num_questions)], from the response of
    the provider on. The prompt (lines 10-48) only reaches the provider,
    whose answer is the argument. Returns the questions and what was shown
    through [st.error]. *)
Definition generate_quiz (response : provider_result) : list pydict * list message :=
  match response with
  | ProviderRaised e => ([], [Error ("Error generating quiz: " +:+ e)])
  | ProviderText response_text =>
      match json_candidate response_text with
      | Some json_text =>
          match json_loads json_text with
          | JSONDecodeError je => ([], [Error ("JSON Decode Error: " +:+ je)])
          | LoadsRaised e => ([], [Error ("Error generating quiz: " +:+ e)])
          | Loaded questions =>
              if truthy questions then
                match process_questions questions with
                | inl e => ([], [Error ("Error generating quiz: " +:+ e)])
                | inr qs => (qs, [])
                end
              else ([], [Error "Generated quiz is empty"])
          end
      | None => ([], [Error "Failed to find valid JSON array in response"])
      end
  end.

(** The form of the generator page: nothing submitted, or the form submitted
    with its three inputs, together with what the provider then answers. *)
Inductive gen_event : Type :=
  | GenNoClick
  | GenSubmit (topic difficulty : string) (num_questions : Z)
      (response : provider_result).

(** [display_quiz_generator()] *)
Definition display_quiz_generator (ev : gen_event) (s : State)
  : outcome * list message * State :=
  match ev with
  | GenNoClick => (Rendered, [], s)
  | GenSubmit topic difficulty num_questions response =>
      if negb (String.eqb topic EmptyString) then
        let '(questions, shown) := generate_quiz response in
        let s := set_quiz_questions questions s in
        match quiz_questions s with
        | _ :: _ =>
            let s := set_showing_quiz true s in
            let s := set_current_question 0 s in
            let s := set_score 0 s in
            let s := set_answered_questions ∅ s in
            let s := set_topics_covered ({[topic]} ∪ topics_covered s) s in
            let s := set_current_quiz_main_topic topic s in
            (Rerun, (shown ++ [Success "Quiz generated successfully! Let's begin."])%list, s)
        | [] =>
            (Rendered,
             (shown ++ [Error "Could not generate quiz. Please try a different topic or refine your request."])%list,
             s)
        end
      else (Rendered, [Warning "Please enter a topic for the quiz."], s)
  end.

End Generate.

(** *** [display_quiz] *)

(** The click a run of [display_quiz] sees. [ClickSubmit choice] is a click on
    "Submit Answer" with the radio on its [choice]-th option. *)
Inductive quiz_event : Type :=
  | NoClick
  | ClickBack
  | ClickNewQuiz
  | ClickBookmark
  | ClickSubmit (choice : nat)
  | ClickSkip
  | ClickNext.

(** Line 163: the number of entries of [answered_questions] whose
    ["is_correct"] is true. *)
Definition current_quiz_correct_answers (answered : gmap nat answer_info) : nat :=
  size (filter (λ kv : nat * answer_info, default false (is_correct kv.2) = true) answered).

(** Lines 183-200: the streak on completion. *)
Definition record_completion (today : date) (s : State) : State :=
  let s := set_streak_history (<[today := true]> (streak_history s)) s in
  let s :=
    match last_quiz_date s with
    | Some last =>
        if (today =? last + 1)%Z then set_current_streak (current_streak s + 1) s
        else if (today =? last)%Z then s
        else set_current_streak 1 s
    | None => set_current_streak 1 s
    end in
  set_last_quiz_date (Some today) s.

(** [question["answers"]] as the options of the radio. Answers that are not a
    JSON array are outside the model: the widget is taken to raise. *)
Definition question_answers (question : pydict) : option (list pyval) :=
  match dict_get question "answers" with
  | Some (PList l) => Some l
  | _ => None
  end.

(** [q["answers"][q["correctAnswer"]]] is defined. *)
Definition correct_answer_shown (question : pydict) : bool :=
  match question_answers question, dict_get question "correctAnswer" with
  | Some l, Some c => bool_decide (is_Some (list_item_val l c))
  | _, _ => false
  end.

(** Lines 204-220 for one question of the review: no subscript raises. *)
Definition review_renders (q_data : pydict) (entry : option answer_info) : bool :=
  let user_answer_idx :=
    match entry with
    | Some answer => match selected_idx answer with Some (Some i) => Some i | _ => None end
    | None => None
    end in
  let skipped :=
    match entry with
    | Some answer => default false (is_skipped answer)
    | None => false
    end in
  bool_decide (is_Some (dict_get q_data "question")) &&
  (if skipped then true
   else match user_answer_idx with
        | Some i =>
            match question_answers q_data with
            | Some l => bool_decide (is_Some (nth_error l i))
            | None => false
            end
        | None => true
        end) &&
  correct_answer_shown q_data.

Fixpoint review_all (answered : gmap nat answer_info) (i : nat) (questions : list pydict) : bool :=
  match questions with
  | [] => true
  | q_data :: rest => review_renders q_data (answered !! i) && review_all answered (S i) rest
  end.

(** [options.index(selected_option)] when [selected_option] is the option at
    position [choice]: the first position whose option is equal to it, and
    [choice] itself at the latest. *)
Fixpoint list_index (options : list pyval) (choice : nat) (selected_option : pyval) : nat :=
  match choice, options with
  | S k, o :: rest =>
      if py_eq o selected_option then 0 else S (list_index rest k selected_option)
  | _, _ => 0
  end.

(** [question.copy()] with the two keys the bookmark adds. *)
Definition question_with_meta (question : pydict) (topic : string) (idx : nat) : pydict :=
  dict_set (dict_set question "quiz_topic" (PStr topic)) "question_idx" (PInt (Z.of_nat idx)).

(** Lines 278 and 411: [bookmarked_questions.append(question_with_meta)]. *)
Definition add_bookmark (snapshot : pydict) (store : list pydict) : list pydict :=
  store ++ [snapshot].

(** The test of the comprehension of lines 281-285 on one stored entry. *)
Definition bookmark_matches (text : pyval) (topic : string) (q : pydict) : bool :=
  py_eq (default PNone (dict_get q "question")) text &&
  py_eq (default PNone (dict_get q "quiz_topic")) (PStr topic).

(** Lines 281-285: keep the entries that do not match. *)
Definition remove_bookmark (text : pyval) (topic : string) (store : list pydict) : list pydict :=
  List.filter (fun q => negb (bookmark_matches text topic q)) store.

(** Lines 316-322 and 439-445: the topic ledger. *)
Definition record_topic (topic : string) (correct : bool)
    (ledger : gmap string topic_stats) : gmap string topic_stats :=
  let entry := default {| total_solved := 0; correct_solved := 0 |} (ledger !! topic) in
  <[topic := {| total_solved := total_solved entry + 1;
               correct_solved := if correct then correct_solved entry + 1
                                 else correct_solved entry |}]> ledger.

(** Lines 310-322 and 433-445: the counters after a submitted answer. *)
Definition grade (correct : bool) (s : State) : State :=
  let s := set_total_questions_solved (total_questions_solved s + 1) s in
  let s := if correct
           then set_total_correct_answers (total_correct_answers s + 1)
                  (set_score (score s + 1) s)
           else s in
  set_topic_performance
    (record_topic (current_quiz_main_topic s) correct (topic_performance s)) s.

(** [answered_questions[idx].get("is_bookmarked", False)] if the key [idx] is
    there, [False] otherwise (lines 422-424 and 452-454). *)
Definition bookmark_flag (answered : gmap nat answer_info) (idx : nat) : bool :=
  match answered !! idx with
  | Some entry => default false (is_bookmarked entry)
  | None => false
  end.

(** Lines 302-303 and 418-419: the index and the verdict of a submitted
    answer. [inl] is the exception of [options.index] on an empty radio or of
    the subscript ["correctAnswer"]. *)
Definition submitted_answer (question : pydict) (options : list pyval) (choice : nat)
  : string + nat * bool :=
  match nth_error options choice with
  | None => inl "ValueError: None is not in list"
  | Some selected_option =>
      let selected := list_index options choice selected_option in
      match dict_get question "correctAnswer" with
      | None => inl "KeyError: 'correctAnswer'"
      | Some correct => inr (selected, py_eq (PInt (Z.of_nat selected)) correct)
      end
  end.

Definition set_is_bookmarked (b : bool) (entry : answer_info) : answer_info :=
  {| selected_idx := selected_idx entry; is_correct := is_correct entry;
     is_skipped := is_skipped entry; is_bookmarked := Some b |}.

(** Lines 385-464: the current question has no entry in [answered_questions]. *)
Definition unanswered_question (ev : quiz_event) (question : pydict) (s : State)
  : outcome * State :=
  let current_q_idx := current_question s in
  match question_answers question with
  | None => (Raised "KeyError: 'answers'", s)
  | Some options =>
      match ev with
      | ClickBookmark =>
          let entry :=
            match answered_questions s !! current_q_idx with
            | None => {| selected_idx := None; is_correct := None;
                         is_skipped := None; is_bookmarked := Some true |}
            | Some entry => set_is_bookmarked true entry
            end in
          let s := set_answered_questions (<[current_q_idx := entry]> (answered_questions s)) s in
          let snapshot := question_with_meta question (current_quiz_main_topic s) current_q_idx in
          (Rerun, set_bookmarked_questions (add_bookmark snapshot (bookmarked_questions s)) s)
      | ClickSubmit choice =>
          match submitted_answer question options choice with
          | inl exn => (Raised exn, s)
          | inr (selected, correct) =>
              let bookmarked := bookmark_flag (answered_questions s) current_q_idx in
              let entry := {| selected_idx := Some (Some selected); is_correct := Some correct;
                              is_skipped := Some false; is_bookmarked := Some bookmarked |} in
              let s := set_answered_questions (<[current_q_idx := entry]> (answered_questions s)) s in
              (Rerun, grade correct s)
          end
      | ClickSkip =>
          let bookmarked := bookmark_flag (answered_questions s) current_q_idx in
          let entry := {| selected_idx := Some None; is_correct := Some false;
                          is_skipped := Some true; is_bookmarked := Some bookmarked |} in
          let s := set_answered_questions (<[current_q_idx := entry]> (answered_questions s)) s in
          (Rerun, set_current_question (current_question s + 1) s)
      | _ => (Rendered, s)
      end
  end.

(** Lines 335-357: what is drawn for a skipped or an answered question
    raises no exception. *)
Definition finalized_renders (question : pydict) (answer : answer_info) : bool :=
  if default false (is_skipped answer) then bool_decide (is_Some (question_answers question))
  else
    match question_answers question, is_correct answer with
    | Some _, Some true => true
    | Some _, Some false => correct_answer_shown question
    | _, _ => false
    end.

(** Lines 259-384: the current question has the entry [answer_info]; [text]
    is [question["question"]]. *)
Definition answered_question (ev : quiz_event) (question : pydict) (text : pyval)
    (answer_info : answer_info) (s : State) : outcome * State :=
  let current_q_idx := current_question s in
  let skipped := default false (is_skipped answer_info) in
  let bookmarked := default false (is_bookmarked answer_info) in
  match ev with
  | ClickBookmark =>
      let answer_info := set_is_bookmarked (negb bookmarked) answer_info in
      let s := set_answered_questions (<[current_q_idx := answer_info]> (answered_questions s)) s in
      let topic := current_quiz_main_topic s in
      let snapshot := question_with_meta question topic current_q_idx in
      let store :=
        if negb bookmarked then add_bookmark snapshot (bookmarked_questions s)
        else remove_bookmark text topic (bookmarked_questions s) in
      (Rerun, set_bookmarked_questions store s)
  | _ =>
      if bool_decide (selected_idx answer_info = None) && negb skipped then
        match question_answers question with
        | None => (Raised "KeyError: 'answers'", s)
        | Some options =>
            match ev with
            | ClickSubmit choice =>
                match submitted_answer question options choice with
                | inl exn => (Raised exn, s)
                | inr (selected, correct) =>
                    let entry := {| selected_idx := Some (Some selected);
                                    is_correct := Some correct;
                                    is_skipped := Some false;
                                    is_bookmarked := is_bookmarked answer_info |} in
                    let s := set_answered_questions
                               (<[current_q_idx := entry]> (answered_questions s)) s in
                    (Rerun, grade correct s)
                end
            | ClickSkip =>
                let entry := {| selected_idx := Some None; is_correct := Some false;
                                is_skipped := Some true;
                                is_bookmarked := is_bookmarked answer_info |} in
                let s := set_answered_questions
                           (<[current_q_idx := entry]> (answered_questions s)) s in
                (Rerun, set_current_question (current_question s + 1) s)
            | _ => (Rendered, s)
            end
        end
      else if finalized_renders question answer_info then
        match ev with
        | ClickNext => (Rerun, set_current_question (current_question s + 1) s)
        | _ => (Rendered, s)
        end
      else (Raised "KeyError or IndexError while drawing the answer", s)
  end.

(** Lines 245-251: "Start New Quiz". *)
Definition start_new_quiz (s : State) : State :=
  let s := set_showing_quiz false s in
  let s := set_quiz_questions [] s in
  let s := set_current_question 0 s in
  let s := set_score 0 s in
  set_answered_questions ∅ s.

(** [display_quiz()], run on the day [today] with the click [ev]. Only the
    subscripts of Python are taken to raise; the checks Streamlit makes on
    the arguments of its widgets are not modelled. *)
Definition display_quiz (today : date) (ev : quiz_event) (s : State) : outcome * State :=
  match quiz_questions s with
  | [] =>
      match ev with
      | ClickBack => (Rerun, set_showing_quiz false s)
      | _ => (Rendered, s)
      end
  | _ :: _ =>
      let questions := quiz_questions s in
      let current_q_idx := current_question s in
      let total_questions := List.length questions in
      if Nat.leb total_questions current_q_idx then
        let s := record_completion today s in
        if review_all (answered_questions s) 0 questions then
          match ev with
          | ClickNewQuiz => (Rerun, start_new_quiz s)
          | _ => (Rendered, s)
          end
        else (Raised "KeyError or IndexError while drawing the review", s)
      else
        match nth_error questions current_q_idx with
        | None => (Raised "IndexError: list index out of range", s)
        | Some question =>
            match dict_get question "question" with
            | None => (Raised "KeyError: 'question'", s)
            | Some text =>
                match answered_questions s !! current_q_idx with
                | Some answer_info => answered_question ev question text answer_info s
                | None => unanswered_question ev question s
                end
            end
        end
  end.

(** *** The page "Quiz Generator" of [main()] *)

Section Page.

Variable json_loads : string -> loads_result.

(** A click on the page: on the quiz when it is shown, on the form of the
    generator otherwise. *)
Inductive click : Type :=
  | OnQuiz (ev : quiz_event)
  | OnGenerator (ev : gen_event).

(** One script run of the page (lines 61-65 of [main.py]). A click on a
    widget of the view that is not shown cannot happen and counts for none. *)
Definition page_run (today : date) (c : click) (s : State) : outcome * State :=
  if showing_quiz s then
    display_quiz today (match c with OnQuiz ev => ev | OnGenerator _ => NoClick end) s
  else
    let '(o, _, s) :=
      display_quiz_generator json_loads
        (match c with OnGenerator ev => ev | OnQuiz _ => GenNoClick end) s in
    (o, s).

(** A click and the script run [st.rerun()] asks for, which sees no click. *)
Definition page_step (today : date) (c : click) (s : State) : outcome * State :=
  match page_run today c s with
  | (Rerun, s) => page_run today (OnQuiz NoClick) s
  | r => r
  end.

End Page.

End Quiz.

(** ** [profile_module.py]: the accuracy figures of [display_profile] *)

Module Profile.
Import Py Session.

(** [a / b * 100] on two counters. Python computes it in binary floating
    point; the embedding keeps the exact quotient. *)
Definition percent_of (a b : nat) : Q :=
  (inject_Z (Z.of_nat a) / inject_Z (Z.of_nat b) * 100)%Q.

(** Lines 24-26: the overall accuracy. *)
Definition accuracy (s : State) : Q :=
  let total_q_solved := total_questions_solved s in
  let total_corr_ans := total_correct_answers s in
  if Nat.ltb 0 total_q_solved then percent_of total_corr_ans total_q_solved else 0%Q.

(** Line 48: [topic_performance.get(topic, {"total_solved": 0, "correct_solved": 0})] *)
Definition performance (s : State) (topic : string) : topic_stats :=
  default {| total_solved := 0; correct_solved := 0 |} (topic_performance s !! topic).

(** Lines 49-52: the percentage shown for a topic. *)
Definition percentage (p : topic_stats) : Q :=
  let total := total_solved p in
  let correct := correct_solved p in
  if Nat.ltb 0 total then percent_of correct total else 0%Q.

(** Lines 54-61: the colour of the tag of a topic. *)
Definition color (p : topic_stats) : string :=
  if Nat.ltb 0 (total_solved p) then
    if Qle_bool 75 (percentage p) then "green"
    else if Qle_bool 50 (percentage p) then "orange"
    else "red"
  else "var(--text-color)".

End Profile.

(** ** A reader of JSON texts

    An instance for [json_loads], to run [generate_quiz] on sample
    responses: the grammar of RFC 8259, with [fuel] bounding the calls. The
    tokens [NaN] and [Infinity], which Python accepts besides, are refused,
    and the messages of the errors are not those of Python. *)

Module Json.
Import Py Quiz.

Definition code (c : ascii) : nat := nat_of_ascii c.

Definition is_ws (c : ascii) : bool :=
  let n := code c in
  Nat.eqb n 32 || Nat.eqb n 9 || Nat.eqb n 10 || Nat.eqb n 13.

Definition is_digit (c : ascii) : bool :=
  Nat.leb 48 (code c) && Nat.leb (code c) 57.

Fixpoint skip_ws (s : string) : string :=
  match s with
  | String c s' => if is_ws c then skip_ws s' else s
  | EmptyString => s
  end.

(** The decimal digits at the head of [s]: their number, their value, and
    the rest of [s]. *)
Fixpoint digits (count : nat) (value : Z) (s : string) : nat * Z * string :=
  match s with
  | String c s' =>
      if is_digit c then digits (S count) (10 * value + Z.of_nat (code c - 48))%Z s'
      else (count, value, s)
  | EmptyString => (count, value, s)
  end.

Definition hex_digit (c : ascii) : option N :=
  let n := N_of_ascii c in
  if N.leb 48 n && N.leb n 57 then Some (n - 48)%N
  else if N.leb 65 n && N.leb n 70 then Some (n - 55)%N
  else if N.leb 97 n && N.leb n 102 then Some (n - 87)%N
  else None.

Definition hex4 (a b c d : ascii) : option N :=
  match hex_digit a, hex_digit b, hex_digit c, hex_digit d with
  | Some x, Some y, Some z, Some w => Some (((x * 16 + y) * 16 + z) * 16 + w)%N
  | _, _, _, _ => None
  end.

(** UTF-8 of a code point below [0x110000]. *)
Definition utf8 (n : N) : string :=
  let byte k := String (ascii_of_N k) EmptyString in
  (if n <? 128 then byte n
   else if n <? 2048 then byte (192 + n / 64) +:+ byte (128 + n mod 64)
   else if n <? 65536 then
     byte (224 + n / 4096) +:+ byte (128 + (n / 64) mod 64) +:+ byte (128 + n mod 64)
   else
     byte (240 + n / 262144) +:+ byte (128 + (n / 4096) mod 64) +:+
     byte (128 + (n / 64) mod 64) +:+ byte (128 + n mod 64))%N.

(** The characters of a string literal after its opening quote, up to the
    closing quote. *)
Fixpoint string_chars (s : string) : option (string * string) :=
  match s with
  | EmptyString => None
  | String c s' =>
      if Nat.eqb (code c) 34 then Some (EmptyString, s')
      else if Nat.eqb (code c) 92 then
        match s' with
        | String e s'' =>
            let simple (k : nat) :=
              match string_chars s'' with
              | Some (r, rest) => Some (String (ascii_of_nat k) r, rest)
              | None => None
              end in
            match code e with
            | 34 => simple 34
            | 92 => simple 92
            | 47 => simple 47
            | 98 => simple 8
            | 102 => simple 12
            | 110 => simple 10
            | 114 => simple 13
            | 116 => simple 9
            | 117 =>
                match s'' with
                | String h1 (String h2 (String h3 (String h4 s4))) =>
                    match hex4 h1 h2 h3 h4 with
                    | None => None
                    | Some hi =>
                        let single :=
                          match string_chars s4 with
                          | Some (r, rest) => Some (utf8 hi +:+ r, rest)
                          | None => None
                          end in
                        if (N.leb 55296 hi && N.leb hi 56319)%N then
                          match s4 with
                          | String b (String u (String l1 (String l2 (String l3 (String l4 s10))))) =>
                              match hex4 l1 l2 l3 l4 with
                              | Some lo =>
                                  if Nat.eqb (code b) 92 && Nat.eqb (code u) 117 &&
                                     N.leb 56320 lo && N.leb lo 57343
                                  then
                                    match string_chars s10 with
                                    | Some (r, rest) =>
                                        Some (utf8 (65536 + (hi - 55296) * 1024 + (lo - 56320))%N +:+ r, rest)
                                    | None => None
                                    end
                                  else single
                              | None => single
                              end
                          | _ => single
                          end
                        else single
                    end
                | _ => None
                end
            | _ => None
            end
        | EmptyString => None
        end
      else if Nat.ltb (code c) 32 then None
      else
        match string_chars s' with
        | Some (r, rest) => Some (String c r, rest)
        | None => None
        end
  end.

(** [m * 10 ^ e] *)
Definition decimal (m e : Z) : Q :=
  if (0 <=? e)%Z then inject_Z (m * 10 ^ e) else Qred (Qmake m (Z.to_pos (10 ^ (- e)))).

(** A number: [-? int frac? exp?]. An integer literal is an [int], any other
    a [float]. *)
Definition number (s : string) : option (pyval * string) :=
  let '(negative, s1) :=
    match s with
    | String c s' => if Nat.eqb (code c) 45 then (true, s') else (false, s)
    | EmptyString => (false, s)
    end in
  let int_part :=
    match s1 with
    | String c s' =>
        if Nat.eqb (code c) 48 then Some (0%Z, s')
        else if is_digit c then let '(_, v, rest) := digits 0 0%Z s1 in Some (v, rest)
        else None
    | EmptyString => None
    end in
  match int_part with
  | None => None
  | Some (i, s2) =>
      let '(fcount, mant, s3) :=
        match s2 with
        | String c (String d s') =>
            if Nat.eqb (code c) 46 && is_digit d
            then digits 0 i (String d s')
            else (0, i, s2)
        | _ => (0, i, s2)
        end in
      let is_frac := negb (Nat.eqb fcount 0) in
      let '(is_exp, ex, s4) :=
        match s3 with
        | String c s' =>
            if Nat.eqb (code c) 101 || Nat.eqb (code c) 69 then
              let '(neg_e, s'') :=
                match s' with
                | String g t =>
                    if Nat.eqb (code g) 45 then (true, t)
                    else if Nat.eqb (code g) 43 then (false, t)
                    else (false, s')
                | EmptyString => (false, s')
                end in
              let '(ecount, ev, rest) := digits 0 0%Z s'' in
              if Nat.eqb ecount 0 then (false, 0%Z, s3)
              else (true, if neg_e then (- ev)%Z else ev, rest)
            else (false, 0%Z, s3)
        | EmptyString => (false, 0%Z, s3)
        end in
      let signed := if negative then (- mant)%Z else mant in
      if is_frac || is_exp
      then Some (PFloat (decimal signed (ex - Z.of_nat fcount)), s4)
      else Some (PInt signed, s4)
  end.

Fixpoint value (fuel : nat) (s : string) {struct fuel} : option (pyval * string) :=
  match fuel with
  | O => None
  | S fuel =>
      match skip_ws s with
      | EmptyString => None
      | String c s' as s0 =>
          if Nat.eqb (code c) 34 then
            match string_chars s' with
            | Some (r, rest) => Some (PStr r, rest)
            | None => None
            end
          else if Nat.eqb (code c) 91 then
            match skip_ws s' with
            | String d rest =>
                if Nat.eqb (code d) 93 then Some (PList [], rest)
                else match items fuel s' with
                     | Some (l, rest) => Some (PList l, rest)
                     | None => None
                     end
            | EmptyString => None
            end
          else if Nat.eqb (code c) 123 then
            match skip_ws s' with
            | String d rest =>
                if Nat.eqb (code d) 125 then Some (PDict [], rest)
                else match members fuel [] s' with
                     | Some (m, rest) => Some (PDict m, rest)
                     | None => None
                     end
            | EmptyString => None
            end
          else if startswith s0 "null" then Some (PNone, slice s0 4 (Z.of_nat (String.length s0)))
          else if startswith s0 "true" then Some (PBool true, slice s0 4 (Z.of_nat (String.length s0)))
          else if startswith s0 "false" then Some (PBool false, slice s0 5 (Z.of_nat (String.length s0)))
          else number s0
      end
  end
with items (fuel : nat) (s : string) {struct fuel} : option (list pyval * string) :=
  match fuel with
  | O => None
  | S fuel =>
      match value fuel s with
      | None => None
      | Some (v, rest) =>
          match skip_ws rest with
          | String c rest' =>
              if Nat.eqb (code c) 93 then Some ([v], rest')
              else if Nat.eqb (code c) 44 then
                match items fuel rest' with
                | Some (l, rest'') => Some (v :: l, rest'')
                | None => None
                end
              else None
          | EmptyString => None
          end
      end
  end
with members (fuel : nat) (acc : list (string * pyval)) (s : string) {struct fuel}
  : option (list (string * pyval) * string) :=
  match fuel with
  | O => None
  | S fuel =>
      match skip_ws s with
      | String q s' =>
          if Nat.eqb (code q) 34 then
            match string_chars s' with
            | None => None
            | Some (key, rest) =>
                match skip_ws rest with
                | String colon rest' =>
                    if Nat.eqb (code colon) 58 then
                      match value fuel rest' with
                      | None => None
                      | Some (v, rest'') =>
                          let acc := dict_set acc key v in
                          match skip_ws rest'' with
                          | String c rest3 =>
                              if Nat.eqb (code c) 125 then Some (acc, rest3)
                              else if Nat.eqb (code c) 44 then members fuel acc rest3
                              else None
                          | EmptyString => None
                          end
                      end
                    else None
                | EmptyString => None
                end
            end
          else None
      | EmptyString => None
      end
  end.

(** [json.loads(s)]: one value, then nothing but white space. *)
Definition loads (s : string) : loads_result :=
  match value (2 * String.length s + 2) s with
  | Some (v, rest) =>
      match skip_ws rest with
      | EmptyString => Loaded v
      | _ => JSONDecodeError "Extra data"
      end
  | None => JSONDecodeError "Expecting value"
  end.

(** A text with each apostrophe read as a double quote, to write JSON in. *)
Fixpoint quoted (s : string) : string :=
  match s with
  | EmptyString => EmptyString
  | String c s' => String (if Nat.eqb (code c) 39 then ascii_of_nat 34 else c) (quoted s')
  end.

End Json.

(** ** The vocabulary of the design document, read on the state of the code *)

Module Spec.
Import Py Session Quiz.

(** The session is in progress and [question] is the one under the cursor. *)
Definition in_progress (s : State) (question : pydict) : Prop :=
  nth_error (quiz_questions s) (current_question s) = Some question.

(** The session is completed: the cursor is past the last question. *)
Definition completed (s : State) : Prop :=
  quiz_questions s ≠ [] ∧ List.length (quiz_questions s) ≤ current_question s.

(** A question record as far as the page reads it before its buttons: a
    prompt text and a list of answer choices. *)
Definition question_record (question : pydict) (options : list pyval) : Prop :=
  is_Some (dict_get question "question") ∧ question_answers question = Some options.

(** AnswerState [unanswered]: no entry, or an entry that only carries the
    bookmark (the test of line 289). *)
Definition unanswered (entry : option answer_info) : Prop :=
  match entry with
  | None => True
  | Some a => selected_idx a = None ∧ default false (is_skipped a) = false
  end.

(** AnswerState [answered] or [skipped] (the test of line 360). *)
Definition finalized (entry : option answer_info) : Prop :=
  match entry with
  | None => False
  | Some a => selected_idx a ≠ None ∨ default false (is_skipped a) = true
  end.

(** AnswerState [answered(choice, correct)] *)
Definition answered_with (a : answer_info) (choice : nat) (correct : bool) : Prop :=
  selected_idx a = Some (Some choice) ∧ is_correct a = Some correct ∧
  is_skipped a = Some false.

(** AnswerState [skipped] *)
Definition skipped (a : answer_info) : Prop :=
  selected_idx a = Some None ∧ is_correct a = Some false ∧ is_skipped a = Some true.

(** The number of entries that hold a submitted answer. *)
Definition answered_count (answered : gmap nat answer_info) : nat :=
  size (filter (λ kv : nat * answer_info, is_skipped kv.2 = Some false) answered).

(** The ledger entry of a topic, [(0, 0)] when there is none. *)
Definition ledger (s : State) (topic : string) : topic_stats :=
  default {| total_solved := 0; correct_solved := 0 |} (topic_performance s !! topic).

(** Every entry without an answer carries nothing but the bookmark, and every
    skipped entry is marked incorrect. *)
Definition entries_consistent (answered : gmap nat answer_info) : Prop :=
  ∀ i a, answered !! i = Some a →
    (selected_idx a = None → is_correct a = None ∧ is_skipped a = None) ∧
    (is_skipped a = Some true → is_correct a = Some false).

Section Reach.

Variable json_loads : string -> loads_result.

(** What the other pages (chat, PDF analyser, profile) may do to the shared
    state: they write the global counters, the ledger, the covered topics and
    the bookmarks, and nothing of the quiz or of the streak. *)
Definition other_pages (s s' : State) : Prop :=
  quiz_questions s' = quiz_questions s ∧
  current_question s' = current_question s ∧
  showing_quiz s' = showing_quiz s ∧
  score s' = score s ∧
  answered_questions s' = answered_questions s ∧
  current_streak s' = current_streak s ∧
  last_quiz_date s' = last_quiz_date s ∧
  streak_history s' = streak_history s ∧
  current_quiz_main_topic s' = current_quiz_main_topic s.

(** The states of the application: from a new session, by clicks on the page
    "Quiz Generator" and by the other pages. *)
Inductive reachable : State -> Prop :=
  | reach_new : reachable initialize_session_state
  | reach_click today c s :
      reachable s -> reachable (page_step json_loads today c s).2
  | reach_other s s' :
      reachable s -> other_pages s s' -> reachable s'.

(** A state that a successful generation leaves. *)
Definition freshly_generated (s0 : State) : Prop :=
  ∃ s topic difficulty num_questions response shown,
    display_quiz_generator json_loads
      (GenSubmit topic difficulty num_questions response) s = (Rerun, shown, s0).

End Reach.

(** The four actions of the session. *)
Inductive quiz_action : quiz_event -> Prop :=
  | action_submit choice : quiz_action (ClickSubmit choice)
  | action_skip : quiz_action ClickSkip
  | action_bookmark : quiz_action ClickBookmark
  | action_advance : quiz_action ClickNext.

(** The states of the session that starts in [s0]: each action is a script
    run of [display_quiz], and so is the rerun that follows it. *)
Inductive in_session (s0 : State) : State -> Prop :=
  | session_start : in_session s0 s0
  | session_action today ev s :
      in_session s0 s -> quiz_action ev -> in_session s0 (display_quiz today ev s).2
  | session_rerun today s :
      in_session s0 s -> in_session s0 (display_quiz today NoClick s).2.

(** What holds of the graded part of the state throughout the session that
    started in [s0]: the score is the number of entries marked correct; the
    entries are consistent; the global counters and the ledger entry of the
    session's topic have grown by the submitted answers only, skipped
    questions counting for nothing. *)
Definition session_invariant (s0 s : State) : Prop :=
  score s = current_quiz_correct_answers (answered_questions s) ∧
  entries_consistent (answered_questions s) ∧
  total_questions_solved s =
    total_questions_solved s0 + answered_count (answered_questions s) ∧
  total_correct_answers s = total_correct_answers s0 + score s ∧
  current_quiz_main_topic s = current_quiz_main_topic s0 ∧
  ledger s (current_quiz_main_topic s0) =
    {| total_solved := total_solved (ledger s0 (current_quiz_main_topic s0)) +
                       answered_count (answered_questions s);
       correct_solved := correct_solved (ledger s0 (current_quiz_main_topic s0)) +
                         score s |}.

(** A quiz is stored whenever the generator page is not the one shown. *)
Definition generator_page_clean (s : State) : Prop :=
  showing_quiz s = false -> quiz_questions s = [].

End Spec.

(** ** Sample data *)

Module Examples.
Import Py Session Quiz.

Definition filled_explanation : pyval :=
  PDict [("detailed_steps", PStr detailed_steps_default); ("youtube_link", PStr EmptyString)].

(** The question of the sample response of the design document, as
    [generate_quiz] returns it. *)
Definition question_Q : pydict :=
  [("question", PStr "Q");
   ("answers", PList [PStr "a"; PStr "b"; PStr "c"; PStr "d"]);
   ("correctAnswer", PInt 1);
   ("explanation", filled_explanation)].

(** A question whose first two answer choices read the same. *)
Definition question_twice : pydict :=
  [("question", PStr "Q");
   ("answers", PList [PStr "a"; PStr "a"; PStr "b"; PStr "c"]);
   ("correctAnswer", PInt 1);
   ("explanation", filled_explanation)].

(** The session state right after a quiz on "optics" with the questions [qs]
    was generated in a new session. *)
Definition session_of (qs : list pydict) : State :=
  set_current_quiz_main_topic "optics"
    (set_topics_covered {["optics"]}
       (set_showing_quiz true (set_quiz_questions qs initialize_session_state))).

(** The same session with the cursor past its only question. *)
Definition session_done : State := set_current_question 1 (session_of [question_Q]).

End Examples.

(** ** [utils.py]: the link to a written solution *)

Module Utils.
Import Py Quiz.

(** What [requests.get] and the reading of the page give for one result of
    the search: an exception (a timeout, a request error, any other), or a
    response with its status code and [soup.get_text().lower()]. *)
Inductive fetch_result : Type :=
  | FetchRaised (exn : string)
  | FetchResponse (status_code : Z) (text : string).

(** [kw in text] *)
Definition contains (text kw : string) : bool := negb (find text kw =? -1)%Z.

(** Line 79: the test on the text of the page. *)
Definition mentions_solution (text : string) : bool :=
  existsb (contains text) ["solution"; "answer"; "explanation"; "jee"].

(** A result of the search is fit to be returned (lines 76-79): its page
    was fetched with status 200 and its text holds one of the key words. *)
Definition fits (fetched : fetch_result) : bool :=
  match fetched with
  | FetchResponse status_code text => (status_code =? 200)%Z && mentions_solution text
  | FetchRaised _ => false
  end.

(** Lines 72-90: the loop over the results of the search, each with what its
    fetch gives. Every exception of the body goes on to the next result. *)
Fixpoint first_fit (results : list (string * fetch_result)) : option string :=
  match results with
  | [] => None
  | (url, fetched) :: rest =>
      match fetched with
      | FetchResponse status_code text =>
          if (status_code =? 200)%Z && mentions_solution text then Some url
          else first_fit rest
      | FetchRaised _ => first_fit rest
      end
  end.

(** [get_solution_link(jee_question)], from the results the search yields
    on: [results] are the links it yielded, in order, and [search_raised] is
    the exception it ended with, if any. Returns the link and what was shown
    through [st.warning]. The cache of [st.cache_data] is not modelled. *)
Definition get_solution_link (results : list (string * fetch_result))
    (search_raised : option string) : option string * list message :=
  match first_fit results with
  | Some url => (Some url, [])
  | None =>
      match search_raised with
      | Some google_e =>
          (None,
           [Warning ("Could not perform web search for solution: " +:+ google_e +:+
                     ". This might be due to rate limits or network issues with the `googlesearch` library.")])
      | None => (None, [])
      end
  end.

End Utils.

(** ** [profile_module.py]: the saved questions and the streak chart *)

Module ProfilePage.
Import Py Session Quiz.

(** The click a run of [display_profile] sees. The form of the name is shown
    only while no name is set, which [main()] excludes before it draws a
    page; it is left out. *)
Inductive profile_event : Type :=
  | ProfileNoClick
  | ClickRemoveBookmark (idx : nat).

(** [store.remove(question)] when [question] is the entry at position [idx]:
    the first entry equal to it goes, the one at [idx] at the latest. *)
Definition list_remove (store : list pydict) (idx : nat) (question : pydict) : list pydict :=
  let position := list_index (map PDict store) idx (PDict question) in
  (firstn position store ++ skipn (S position) store)%list.

Section Profile.

(** Lines 101-118 draw one saved question; whether that raises (a missing
    key, a subscript out of range) is a parameter. *)
Variable expander_renders : pydict -> bool.

(** Lines 100-123: the loop over the saved questions. [idx] is the position
    of the head of [rest] in [store]. *)
Fixpoint saved_questions (ev : profile_event) (idx : nat) (rest store : list pydict)
  : outcome * list pydict :=
  match rest with
  | [] => (Rendered, store)
  | question :: rest' =>
      if expander_renders question then
        match ev with
        | ClickRemoveBookmark clicked =>
            if Nat.eqb clicked idx then (Rerun, list_remove store idx question)
            else saved_questions ev (S idx) rest' store
        | ProfileNoClick => saved_questions ev (S idx) rest' store
        end
      else (Raised "KeyError or IndexError while drawing a saved question", store)
  end.

(** [display_profile()], for what it does to the session state. *)
Definition display_profile (ev : profile_event) (s : State) : outcome * State :=
  let '(o, store) := saved_questions ev 0 (bookmarked_questions s) (bookmarked_questions s) in
  (o, set_bookmarked_questions store s).

End Profile.

(** *** The streak chart (lines 131-170) *)

Definition num_days : nat := 90.

(** [date.weekday()]: Monday is 0. Day ordinal 1 is a Monday. *)
Definition weekday (d : date) : nat := Z.to_nat ((d + 6) mod 7).

(** Lines 136-138: the days shown, oldest first. *)
Definition dates_to_display (today : date) : list date :=
  map (fun i => (today - Z.of_nat (num_days - 1 - i))%Z) (seq 0 num_days).

(** [chart_grid[r].append(cell)] *)
Definition append_cell (r : nat) (cell : string) (grid : list (list string))
  : list (list string) :=
  alter (fun row => (row ++ [cell])%list) r grid.

(** Lines 153-157: a blank in the rows of the week days before the first
    day shown; the loop stops at the first row that needs none. *)
Fixpoint placeholders (rows : list nat) (first_day_of_week : nat)
    (grid : list (list string)) : list (list string) :=
  match rows with
  | [] => grid
  | i :: rest =>
      if Nat.ltb i first_day_of_week
      then placeholders rest first_day_of_week (append_cell i " " grid)
      else grid
  end.

(** Line 163: the cell of a day. *)
Definition symbol (history : gmap Z bool) (d : date) : string :=
  if default false (history !! d) then "🟢" else "⚪".

(** Lines 159-164: one cell for each day, in the row of its week day. *)
Definition fill_days (history : gmap Z bool) (dates : list date)
    (grid : list (list string)) : list (list string) :=
  fold_left (fun g d => append_cell (weekday d) (symbol history d) g) dates grid.

(** Lines 167-170: each row padded with blanks to the longest. *)
Definition pad_rows (grid : list (list string)) : list (list string) :=
  let max_len := fold_right Nat.max 0 (map (@List.length string) grid) in
  map (fun row => (row ++ repeat " " (max_len - List.length row))%list) grid.

(** The grid of the chart: seven rows, Monday first, one column a week. *)
Definition chart_grid (today : date) (history : gmap Z bool) : list (list string) :=
  let dates := dates_to_display today in
  let first_day_of_week := weekday (hd today dates) in
  pad_rows
    (fill_days history dates
       (placeholders (seq 0 7) first_day_of_week (repeat [] 7))).

(** What the chart is meant to show at position [n] of the calendar that
    starts on the Monday of the week of the first day shown: a blank before
    the first day and after today, the mark of the day in between. *)
Definition calendar_cell (today : date) (history : gmap Z bool) (n : nat) : string :=
  let first := (today - 89)%Z in
  let first_day_of_week := weekday first in
  if Nat.ltb n first_day_of_week || Nat.leb (first_day_of_week + num_days) n then " "
  else symbol history (first + Z.of_nat (n - first_day_of_week)).

(** The row of the week day [r] once the first [m] positions of the calendar
    are filled: one cell for each week that has reached that day. *)
Definition chart_row (cell : nat -> string) (m r : nat) : list string :=
  map (fun j => cell (7 * j + r)) (seq 0 ((m + 6 - r) / 7)).

End ProfilePage.

(** ** What a script run of [display_quiz] does, case by case *)

Module Effects.
Import Py Session Quiz Spec.

(** The entry that a submit or a skip writes keeps the bookmark of the entry
    it replaces. *)
Definition kept_bookmark (entry : option answer_info) : option bool :=
  match entry with
  | Some a => is_bookmarked a
  | None => Some false
  end.

(** The state a script run of [display_quiz] on the day [today] can leave
    from [s] when it sees the click [ev]: each constructor is one handler of
    the page, with the view it belongs to and the button it answers. *)
Inductive quiz_effect (today : Z) (s : State) : quiz_event -> State -> Prop :=
  | effect_none ev : quiz_effect today s ev s
  | effect_back :
      quiz_questions s = [] ->
      quiz_effect today s ClickBack (set_showing_quiz false s)
  | effect_completed ev :
      completed s ->
      quiz_effect today s ev (record_completion today s)
  | effect_new_quiz :
      completed s ->
      quiz_effect today s ClickNewQuiz (start_new_quiz (record_completion today s))
  | effect_bookmark question :
      in_progress s question ->
      answered_questions s !! current_question s = None ->
      quiz_effect today s ClickBookmark
        (set_bookmarked_questions
           (add_bookmark
              (question_with_meta question (current_quiz_main_topic s) (current_question s))
              (bookmarked_questions s))
           (set_answered_questions
              (<[current_question s :=
                   {| selected_idx := None; is_correct := None;
                      is_skipped := None; is_bookmarked := Some true |}]>
                 (answered_questions s)) s))
  | effect_toggle question text a :
      in_progress s question ->
      dict_get question "question" = Some text ->
      answered_questions s !! current_question s = Some a ->
      quiz_effect today s ClickBookmark
        (set_bookmarked_questions
           (if negb (default false (is_bookmarked a))
            then add_bookmark
                   (question_with_meta question (current_quiz_main_topic s) (current_question s))
                   (bookmarked_questions s)
            else remove_bookmark text (current_quiz_main_topic s) (bookmarked_questions s))
           (set_answered_questions
              (<[current_question s :=
                   set_is_bookmarked (negb (default false (is_bookmarked a))) a]>
                 (answered_questions s)) s))
  | effect_submit question options choice opt correct :
      in_progress s question ->
      question_answers question = Some options ->
      nth_error options choice = Some opt ->
      dict_get question "correctAnswer" = Some correct ->
      unanswered (answered_questions s !! current_question s) ->
      quiz_effect today s (ClickSubmit choice)
        (grade (py_eq (PInt (Z.of_nat (list_index options choice opt))) correct)
           (set_answered_questions
              (<[current_question s :=
                   {| selected_idx := Some (Some (list_index options choice opt));
                      is_correct :=
                        Some (py_eq (PInt (Z.of_nat (list_index options choice opt))) correct);
                      is_skipped := Some false;
                      is_bookmarked :=
                        kept_bookmark (answered_questions s !! current_question s) |}]>
                 (answered_questions s)) s))
  | effect_skip question :
      in_progress s question ->
      unanswered (answered_questions s !! current_question s) ->
      quiz_effect today s ClickSkip
        (set_current_question (current_question s + 1)
           (set_answered_questions
              (<[current_question s :=
                   {| selected_idx := Some None; is_correct := Some false;
                      is_skipped := Some true;
                      is_bookmarked :=
                        kept_bookmark (answered_questions s !! current_question s) |}]>
                 (answered_questions s)) s))
  | effect_next question a :
      in_progress s question ->
      answered_questions s !! current_question s = Some a ->
      finalized (Some a) ->
      quiz_effect today s ClickNext (set_current_question (current_question s + 1) s).

(** The state a generation that yielded [questions] leaves (lines 129-137 of
    [display_quiz_generator]). *)
Definition quiz_started (questions : list pydict) (topic : string) (s : State) : State :=
  set_current_quiz_main_topic topic
    (set_topics_covered ({[topic]} ∪ topics_covered s)
       (set_answered_questions ∅
          (set_score 0
             (set_current_question 0
                (set_showing_quiz true (set_quiz_questions questions s)))))).

(** The shape of a session on the quiz [questions]: the cursor is within
    the quiz, the entries lie at or before the cursor, every question before
    the cursor is answered or skipped, and a stored answer is an index into
    the answer choices of its question. *)
Definition session_shape (questions : list pydict) (s : State) : Prop :=
  quiz_questions s = questions ∧
  current_question s ≤ List.length questions ∧
  (∀ i a, answered_questions s !! i = Some a ->
          i ≤ current_question s ∧ i < List.length questions) ∧
  (∀ i, i < current_question s -> finalized (answered_questions s !! i)) ∧
  (∀ i a k, answered_questions s !! i = Some a -> selected_idx a = Some (Some k) ->
     ∃ question options,
       nth_error questions i = Some question ∧
       question_answers question = Some options ∧
       k < List.length options).

(** Every entry is in one of the three answer states: it carries the
    bookmark only, or it is a skipped question, or it is an answer with its
    choice and its verdict. *)
Definition entries_tagged (answered : gmap nat answer_info) : Prop :=
  ∀ i a, answered !! i = Some a ->
    match selected_idx a with
    | None => is_skipped a = None
    | Some None => skipped a
    | Some (Some choice) => ∃ correct, answered_with a choice correct
    end.

(** The streak and the calendar agree: with no completion yet the streak is
    0 and the calendar is empty; otherwise the streak is at least 1 and the
    calendar marks each of the [current_streak] days that end at the last
    completion. The calendar never holds [False]. *)
Definition streak_sound (s : State) : Prop :=
  match last_quiz_date s with
  | None => current_streak s = 0 ∧ streak_history s = ∅
  | Some last =>
      1 ≤ current_streak s ∧
      ∀ d, (last - Z.of_nat (current_streak s) < d ≤ last)%Z ->
           streak_history s !! d = Some true
  end ∧
  ∀ d b, streak_history s !! d = Some b -> b = true.

(** The counters are sound: no more correct answers than answers, in every
    entry of the ledger and overall. *)
Definition counters_sound (s : State) : Prop :=
  total_correct_answers s ≤ total_questions_solved s ∧
  ∀ topic p, topic_performance s !! topic = Some p ->
             correct_solved p ≤ total_solved p.

End Effects.

(** ** A sample run of the application *)

Module Samples.
Import Py Session Quiz.

Definition newline : string := String (ascii_of_nat 10) EmptyString.

(** A response of the provider with a fenced array of two questions, the
    second with a part of its explanation. *)
Definition sample_response : provider_result :=
  ProviderText
    ("Here is your quiz:" +:+ newline +:+ "```json" +:+ newline +:+
     Json.quoted
       ("[{'question':'Q1','answers':['a','b','c','d'],'correctAnswer':1}," +:+
        "{'question':'Q2','answers':['x','y'],'correctAnswer':0," +:+
        "'explanation':{'detailed_steps':'see y'}}]") +:+
     newline +:+ "```").

Definition day : date := 739000%Z.

(** The form is submitted in a new session. *)
Definition state_generated : State :=
  (page_step Json.loads day
     (OnGenerator (GenSubmit "optics" "JEE Mains" 2 sample_response))
     initialize_session_state).2.

(** The first question is bookmarked, answered with its second choice, and
    left. *)
Definition state_bookmarked : State :=
  (page_step Json.loads day (OnQuiz ClickBookmark) state_generated).2.

Definition state_answered : State :=
  (page_step Json.loads day (OnQuiz (ClickSubmit 1)) state_bookmarked).2.

Definition state_second : State :=
  (page_step Json.loads day (OnQuiz ClickNext) state_answered).2.

(** The second question is skipped, which completes the quiz. *)
Definition state_completed : State :=
  (page_step Json.loads day (OnQuiz ClickSkip) state_second).2.

(** The next day a quiz is started again from the review. *)
Definition state_restarted : State :=
  (page_step Json.loads (day + 1) (OnQuiz ClickNewQuiz) state_completed).2.

End Samples.

(** * Properties *)

Import Py Session Quiz Spec.

(** ** The streak *)

Lemma record_completion_frame today s :
  let s' := record_completion today s in
  quiz_questions s' = quiz_questions s ∧ current_question s' = current_question s ∧
  showing_quiz s' = showing_quiz s ∧ score s' = score s ∧
  answered_questions s' = answered_questions s ∧
  total_questions_solved s' = total_questions_solved s ∧
  total_correct_answers s' = total_correct_answers s ∧
  topics_covered s' = topics_covered s ∧
  topic_performance s' = topic_performance s ∧
  current_quiz_main_topic s' = current_quiz_main_topic s ∧
  bookmarked_questions s' = bookmarked_questions s.
Proof.
  unfold record_completion. simpl.
  destruct (last_quiz_date s) as [last|]; simpl;
    repeat match goal with |- context [if ?b then _ else _] => destruct b end;
    simpl; repeat split; reflexivity.
Qed.

Lemma record_completion_streak today s :
  current_streak (record_completion today s) =
  match last_quiz_date s with
  | Some last =>
      if (today =? last + 1)%Z then current_streak s + 1
      else if (today =? last)%Z then current_streak s else 1
  | None => 1
  end.
Proof.
  unfold record_completion. simpl.
  destruct (last_quiz_date s) as [last|]; simpl; [|reflexivity].
  destruct (today =? last + 1)%Z; [reflexivity|].
  destruct (today =? last)%Z; reflexivity.
Qed.

Lemma record_completion_last today s :
  last_quiz_date (record_completion today s) = Some today.
Proof. reflexivity. Qed.

Lemma record_completion_history today s :
  streak_history (record_completion today s) = <[today := true]> (streak_history s).
Proof.
  unfold record_completion. simpl.
  destruct (last_quiz_date s) as [last|]; simpl; [|reflexivity].
  destruct (today =? last + 1)%Z; [reflexivity|].
  destruct (today =? last)%Z; reflexivity.
Qed.

(** On a completed session every script run of [display_quiz] goes through
    the streak update, whatever the click. *)
Lemma display_quiz_completed today ev s :
  completed s ->
  let s' := (display_quiz today ev s).2 in
  let r := record_completion today s in
  current_streak s' = current_streak r ∧
  last_quiz_date s' = last_quiz_date r ∧
  streak_history s' = streak_history r.
Proof.
  intros [Hne Hlen]. unfold display_quiz.
  destruct (quiz_questions s) as [|q qs] eqn:Hq; [congruence|].
  cbv zeta.
  replace (Nat.leb (List.length (q :: qs)) (current_question s)) with true
    by (symmetry; apply Nat.leb_le; exact Hlen).
  generalize (record_completion today s). intros r.
  destruct (review_all _ 0 _); [destruct ev|]; repeat split; reflexivity.
Qed.

(** Script runs without a click keep a completed session completed. *)
Lemma display_quiz_idle_completed today s :
  completed s -> completed (display_quiz today NoClick s).2.
Proof.
  intros [Hne Hlen]. unfold completed, display_quiz.
  destruct (quiz_questions s) as [|q qs] eqn:Hq; [congruence|].
  cbv zeta.
  replace (Nat.leb (List.length (q :: qs)) (current_question s)) with true
    by (symmetry; apply Nat.leb_le; exact Hlen).
  pose proof (record_completion_frame today s) as (Hqs & Hcur & _).
  cbv zeta in Hqs, Hcur.
  destruct (review_all _ 0 _); cbn [snd]; rewrite Hqs, Hcur, Hq; split; auto.
Qed.

(** C4. The streak on quiz completion. On a completed session, the script
    run of [display_quiz] on the day [today] records [today] as the last
    completion and sets the streak: to 1 with no prior completion; one more
    when the last completion was the day before; unchanged when it was the
    same day, however often the page is run again that day; 1 in any other
    case, a gap of two days or more in particular. From a state with no prior
    completion, completions on [today] and [today + 1] give the streak 2, and
    a further one on [today + 3] gives 1. *)
Theorem streak_on_completion (today : Z) (ev : quiz_event) (s : State) :
  completed s ->
  let run day s := (display_quiz day NoClick s).2 in
  let s' := (display_quiz today ev s).2 in
  last_quiz_date s' = Some today ∧
  (last_quiz_date s = None -> current_streak s' = 1) ∧
  (last_quiz_date s = Some (today - 1)%Z -> current_streak s' = current_streak s + 1) ∧
  (last_quiz_date s = Some today -> current_streak s' = current_streak s) ∧
  (∀ last, last_quiz_date s = Some last -> (last + 2 <= today)%Z -> current_streak s' = 1) ∧
  (∀ n, current_streak (Nat.iter n (run today) (run today s)) = current_streak (run today s)) ∧
  (last_quiz_date s = None ->
   current_streak (run (today + 1)%Z (run today s)) = 2 ∧
   current_streak (run (today + 3)%Z (run (today + 1)%Z (run today s))) = 1).
Proof.
  intros Hc run s'.
  assert (Hstep : ∀ day e t, completed t ->
            current_streak (display_quiz day e t).2 =
              match last_quiz_date t with
              | Some last =>
                  if (day =? last + 1)%Z then current_streak t + 1
                  else if (day =? last)%Z then current_streak t else 1
              | None => 1
              end ∧
            last_quiz_date (display_quiz day e t).2 = Some day).
  { intros day e t Ht.
    destruct (display_quiz_completed day e t Ht) as (H1 & H2 & _).
    cbv zeta in H1, H2.
    rewrite H1, H2, record_completion_streak, record_completion_last. auto. }
  destruct (Hstep today ev s Hc) as [Hs Hl]. fold s' in Hs, Hl.
  split; [exact Hl|].
  split; [intros H; rewrite Hs, H; reflexivity|].
  split.
  { intros H. rewrite Hs, H.
    replace (today =? today - 1 + 1)%Z with true by (symmetry; apply Z.eqb_eq; lia).
    reflexivity. }
  split.
  { intros H. rewrite Hs, H.
    replace (today =? today + 1)%Z with false by (symmetry; apply Z.eqb_neq; lia).
    rewrite Z.eqb_refl. reflexivity. }
  split.
  { intros last H Hgap. rewrite Hs, H.
    replace (today =? last + 1)%Z with false by (symmetry; apply Z.eqb_neq; lia).
    replace (today =? last)%Z with false by (symmetry; apply Z.eqb_neq; lia).
    reflexivity. }
  assert (Hrun : ∀ day t, completed t -> completed (run day t))
    by (intros; apply display_quiz_idle_completed; assumption).
  assert (Hidle : ∀ day t, completed t ->
            current_streak (run day t) =
              match last_quiz_date t with
              | Some last =>
                  if (day =? last + 1)%Z then current_streak t + 1
                  else if (day =? last)%Z then current_streak t else 1
              | None => 1
              end ∧
            last_quiz_date (run day t) = Some day)
    by (intros day t Ht; exact (Hstep day NoClick t Ht)).
  split.
  { assert (Hiter : ∀ n, completed (Nat.iter n (run today) (run today s)) ∧
              last_quiz_date (Nat.iter n (run today) (run today s)) = Some today ∧
              current_streak (Nat.iter n (run today) (run today s)) =
                current_streak (run today s)).
    { induction n as [|n (IHc & IHl & IHs)].
      - change (Nat.iter 0 (run today) (run today s)) with (run today s).
        split; [apply Hrun, Hc|]. split; [apply (Hidle today s Hc)|reflexivity].
      - change (Nat.iter (S n) (run today) (run today s))
          with (run today (Nat.iter n (run today) (run today s))).
        split; [apply Hrun, IHc|].
        destruct (Hidle today _ IHc) as [Hs' Hl'].
        split; [exact Hl'|].
        rewrite Hs', IHl.
        replace (today =? today + 1)%Z with false by (symmetry; apply Z.eqb_neq; lia).
        rewrite Z.eqb_refl. exact IHs. }
    intros n. apply Hiter. }
  intros Hnone.
  destruct (Hidle today s Hc) as [Hs1 Hl1].
  rewrite Hnone in Hs1.
  pose proof (Hrun today s Hc) as Hc1.
  destruct (Hidle (today + 1)%Z _ Hc1) as [Hs2 Hl2].
  rewrite Hl1, Z.eqb_refl, Hs1 in Hs2.
  split; [exact Hs2|].
  pose proof (Hrun (today + 1)%Z _ Hc1) as Hc2.
  destruct (Hidle (today + 3)%Z _ Hc2) as [Hs3 _].
  rewrite Hl2 in Hs3.
  replace (today + 3 =? today + 1 + 1)%Z with false in Hs3 by (symmetry; apply Z.eqb_neq; lia).
  replace (today + 3 =? today + 1)%Z with false in Hs3 by (symmetry; apply Z.eqb_neq; lia).
  exact Hs3.
Qed.

Lemma streak_on_completion_witness :
  completed Examples.session_done ∧
  current_streak (display_quiz 739000 NoClick Examples.session_done).2 = 1.
Proof.
  assert (H : completed Examples.session_done)
    by (split; [discriminate | apply le_n]).
  split; [exact H|].
  exact (proj1 (proj2 (streak_on_completion 739000 NoClick Examples.session_done H)) eq_refl).
Defined.

(** ** The accuracy shown on the profile *)

(** C5, as the code has it. For a topic with nothing attempted (no ledger
    entry, or an entry whose total is 0) the accuracy is the number 0, shown
    in the neutral colour of the tag; there is no value apart from the
    numbers. For a topic with a positive total it is [correct / total * 100],
    a percentage, shown in green, orange or red. *)
Theorem accuracy_of_topic (s : State) (topic : string) :
  let p := Profile.performance s topic in
  (topic_performance s !! topic = None -> total_solved p = 0) ∧
  (total_solved p = 0 ->
   Profile.percentage p = 0%Q ∧ Profile.color p = "var(--text-color)") ∧
  (0 < total_solved p ->
   Profile.percentage p = Profile.percent_of (correct_solved p) (total_solved p) ∧
   In (Profile.color p) ["green"; "orange"; "red"]).
Proof.
  intros p. split; [|split].
  - intros H. unfold p, Profile.performance. rewrite H. reflexivity.
  - intros H. unfold Profile.percentage, Profile.color. rewrite H. auto.
  - intros H. unfold Profile.color, Profile.percentage.
    apply Nat.ltb_lt in H. rewrite H. split; [reflexivity|].
    destruct (Qle_bool 75 _); [now left|].
    destruct (Qle_bool 50 _); [right; now left | right; right; now left].
Qed.

Lemma accuracy_of_topic_witness :
  let s := set_topic_performance
             {[ "optics" := {| total_solved := 2; correct_solved := 1 |} ]}
             initialize_session_state in
  (Profile.percentage (Profile.performance s "optics") == 50)%Q ∧
  Profile.color (Profile.performance s "optics") = "orange" ∧
  Profile.percentage (Profile.performance s "waves") = 0%Q.
Proof.
  intros s.
  destruct (accuracy_of_topic s "optics") as (_ & _ & Hpos).
  destruct (accuracy_of_topic s "waves") as (Hnone & Hzero & _).
  split; [|split].
  - rewrite (proj1 (Hpos (Nat.lt_0_succ 1))). reflexivity.
  - reflexivity.
  - exact (proj1 (Hzero (Hnone eq_refl))).
Defined.

(** C5, as stated, fails: with nothing attempted the accuracy is the number
    0, the very value of a topic with four attempts and none correct. The
    overall accuracy of lines 24-26 does the same. *)
Lemma accuracy_sentinel_counterexample :
  Profile.percentage {| total_solved := 0; correct_solved := 0 |} = 0%Q ∧
  (Profile.percentage {| total_solved := 0; correct_solved := 0 |} ==
   Profile.percentage {| total_solved := 4; correct_solved := 0 |})%Q ∧
  Profile.accuracy initialize_session_state = 0%Q.
Proof. repeat split. Qed.

(** ** The bookmark store *)

Lemma py_eq_str (v : pyval) (t : string) :
  py_eq v (PStr t) = true <-> v = PStr t.
Proof.
  destruct v as [|b|z|q|s|l|d]; simpl;
    try (split; intros H; discriminate H).
  rewrite String.eqb_eq. split; congruence.
Qed.

(** The test of the removal: the entry carries this question text and this
    topic. *)
Lemma bookmark_matches_spec (text topic : string) (q : pydict) :
  bookmark_matches (PStr text) topic q = true <->
  dict_get q "question" = Some (PStr text) ∧ dict_get q "quiz_topic" = Some (PStr topic).
Proof.
  unfold bookmark_matches. rewrite andb_true_iff, !py_eq_str.
  destruct (dict_get q "question") as [v|], (dict_get q "quiz_topic") as [w|];
    simpl; split; intros [H1 H2]; split; congruence.
Qed.

(** Removing with a text and a topic that no entry carries gives the store
    back. *)
Lemma remove_bookmark_unmatched (store : list (list (string * pyval))) (text topic : string) :
  (∀ q, In q store -> ¬ (dict_get q "question" = Some (PStr text) ∧
                         dict_get q "quiz_topic" = Some (PStr topic))) ->
  remove_bookmark (PStr text) topic store = store.
Proof.
  intros Hno. unfold remove_bookmark.
  induction store as [|q store IH]; [reflexivity|]. simpl.
  destruct (bookmark_matches (PStr text) topic q) eqn:Hm.
  - exfalso. apply (Hno q); [now left|]. apply bookmark_matches_spec, Hm.
  - simpl. f_equal. apply IH. intros q' Hin. apply Hno. now right.
Qed.

(** C9. The bookmark store. [add] appends the snapshot whatever the store
    holds (adding it twice leaves it twice); [remove] keeps exactly the
    entries whose question text and topic do not both match; adding one
    snapshot to the empty store and removing with its text and topic gives
    the empty store; removing with a key that matches no entry gives the
    store back. *)
Theorem bookmark_store_add_remove (snapshot : pydict) (store : list pydict)
    (text topic : string) :
  add_bookmark snapshot store = (store ++ [snapshot])%list ∧
  add_bookmark snapshot (add_bookmark snapshot store)
    = (store ++ [snapshot; snapshot])%list ∧
  (∀ q, In q (remove_bookmark (PStr text) topic store) <->
        In q store ∧ ¬ (dict_get q "question" = Some (PStr text) ∧
                        dict_get q "quiz_topic" = Some (PStr topic))) ∧
  (dict_get snapshot "question" = Some (PStr text) ->
   dict_get snapshot "quiz_topic" = Some (PStr topic) ->
   remove_bookmark (PStr text) topic (add_bookmark snapshot []) = []) ∧
  ((∀ q, In q store -> ¬ (dict_get q "question" = Some (PStr text) ∧
                          dict_get q "quiz_topic" = Some (PStr topic))) ->
   remove_bookmark (PStr text) topic store = store).
Proof.
  split; [reflexivity|].
  split; [unfold add_bookmark; rewrite <- app_assoc; reflexivity|].
  split.
  { intros q. unfold remove_bookmark. rewrite filter_In, negb_true_iff.
    rewrite <- bookmark_matches_spec.
    destruct (bookmark_matches (PStr text) topic q); split; intros [H1 H2];
      split; auto; congruence. }
  split.
  { intros Hq Ht. unfold add_bookmark, remove_bookmark. simpl.
    rewrite (proj2 (bookmark_matches_spec text topic snapshot) (conj Hq Ht)).
    reflexivity. }
  apply remove_bookmark_unmatched.
Qed.

Lemma bookmark_store_add_remove_witness :
  remove_bookmark (PStr "Q") "optics"
    (add_bookmark (question_with_meta Examples.question_Q "optics" 0) []) = [] ∧
  remove_bookmark (PStr "Q") "waves"
    [question_with_meta Examples.question_Q "optics" 0]
    = [question_with_meta Examples.question_Q "optics" 0].
Proof.
  pose proof (bookmark_store_add_remove
                (question_with_meta Examples.question_Q "optics" 0) [] "Q" "optics")
    as (_ & _ & _ & Hempty & _).
  pose proof (bookmark_store_add_remove
                (question_with_meta Examples.question_Q "optics" 0)
                [question_with_meta Examples.question_Q "optics" 0] "Q" "waves")
    as (_ & _ & _ & _ & Hnoop).
  split.
  - exact (Hempty eq_refl eq_refl).
  - apply Hnoop. intros q [<-|[]] [_ H]. discriminate H.
Defined.

(** ** Dicts *)

Lemma dict_set_fresh (m : list (string * pyval)) (k : string) (v : pyval) :
  dict_get m k = None -> dict_set m k v = (m ++ [(k, v)])%list.
Proof.
  induction m as [|[k' v'] m IH]; intros H; [reflexivity|]. simpl in *.
  destruct (String.eqb k' k); [discriminate H|]. rewrite IH; auto.
Qed.

Lemma dict_get_set_eq (m : list (string * pyval)) (k : string) (v : pyval) :
  dict_get (dict_set m k v) k = Some v.
Proof.
  induction m as [|[k' v'] m IH]; simpl.
  - rewrite String.eqb_refl. reflexivity.
  - destruct (String.eqb k' k) eqn:E; simpl; rewrite E; auto.
Qed.

Lemma dict_get_set_ne (m : list (string * pyval)) (k k' : string) (v : pyval) :
  k ≠ k' -> dict_get (dict_set m k v) k' = dict_get m k'.
Proof.
  intros Hne. induction m as [|[k0 v0] m IH]; simpl.
  - destruct (String.eqb k k') eqn:E; [apply String.eqb_eq in E; congruence|reflexivity].
  - destruct (String.eqb k0 k) eqn:E; simpl.
    + apply String.eqb_eq in E. subst k0.
      destruct (String.eqb k k') eqn:E'; [apply String.eqb_eq in E'; congruence|reflexivity].
    + destruct (String.eqb k0 k'); auto.
Qed.

Lemma dict_set_set (m : list (string * pyval)) (k : string) (v w : pyval) :
  dict_set (dict_set m k v) k w = dict_set m k w.
Proof.
  induction m as [|[k' v'] m IH]; simpl.
  - rewrite String.eqb_refl. reflexivity.
  - destruct (String.eqb k' k) eqn:E; simpl; rewrite E; [reflexivity|]. rewrite IH. reflexivity.
Qed.

(** ** The quiz content parser *)

Section Parser.

Variable json_loads : string -> loads_result.

(** X21. [generate_quiz] returns in every case: a non-empty list of
    questions and no diagnostic, or the empty list and one diagnostic. *)
Lemma generate_quiz_total (response : provider_result) :
  (∃ diagnostic, generate_quiz json_loads response = ([], [Error diagnostic])) ∨
  (∃ q qs, generate_quiz json_loads response = (q :: qs, [])).
Proof.
  unfold generate_quiz.
  destruct response as [e|text]; [left; eauto|].
  destruct (json_candidate text) as [json_text|]; [|left; eauto].
  destruct (json_loads json_text) as [v|je|e]; [|left; eauto|left; eauto].
  destruct (truthy v) eqn:Htruthy; [|left; eauto].
  destruct (process_questions v) as [e|qs] eqn:Hp; [left; eauto|].
  destruct qs as [|q qs]; [|right; eauto].
  exfalso. destruct v as [| | | | |l|]; simpl in Hp; try discriminate Hp.
  destruct l as [|x l]; [discriminate Htruthy|]. simpl in Hp.
  destruct (ensure_explanation x); [discriminate Hp|].
  destruct (ensure_explanations l); discriminate Hp.
Qed.

(** What the three [setdefault] calls leave in a question object: its keys
    as they were, and under ["explanation"] an object in which the two
    sub-fields keep the value they had, or take the default. *)
Lemma ensure_explanation_fills (d : list (string * pyval)) :
  (dict_get d "explanation" = None ->
   ensure_explanation (PDict d) =
     inr (d ++ [("explanation",
                 PDict [("detailed_steps", PStr detailed_steps_default);
                        ("youtube_link", PStr EmptyString)])])%list) ∧
  (∀ e, dict_get d "explanation" = Some (PDict e) ->
     ∃ e', ensure_explanation (PDict d) = inr (dict_set d "explanation" (PDict e')) ∧
       dict_get e' "detailed_steps" =
         Some (default (PStr detailed_steps_default) (dict_get e "detailed_steps")) ∧
       dict_get e' "youtube_link" =
         Some (default (PStr EmptyString) (dict_get e "youtube_link"))) ∧
  (∀ v, dict_get d "explanation" = Some v -> (∀ e, v ≠ PDict e) ->
     ensure_explanation (PDict d) = inl (no_setdefault v)).
Proof.
  split; [|split].
  - intros H. unfold ensure_explanation, setdefault, dict_has. rewrite H.
    rewrite dict_get_set_eq. simpl. rewrite dict_set_set.
    apply f_equal, dict_set_fresh, H.
  - intros e H. unfold ensure_explanation.
    replace (setdefault d "explanation" (PDict [])) with d
      by (unfold setdefault, dict_has; rewrite H; reflexivity).
    rewrite H. eexists. split; [reflexivity|].
    unfold setdefault, dict_has. split.
    + destruct (dict_get e "detailed_steps") as [x|] eqn:E1; simpl.
      * destruct (dict_get e "youtube_link") eqn:E2; [exact E1|].
        rewrite dict_get_set_ne by discriminate. exact E1.
      * rewrite dict_get_set_ne by discriminate.
        destruct (dict_get e "youtube_link") eqn:E2; [apply dict_get_set_eq|].
        rewrite dict_get_set_ne by discriminate. apply dict_get_set_eq.
    + destruct (dict_get e "detailed_steps") as [x|] eqn:E1; simpl.
      * destruct (dict_get e "youtube_link") eqn:E2; [exact E2|]. apply dict_get_set_eq.
      * rewrite dict_get_set_ne by discriminate.
        destruct (dict_get e "youtube_link") eqn:E2; [|apply dict_get_set_eq].
        rewrite dict_get_set_ne by discriminate. exact E2.
  - intros v H Hv. unfold ensure_explanation, setdefault, dict_has. rewrite H, H.
    destruct v; try reflexivity. exfalso. eapply Hv. reflexivity.
Qed.

(** C6. Whatever the provider's text, [generate_quiz] returns; when no
    candidate array is located in the text, or the located candidate is not
    accepted by [json.loads], it returns the empty list of questions and
    reports one diagnostic. *)
Theorem generate_quiz_unparseable (text : string) :
  json_candidate text = None ∨
  (∃ json_text, json_candidate text = Some json_text ∧
                ∀ v, json_loads json_text ≠ Loaded v) ->
  ∃ diagnostic, generate_quiz json_loads (ProviderText text) = ([], [Error diagnostic]).
Proof.
  intros [Hnone | (json_text & Hsome & Hfail)]; unfold generate_quiz.
  - rewrite Hnone. eauto.
  - rewrite Hsome. destruct (json_loads json_text) as [v|je|e] eqn:Hl; eauto.
    exfalso. exact (Hfail v eq_refl).
Qed.

(** X22. An array of question objects, each with no explanation or with an
    object for explanation, is accepted whole: the result has one question
    for each element, with the defaults filled in. *)
Lemma generate_quiz_accepts (text json_text : string) (l : list pyval) :
  json_candidate text = Some json_text ->
  json_loads json_text = Loaded (PList l) ->
  l ≠ [] ->
  Forall (λ q, ∃ d, q = PDict d ∧
            (dict_get d "explanation" = None ∨
             ∃ e, dict_get d "explanation" = Some (PDict e))) l ->
  ∃ qs, generate_quiz json_loads (ProviderText text) = (qs, []) ∧
        Forall2 (λ q d, ensure_explanation q = inr d) l qs.
Proof.
  intros Hc Hl Hne Hall. unfold generate_quiz. rewrite Hc, Hl.
  replace (truthy (PList l)) with true by (destruct l; [congruence|reflexivity]).
  cbn [process_questions].
  assert (H : ∃ qs, ensure_explanations l = inr qs ∧
                    Forall2 (λ q d, ensure_explanation q = inr d) l qs).
  { clear Hl Hne. induction Hall as [|q l (d & -> & Hd) _ (qs & IH1 & IH2)].
    - exists []. split; [reflexivity|constructor].
    - assert (Hq : ∃ d', ensure_explanation (PDict d) = inr d').
      { destruct (ensure_explanation_fills d) as (Hnone & Hsome & _).
        destruct Hd as [Hd | [e Hd]]; [eauto|].
        destruct (Hsome e Hd) as (e' & He' & _). eauto. }
      destruct Hq as [d' Hd'].
      exists (d' :: qs). cbn [ensure_explanations]. rewrite Hd', IH1.
      split; [reflexivity|]. constructor; assumption. }
  destruct H as (qs & Hqs & HF). rewrite Hqs. eauto.
Qed.

End Parser.

Lemma generate_quiz_unparseable_witness :
  (∃ diagnostic,
     generate_quiz Json.loads (ProviderText "Sorry, I cannot write a quiz on that.")
       = ([], [Error diagnostic])) ∧
  (∃ diagnostic,
     generate_quiz Json.loads (ProviderText "Here you go: [1, 2,] (draft)")
       = ([], [Error diagnostic])).
Proof.
  split.
  - apply (generate_quiz_unparseable Json.loads). left. reflexivity.
  - apply (generate_quiz_unparseable Json.loads). right.
    exists "[1, 2,]". split; [reflexivity|].
    intros v. vm_compute. discriminate.
Defined.

(** The sample response of the design document: prose, then a fenced array
    with one question that has no explanation. *)
Example generate_quiz_sample :
  let nl := String (ascii_of_nat 10) EmptyString in
  generate_quiz Json.loads
    (ProviderText
       ("Here you go:" +:+ nl +:+ "```json" +:+ nl +:+
        Json.quoted "[{'question':'Q','answers':['a','b','c','d'],'correctAnswer':1}]" +:+
        nl +:+ "```"))
  = ([Examples.question_Q], []).
Proof. reflexivity. Qed.

(** C7 at the inputs where the code leaves it. A question object whose
    explanation is present but is not an object ([null], or a plain text)
    has none of the two sub-fields; [generate_quiz] does not fill them in:
    the [setdefault] on the explanation raises, and the whole batch is lost,
    the questions before it included. *)
Theorem explanation_not_object_rejects_batch :
  generate_quiz Json.loads
    (ProviderText (Json.quoted
       "[{'question':'Q','answers':['a','b','c','d'],'correctAnswer':1,'explanation':null}]"))
  = ([], [Error "Error generating quiz: 'NoneType' object has no attribute 'setdefault'"]) ∧
  generate_quiz Json.loads
    (ProviderText (Json.quoted
       "[{'question':'Q','answers':['a','b','c','d'],'correctAnswer':1,'explanation':'See the textbook.'}]"))
  = ([], [Error "Error generating quiz: 'str' object has no attribute 'setdefault'"]) ∧
  generate_quiz Json.loads
    (ProviderText (Json.quoted
       "[{'question':'Q','answers':['a','b','c','d'],'correctAnswer':1}, {'question':'R','answers':['a','b','c','d'],'correctAnswer':0,'explanation':null}]"))
  = ([], [Error "Error generating quiz: 'NoneType' object has no attribute 'setdefault'"]).
Proof. repeat split. Qed.

(** ** The quiz session *)

(** On a session in progress whose current question has a prompt text,
    [display_quiz] is one of its two views of the question. *)
Lemma display_quiz_in_progress today ev s question text :
  in_progress s question ->
  dict_get question "question" = Some text ->
  display_quiz today ev s =
  match answered_questions s !! current_question s with
  | Some answer_info => answered_question ev question text answer_info s
  | None => unanswered_question ev question s
  end.
Proof.
  unfold in_progress, display_quiz. intros Hq Ht.
  assert (Hlt : current_question s < List.length (quiz_questions s))
    by (apply nth_error_Some; congruence).
  destruct (quiz_questions s) as [|q qs] eqn:Hqs; [simpl in Hlt; lia|].
  cbv zeta.
  replace (Nat.leb (List.length (q :: qs)) (current_question s)) with false
    by (symmetry; apply Nat.leb_gt; exact Hlt).
  rewrite Hq, Ht. reflexivity.
Qed.

(** The counters after a graded answer. *)
Lemma grade_fields correct s :
  let s' := grade correct s in
  total_questions_solved s' = total_questions_solved s + 1 ∧
  score s' = score s + (if correct then 1 else 0) ∧
  total_correct_answers s' = total_correct_answers s + (if correct then 1 else 0) ∧
  topic_performance s' =
    record_topic (current_quiz_main_topic s) correct (topic_performance s) ∧
  quiz_questions s' = quiz_questions s ∧ current_question s' = current_question s ∧
  showing_quiz s' = showing_quiz s ∧ answered_questions s' = answered_questions s ∧
  topics_covered s' = topics_covered s ∧ current_streak s' = current_streak s ∧
  last_quiz_date s' = last_quiz_date s ∧ streak_history s' = streak_history s ∧
  current_quiz_main_topic s' = current_quiz_main_topic s ∧
  bookmarked_questions s' = bookmarked_questions s.
Proof.
  destruct correct; cbn; rewrite ?Nat.add_0_r; repeat split; reflexivity.
Qed.

(** The ledger entry of the graded topic. *)
Lemma record_topic_lookup topic correct ledger0 :
  record_topic topic correct ledger0 !! topic =
  Some {| total_solved :=
            total_solved (default {| total_solved := 0; correct_solved := 0 |}
                            (ledger0 !! topic)) + 1;
          correct_solved :=
            correct_solved (default {| total_solved := 0; correct_solved := 0 |}
                              (ledger0 !! topic)) + (if correct then 1 else 0) |}.
Proof.
  unfold record_topic. rewrite lookup_insert_eq.
  destruct correct; rewrite ?Nat.add_0_r; reflexivity.
Qed.

(** [options.index] finds the chosen position when no earlier option is
    equal to the chosen one. *)
Lemma list_index_first (options : list pyval) (choice : nat) (opt : pyval) :
  (∀ j o, j < choice -> nth_error options j = Some o -> py_eq o opt = false) ->
  choice < List.length options ->
  list_index options choice opt = choice.
Proof.
  revert options. induction choice as [|k IH]; intros options Hfirst Hlt.
  - destruct options; reflexivity.
  - destruct options as [|o rest]; [simpl in Hlt; lia|]. simpl.
    rewrite (Hfirst 0 o) by (simpl; auto with arith).
    f_equal. apply IH; [|simpl in Hlt; lia].
    intros j o' Hj Ho'. apply (Hfirst (S j) o'); [lia|exact Ho'].
Qed.

Lemma list_index_le (options : list pyval) (choice : nat) (opt : pyval) :
  list_index options choice opt <= choice.
Proof.
  revert options. induction choice as [|k IH]; intros [|o rest]; simpl; try lia.
  destruct (py_eq o opt); [lia|]. specialize (IH rest). lia.
Qed.

(** Submitting on an unanswered question, whatever its answer choices. The
    question becomes answered with the index that [options.index] gives for
    the chosen option, the verdict is that index against the correct one, the
    bookmark stays, and the counters and the ledger take the verdict. *)
Lemma submit_unanswered today s question options choice opt correct :
  in_progress s question ->
  question_record question options ->
  nth_error options choice = Some opt ->
  dict_get question "correctAnswer" = Some correct ->
  unanswered (answered_questions s !! current_question s) ->
  let selected := list_index options choice opt in
  let verdict := py_eq (PInt (Z.of_nat selected)) correct in
  let r := display_quiz today (ClickSubmit choice) s in
  r.1 = Rerun ∧
  (∃ a, answered_questions r.2 !! current_question s = Some a ∧
        answered_with a selected verdict ∧
        default false (is_bookmarked a) =
          bookmark_flag (answered_questions s) (current_question s)) ∧
  (∀ i, i ≠ current_question s ->
        answered_questions r.2 !! i = answered_questions s !! i) ∧
  total_questions_solved r.2 = total_questions_solved s + 1 ∧
  score r.2 = score s + (if verdict then 1 else 0) ∧
  total_correct_answers r.2 = total_correct_answers s + (if verdict then 1 else 0) ∧
  topic_performance r.2 =
    record_topic (current_quiz_main_topic s) verdict (topic_performance s) ∧
  current_question r.2 = current_question s ∧
  quiz_questions r.2 = quiz_questions s ∧
  bookmarked_questions r.2 = bookmarked_questions s.
Proof.
  intros Hq [[text Ht] Ho] Hopt Hc Hu selected verdict r.
  unfold r. rewrite (display_quiz_in_progress today _ s question text Hq Ht).
  assert (Hsub : submitted_answer question options choice = inr (selected, verdict))
    by (unfold submitted_answer; rewrite Hopt, Hc; reflexivity).
  destruct (answered_questions s !! current_question s) as [a|] eqn:Ha.
  - destruct Hu as [Hsel Hskip].
    unfold answered_question. rewrite Hskip, Hsel, Ho, Hsub. cbn [negb andb bool_decide fst snd].
    rewrite bool_decide_eq_true_2 by reflexivity. cbn [andb fst snd].
    match goal with |- context [grade ?c ?t] =>
      pose proof (grade_fields c t) as (G1 & G2 & G3 & G4 & G5 & G6 & G7 & G8 & G9 & G10 & G11 & G12 & G13 & G14)
    end.
    cbv zeta in *. cbn [fst snd].
    rewrite G1, G2, G3, G4, G5, G6, G8, G14. cbn.
    split; [reflexivity|]. split.
    { eexists. rewrite lookup_insert_eq. split; [reflexivity|].
      split; [repeat split|]. unfold bookmark_flag. rewrite Ha. reflexivity. }
    split; [intros i Hi; apply lookup_insert_ne; congruence|].
    repeat split; reflexivity.
  - unfold unanswered_question. rewrite Ho, Hsub. cbn [fst snd].
    match goal with |- context [grade ?c ?t] =>
      pose proof (grade_fields c t) as (G1 & G2 & G3 & G4 & G5 & G6 & G7 & G8 & G9 & G10 & G11 & G12 & G13 & G14)
    end.
    cbv zeta in *. cbn [fst snd].
    rewrite G1, G2, G3, G4, G5, G6, G8, G14. cbn.
    split; [reflexivity|]. split.
    { eexists. rewrite lookup_insert_eq. split; [reflexivity|].
      split; [repeat split|]. reflexivity. }
    split; [intros i Hi; apply lookup_insert_ne; congruence|].
    repeat split; reflexivity.
Qed.

(** X25. When no earlier answer choice reads like the chosen one, a
    submitted answer is recorded as [answered(choice, choice == correct)],
    the total solved grows by one, the score grows exactly when the choice
    is correct, and the ledger of the session's topic takes the result. *)
Lemma submit_first_occurrence today s question options choice opt correct :
  in_progress s question ->
  question_record question options ->
  nth_error options choice = Some opt ->
  (∀ j o, j < choice -> nth_error options j = Some o -> py_eq o opt = false) ->
  dict_get question "correctAnswer" = Some correct ->
  unanswered (answered_questions s !! current_question s) ->
  let verdict := py_eq (PInt (Z.of_nat choice)) correct in
  let r := display_quiz today (ClickSubmit choice) s in
  (∃ a, answered_questions r.2 !! current_question s = Some a ∧
        answered_with a choice verdict) ∧
  total_questions_solved r.2 = total_questions_solved s + 1 ∧
  score r.2 = score s + (if verdict then 1 else 0) ∧
  ledger r.2 (current_quiz_main_topic s) =
    {| total_solved := total_solved (ledger s (current_quiz_main_topic s)) + 1;
       correct_solved := correct_solved (ledger s (current_quiz_main_topic s)) +
                         (if verdict then 1 else 0) |} ∧
  current_question r.2 = current_question s.
Proof.
  intros Hq Hrec Hopt Hfirst Hc Hu.
  pose proof (submit_unanswered today s question options choice opt correct
                Hq Hrec Hopt Hc Hu) as H.
  rewrite (list_index_first options choice opt Hfirst) in H
    by (apply nth_error_Some; congruence).
  cbv zeta in *.
  destruct H as (_ & (a & Ha & Hw & _) & _ & Ht & Hs & _ & Hl & Hcur & _).
  split; [eauto|]. split; [exact Ht|]. split; [exact Hs|]. split; [|exact Hcur].
  unfold ledger. rewrite Hl, record_topic_lookup. reflexivity.
Qed.

(** C1 where the code departs from it. The question has the answer choices
    a, a, b, c and the correct index 1. The student picks the choice of index
    1 and submits: the radio hands the text of the choice to the page, which
    looks the text up in the choices and finds index 0. The answer is
    recorded as [answered(0, false)], and neither the score nor the correct
    count of the ledger grows, where the claim has [answered(1, true)] and
    the score one higher. *)
Theorem submit_duplicate_choice :
  let s := Examples.session_of [Examples.question_twice] in
  let r := display_quiz 739000 (ClickSubmit 1) s in
  in_progress s Examples.question_twice ∧
  unanswered (answered_questions s !! current_question s) ∧
  py_eq (PInt 1) (PInt 1) = true ∧
  r.1 = Rerun ∧
  answered_questions r.2 !! 0 =
    Some {| selected_idx := Some (Some 0); is_correct := Some false;
            is_skipped := Some false; is_bookmarked := Some false |} ∧
  score s = 0 ∧ score r.2 = 0 ∧
  total_questions_solved r.2 = 1 ∧
  topic_performance r.2 !! "optics" = Some {| total_solved := 1; correct_solved := 0 |}.
Proof. vm_compute. repeat split. Qed.

(** A script run of [display_quiz] moves the cursor only on "Skip Question",
    "Next Question" and "Start New Quiz". *)
Lemma display_quiz_cursor today ev s :
  ev ≠ ClickSkip -> ev ≠ ClickNext -> ev ≠ ClickNewQuiz ->
  current_question (display_quiz today ev s).2 = current_question s.
Proof.
  intros H1 H2 H3. unfold display_quiz.
  destruct (quiz_questions s) as [|q qs] eqn:Hqs; [destruct ev; reflexivity|].
  cbv zeta.
  destruct (Nat.leb _ _).
  { pose proof (record_completion_frame today s) as (_ & Hcur & _). cbv zeta in Hcur.
    destruct (review_all _ 0 _); [destruct ev|]; cbn [snd]; try exact Hcur; congruence. }
  destruct (nth_error _ _) as [question|]; [|reflexivity].
  destruct (dict_get question "question") as [text|]; [|reflexivity].
  destruct (answered_questions s !! current_question s) as [a|].
  - unfold answered_question.
    destruct ev; try congruence; try reflexivity;
      repeat match goal with
             | |- context [if ?b then _ else _] => destruct b
             | |- context [match ?x with _ => _ end] => destruct x
             end; try reflexivity;
      match goal with |- context [grade ?c ?t] =>
        pose proof (grade_fields c t) as (_ & _ & _ & _ & _ & G & _)
      end; cbv zeta in G; cbn [snd] in *; rewrite G; reflexivity.
  - unfold unanswered_question.
    destruct ev; try congruence;
      repeat match goal with
             | |- context [if ?b then _ else _] => destruct b
             | |- context [match ?x with _ => _ end] => destruct x
             end; try reflexivity;
      match goal with |- context [grade ?c ?t] =>
        pose proof (grade_fields c t) as (_ & _ & _ & _ & _ & G & _)
      end; cbv zeta in G; cbn [snd] in *; rewrite G; reflexivity.
Qed.

(** C2. On a session in progress whose current question is unanswered, "Skip
    Question" marks the question skipped and moves the cursor by exactly one,
    and the rerun leaves it there; "Submit Answer" leaves the cursor where it
    is, whatever the choice, and so does the rerun. *)
Theorem skip_advances_submit_stays today s question options :
  in_progress s question ->
  question_record question options ->
  unanswered (answered_questions s !! current_question s) ->
  let skip := display_quiz today ClickSkip s in
  (skip.1 = Rerun ∧
   current_question skip.2 = current_question s + 1 ∧
   (∃ a, answered_questions skip.2 !! current_question s = Some a ∧ skipped a) ∧
   current_question (display_quiz today NoClick skip.2).2 = current_question s + 1) ∧
  (∀ choice,
     let submit := display_quiz today (ClickSubmit choice) s in
     current_question submit.2 = current_question s ∧
     current_question (display_quiz today NoClick submit.2).2 = current_question s).
Proof.
  intros Hq [[text Ht] Ho] Hu skip. split.
  - assert (Hskip : skip.1 = Rerun ∧ current_question skip.2 = current_question s + 1 ∧
             ∃ a, answered_questions skip.2 !! current_question s = Some a ∧ skipped a).
    { unfold skip. rewrite (display_quiz_in_progress today _ s question text Hq Ht).
      destruct (answered_questions s !! current_question s) as [a|] eqn:Ha.
      - destruct Hu as [Hsel Hsk]. unfold answered_question.
        rewrite Hsk, Hsel, Ho. rewrite bool_decide_eq_true_2 by reflexivity. cbn.
        split; [reflexivity|]. split; [reflexivity|].
        eexists. rewrite lookup_insert_eq. split; [reflexivity|]. repeat split.
      - unfold unanswered_question. rewrite Ho. cbn.
        split; [reflexivity|]. split; [reflexivity|].
        eexists. rewrite lookup_insert_eq. split; [reflexivity|]. repeat split. }
    destruct Hskip as (H1 & H2 & H3). split; [exact H1|]. split; [exact H2|].
    split; [exact H3|]. rewrite display_quiz_cursor by discriminate. exact H2.
  - intros choice submit. unfold submit.
    rewrite !display_quiz_cursor by discriminate. split; reflexivity.
Qed.

Lemma skip_advances_submit_stays_witness :
  let s := Examples.session_of [Examples.question_Q] in
  current_question (display_quiz 739000 ClickSkip s).2 = 1 ∧
  current_question (display_quiz 739000 (ClickSubmit 2) s).2 = 0.
Proof.
  intros s.
  assert (Hq : in_progress s Examples.question_Q) by reflexivity.
  assert (Hr : question_record Examples.question_Q [PStr "a"; PStr "b"; PStr "c"; PStr "d"])
    by (split; [exists (PStr "Q")|]; reflexivity).
  assert (Hu : unanswered (answered_questions s !! current_question s)) by exact I.
  pose proof (skip_advances_submit_stays 739000 s _ _ Hq Hr Hu) as [(_ & Hskip & _) Hsubmit].
  split; [exact Hskip|]. exact (proj1 (Hsubmit 2)).
Defined.

(** C3. On a question that is already answered or skipped, a click on
    "Submit Answer" or on "Skip Question" finds no such button: no handler
    runs, no rerun is asked for, and the session state is left as it was,
    cursor, score, counters, ledger and answer included. *)
Theorem finalized_rejects today ev s question :
  in_progress s question ->
  finalized (answered_questions s !! current_question s) ->
  (ev = ClickSkip ∨ ∃ choice, ev = ClickSubmit choice) ->
  (display_quiz today ev s).2 = s ∧ (display_quiz today ev s).1 ≠ Rerun.
Proof.
  intros Hq Hf Hev.
  assert (Hlt : current_question s < List.length (quiz_questions s))
    by (apply nth_error_Some; unfold in_progress in Hq; congruence).
  unfold display_quiz, in_progress in *.
  destruct (quiz_questions s) as [|q qs] eqn:Hqs; [simpl in Hlt; lia|].
  cbv zeta.
  replace (Nat.leb (List.length (q :: qs)) (current_question s)) with false
    by (symmetry; apply Nat.leb_gt; exact Hlt).
  rewrite Hq.
  destruct (dict_get question "question") as [text|]; [|split; [reflexivity|discriminate]].
  destruct (answered_questions s !! current_question s) as [a|]; [|contradiction].
  unfold answered_question.
  assert (Hb : bool_decide (selected_idx a = None) && negb (default false (is_skipped a)) = false).
  { destruct Hf as [Hsel | Hsk].
    - rewrite bool_decide_eq_false_2 by exact Hsel. reflexivity.
    - rewrite Hsk. apply andb_false_r. }
  destruct Hev as [-> | [choice ->]]; rewrite Hb;
    destruct (finalized_renders question a); split; try reflexivity; discriminate.
Qed.

Lemma finalized_rejects_witness :
  let s := (display_quiz 739000 (ClickSubmit 2) (Examples.session_of [Examples.question_Q])).2 in
  (display_quiz 739000 (ClickSubmit 1) s).2 = s ∧ (display_quiz 739000 ClickSkip s).2 = s.
Proof.
  intros s.
  assert (Hq : in_progress s Examples.question_Q) by reflexivity.
  assert (Hf : finalized (answered_questions s !! current_question s))
    by (left; discriminate).
  split.
  - exact (proj1 (finalized_rejects 739000 (ClickSubmit 1) s _ Hq Hf (or_intror (ex_intro _ 1 eq_refl)))).
  - exact (proj1 (finalized_rejects 739000 ClickSkip s _ Hq Hf (or_introl eq_refl))).
Defined.

(** ** The invariant of the session *)

(** The number of entries that satisfy a test, after an assignment to one
    key. *)
Lemma size_filter_insert (P : nat * answer_info -> Prop) `{!∀ x, Decision (P x)}
    (m : gmap nat answer_info) (i : nat) (x : answer_info) :
  size (filter P (<[i := x]> m)) +
    match m !! i with
    | Some y => if decide (P (i, y)) then 1 else 0
    | None => 0
    end
  = size (filter P m) + (if decide (P (i, x)) then 1 else 0).
Proof.
  rewrite map_filter_insert.
  destruct (decide (P (i, x))) as [Hx|Hx].
  - rewrite map_size_insert.
    destruct (m !! i) as [y|] eqn:Hy.
    + destruct (decide (P (i, y))) as [Py|Py].
      * rewrite (proj2 (map_lookup_filter_Some P m i y) (conj Hy Py)). simpl. lia.
      * replace (filter P m !! i) with (@None answer_info); [simpl; lia|].
        symmetry. apply map_lookup_filter_None. right. intros z Hz. congruence.
    + replace (filter P m !! i) with (@None answer_info); [simpl; lia|].
      symmetry. apply map_lookup_filter_None. left. exact Hy.
  - rewrite map_filter_delete, map_size_delete.
    destruct (m !! i) as [y|] eqn:Hy.
    + destruct (decide (P (i, y))) as [Py|Py].
      * pose proof (proj2 (map_lookup_filter_Some P m i y) (conj Hy Py)) as Hf.
        rewrite Hf.
        assert (size (filter P m) ≠ 0).
        { intros Hz. apply map_size_empty_iff in Hz. rewrite Hz in Hf.
          rewrite lookup_empty in Hf. discriminate Hf. }
        simpl. lia.
      * replace (filter P m !! i) with (@None answer_info); [simpl; lia|].
        symmetry. apply map_lookup_filter_None. right. intros z Hz. congruence.
    + replace (filter P m !! i) with (@None answer_info); [simpl; lia|].
      symmetry. apply map_lookup_filter_None. left. exact Hy.
Qed.

Lemma session_invariant_same s0 s s' :
  session_invariant s0 s ->
  score s' = score s ->
  answered_questions s' = answered_questions s ->
  total_questions_solved s' = total_questions_solved s ->
  total_correct_answers s' = total_correct_answers s ->
  current_quiz_main_topic s' = current_quiz_main_topic s ->
  topic_performance s' = topic_performance s ->
  session_invariant s0 s'.
Proof.
  unfold session_invariant, ledger. intros H E1 E2 E3 E4 E5 E6.
  rewrite E1, E2, E3, E4, E5, E6. exact H.
Qed.

(** An assignment to one key of [answered_questions] keeps the invariant when
    the score, the counters and the ledger move by what the new entry adds to
    the two counts: [dc] to the entries marked correct, [da] to the entries
    that hold an answer. *)
Lemma session_invariant_insert s0 s s' i x (dc da : nat) :
  session_invariant s0 s ->
  answered_questions s' = <[i := x]> (answered_questions s) ->
  (selected_idx x = None -> is_correct x = None ∧ is_skipped x = None) ->
  (is_skipped x = Some true -> is_correct x = Some false) ->
  (if decide (default false (is_correct x) = true) then 1 else 0) =
    match answered_questions s !! i with
    | Some y => if decide (default false (is_correct y) = true) then 1 else 0
    | None => 0
    end + dc ->
  (if decide (is_skipped x = Some false) then 1 else 0) =
    match answered_questions s !! i with
    | Some y => if decide (is_skipped y = Some false) then 1 else 0
    | None => 0
    end + da ->
  score s' = score s + dc ->
  total_questions_solved s' = total_questions_solved s + da ->
  total_correct_answers s' = total_correct_answers s + dc ->
  current_quiz_main_topic s' = current_quiz_main_topic s ->
  ledger s' (current_quiz_main_topic s0) =
    {| total_solved := total_solved (ledger s (current_quiz_main_topic s0)) + da;
       correct_solved := correct_solved (ledger s (current_quiz_main_topic s0)) + dc |} ->
  session_invariant s0 s'.
Proof.
  intros (I1 & I2 & I3 & I4 & I5 & I6) Ha Hx1 Hx2 Hc Hn Es Et Ec Etopic El.
  pose proof (size_filter_insert
                (λ kv : nat * answer_info, default false (is_correct kv.2) = true)
                (answered_questions s) i x) as Sc.
  pose proof (size_filter_insert
                (λ kv : nat * answer_info, is_skipped kv.2 = Some false)
                (answered_questions s) i x) as Sn.
  cbn [snd] in Sc, Sn.
  unfold session_invariant, current_quiz_correct_answers, answered_count in *.
  rewrite Ha, Es, Et, Ec, Etopic, El, I6.
  split; [lia|]. split.
  { intros j a. rewrite lookup_insert. destruct (decide (i = j)) as [_|_].
    - intros Heq. injection Heq as Heq. subst a. split; assumption.
    - apply I2. }
  split; [lia|]. split; [lia|]. split; [exact I5|].
  cbn [total_solved correct_solved]. f_equal; lia.
Qed.

Lemma topic_stats_add_zero (p : topic_stats) :
  p = {| total_solved := total_solved p + 0; correct_solved := correct_solved p + 0 |}.
Proof. destruct p. cbn. rewrite !Nat.add_0_r. reflexivity. Qed.

(** The entries of an unanswered question count for nothing. *)
Lemma unanswered_uncounted (answered : gmap nat answer_info) (i : nat) :
  entries_consistent answered ->
  unanswered (answered !! i) ->
  match answered !! i with
  | Some y => if decide (default false (is_correct y) = true) then 1 else 0
  | None => 0
  end = 0 ∧
  match answered !! i with
  | Some y => if decide (is_skipped y = Some false) then 1 else 0
  | None => 0
  end = 0.
Proof.
  intros Hc Hu. destruct (answered !! i) as [y|] eqn:Hy; [|auto].
  destruct Hu as [Hsel _].
  destruct (proj1 (Hc i y Hy) Hsel) as [H1 H2]. rewrite H1, H2.
  split; case_decide; auto; discriminate.
Qed.

Lemma count_from_zero (old new d : nat) : old = 0 -> new = d -> new = old + d.
Proof. intros -> ->. reflexivity. Qed.

(** A script run of [display_quiz] on one of the four actions, or on no
    click, keeps the invariant. *)
Lemma display_quiz_invariant today ev s0 s :
  session_invariant s0 s ->
  quiz_action ev ∨ ev = NoClick ->
  session_invariant s0 (display_quiz today ev s).2.
Proof.
  intros Hinv Hev.
  assert (Hsame : session_invariant s0 s) by exact Hinv.
  assert (Hnew : ev ≠ ClickNewQuiz) by (destruct Hev as [[]| ->]; discriminate).
  assert (Hback : ev ≠ ClickBack) by (destruct Hev as [[]| ->]; discriminate).
  destruct Hinv as (I1 & I2 & I3 & I4 & I5 & I6).
  unfold display_quiz.
  destruct (quiz_questions s) as [|q qs] eqn:Hqs; [destruct ev; try exact Hsame; congruence|].
  cbv zeta.
  destruct (Nat.leb _ _).
  { pose proof (record_completion_frame today s)
      as (_ & _ & _ & F4 & F5 & F6 & F7 & _ & F9 & F10 & _).
    cbv zeta in *.
    destruct (review_all _ 0 _); [destruct ev; try congruence|]; cbn [snd];
      eapply session_invariant_same; eauto. }
  destruct (nth_error _ _) as [question|]; [|exact Hsame].
  destruct (dict_get question "question") as [text|]; [|exact Hsame].
  set (idx := current_question s).
  destruct (answered_questions s !! idx) as [a|] eqn:Ha.
  - unfold answered_question. fold idx.
    assert (Hu : bool_decide (selected_idx a = None) && negb (default false (is_skipped a))
                 = true -> unanswered (answered_questions s !! idx)).
    { intros Hun. rewrite Ha. apply andb_true_iff in Hun as [H1 H2].
      apply bool_decide_eq_true in H1. apply negb_true_iff in H2. split; assumption. }
    destruct ev; try congruence.
    + destruct (_ && _); [destruct (question_answers question)|
                          destruct (finalized_renders question a)]; exact Hsame.
    + cbn [snd].
      eapply (session_invariant_insert s0 s _ idx _ 0 0); try exact Hsame;
        try reflexivity; cbn [set_is_bookmarked selected_idx is_correct is_skipped].
      * apply (I2 idx a Ha).
      * apply (I2 idx a Ha).
      * rewrite Ha, Nat.add_0_r. reflexivity.
      * rewrite Ha, Nat.add_0_r. reflexivity.
      * cbn. lia.
      * cbn. lia.
      * cbn. lia.
      * unfold ledger.
        match goal with |- default _ (topic_performance ?t !! _) = _ =>
          change (topic_performance t) with (topic_performance s) end.
        apply topic_stats_add_zero.
    + destruct (_ && _); [|destruct (finalized_renders question a); exact Hsame].
      destruct (unanswered_uncounted _ idx I2 (Hu eq_refl)) as [U1 U2].
      destruct (question_answers question) as [options|]; [|exact Hsame].
      destruct (submitted_answer question options choice) as [e|[selected correct]];
        [exact Hsame|]. cbn [snd].
      match goal with |- context [grade ?c ?t] =>
        pose proof (grade_fields c t)
          as (G1 & G2 & G3 & G4 & _ & _ & _ & G8 & _ & _ & _ & _ & G13 & _)
      end.
      cbv zeta in *.
      eapply (session_invariant_insert s0 s _ idx _ (if correct then 1 else 0) 1);
        try exact Hsame; try eassumption;
        cbn [selected_idx is_correct is_skipped].
      * exact G8.
      * discriminate.
      * discriminate.
      * apply (count_from_zero _ _ _ U1). destruct correct; reflexivity.
      * apply (count_from_zero _ _ _ U2). reflexivity.
      * unfold ledger. rewrite G4. cbn [current_quiz_main_topic set_answered_questions
          topic_performance]. rewrite I5, record_topic_lookup. reflexivity.
    + destruct (_ && _); [|destruct (finalized_renders question a); exact Hsame].
      destruct (unanswered_uncounted _ idx I2 (Hu eq_refl)) as [U1 U2].
      destruct (question_answers question) as [options|]; [|exact Hsame].
      cbn [snd].
      eapply (session_invariant_insert s0 s _ idx _ 0 0); try exact Hsame;
        try reflexivity; cbn [selected_idx is_correct is_skipped].
      * discriminate.
      * apply (count_from_zero _ _ _ U1). reflexivity.
      * apply (count_from_zero _ _ _ U2). reflexivity.
      * cbn. lia.
      * cbn. lia.
      * cbn. lia.
      * unfold ledger. cbn. apply topic_stats_add_zero.
    + destruct (_ && _); [destruct (question_answers question); exact Hsame|].
      destruct (finalized_renders question a); [|exact Hsame].
      cbn [snd]. eapply session_invariant_same; eauto.
  - unfold unanswered_question. fold idx. rewrite Ha.
    assert (Hu : unanswered (answered_questions s !! idx)) by (rewrite Ha; exact I).
    destruct (unanswered_uncounted _ idx I2 Hu) as [U1 U2].
    destruct (question_answers question) as [options|]; [|exact Hsame].
    destruct ev; try exact Hsame; try congruence.
    + cbn [snd].
      eapply (session_invariant_insert s0 s _ idx _ 0 0); try exact Hsame;
        try reflexivity; cbn [selected_idx is_correct is_skipped].
      * auto.
      * discriminate.
      * apply (count_from_zero _ _ _ U1). reflexivity.
      * apply (count_from_zero _ _ _ U2). reflexivity.
      * cbn. lia.
      * cbn. lia.
      * cbn. lia.
      * unfold ledger. cbn. apply topic_stats_add_zero.
    + destruct (submitted_answer question options choice) as [e|[selected correct]];
        [exact Hsame|]. cbn [snd].
      match goal with |- context [grade ?c ?t] =>
        pose proof (grade_fields c t) as (G1 & G2 & G3 & G4 & _ & _ & _ & G8 & _ & _ & _ & _ & G13 & _)
      end.
      cbv zeta in *.
      eapply (session_invariant_insert s0 s _ idx _ (if correct then 1 else 0) 1);
        try exact Hsame; try eassumption;
        cbn [selected_idx is_correct is_skipped].
      * exact G8.
      * discriminate.
      * discriminate.
      * apply (count_from_zero _ _ _ U1). destruct correct; reflexivity.
      * apply (count_from_zero _ _ _ U2). reflexivity.
      * unfold ledger. rewrite G4. cbn [current_quiz_main_topic set_answered_questions
          topic_performance]. rewrite I5, record_topic_lookup. reflexivity.
    + cbn [snd].
      eapply (session_invariant_insert s0 s _ idx _ 0 0); try exact Hsame;
        try reflexivity; cbn [selected_idx is_correct is_skipped].
      * discriminate.
      * apply (count_from_zero _ _ _ U1). reflexivity.
      * apply (count_from_zero _ _ _ U2). reflexivity.
      * cbn. lia.
      * cbn. lia.
      * cbn. lia.
      * unfold ledger. cbn. apply topic_stats_add_zero.
Qed.

(** A successful generation leaves a session with no answer and no score. *)
Lemma freshly_generated_clean json_loads s0 :
  freshly_generated json_loads s0 ->
  score s0 = 0 ∧ answered_questions s0 = ∅ ∧ current_question s0 = 0 ∧
  showing_quiz s0 = true ∧ quiz_questions s0 ≠ [].
Proof.
  intros (s & topic & difficulty & n & response & shown & H).
  unfold display_quiz_generator in H.
  destruct (negb (String.eqb topic EmptyString)); [|discriminate H].
  destruct (generate_quiz json_loads response) as [questions errs].
  cbn [quiz_questions set_quiz_questions] in H.
  destruct questions as [|q qs]; [discriminate H|].
  injection H as _ <-. cbn. repeat split; discriminate.
Qed.

Lemma session_invariant_start s0 :
  score s0 = 0 -> answered_questions s0 = ∅ -> session_invariant s0 s0.
Proof.
  intros Hs Ha. unfold session_invariant, current_quiz_correct_answers, answered_count,
    entries_consistent.
  rewrite Hs, Ha, !map_filter_empty, !map_size_empty, !Nat.add_0_r.
  split; [reflexivity|].
  split; [intros i a H; rewrite lookup_empty in H; discriminate H|].
  split; [reflexivity|]. split; [reflexivity|]. split; [reflexivity|].
  destruct (ledger s0 (current_quiz_main_topic s0)); reflexivity.
Qed.

(** C10. In every state of a session that starts from a freshly generated
    quiz and proceeds by submit, skip, bookmark and advance (and the reruns
    in between), the score is the number of entries of the answer map whose
    [is_correct] is true; every skipped entry has [is_correct] false; and
    the global counter of solved questions and the ledger entry of the
    session's topic have grown by the submitted answers alone, so that a
    skipped question adds to none of the score, the total solved, and the
    ledger. *)
Theorem score_counts_correct_entries json_loads s0 s :
  freshly_generated json_loads s0 ->
  in_session s0 s ->
  score s = current_quiz_correct_answers (answered_questions s) ∧
  (∀ i a, answered_questions s !! i = Some a ->
          is_skipped a = Some true -> is_correct a = Some false) ∧
  total_questions_solved s =
    total_questions_solved s0 + answered_count (answered_questions s) ∧
  total_correct_answers s = total_correct_answers s0 + score s ∧
  total_solved (ledger s (current_quiz_main_topic s0)) =
    total_solved (ledger s0 (current_quiz_main_topic s0)) +
    answered_count (answered_questions s) ∧
  correct_solved (ledger s (current_quiz_main_topic s0)) =
    correct_solved (ledger s0 (current_quiz_main_topic s0)) + score s.
Proof.
  intros Hfresh Hs.
  destruct (freshly_generated_clean json_loads s0 Hfresh) as (H0 & Hempty & _).
  assert (Hinv : session_invariant s0 s).
  { induction Hs as [|today ev s Hs IH Hev|today s Hs IH].
    - apply session_invariant_start; assumption.
    - apply display_quiz_invariant; [exact IH|left; exact Hev].
    - apply display_quiz_invariant; [exact IH|right; reflexivity]. }
  destruct Hinv as (I1 & I2 & I3 & I4 & _ & I6).
  split; [exact I1|]. split; [intros i a Ha; apply (I2 i a Ha)|].
  split; [exact I3|]. split; [exact I4|].
  rewrite I6. split; reflexivity.
Qed.

Lemma score_counts_correct_entries_witness :
  let nl := String (ascii_of_nat 10) EmptyString in
  let response :=
    ProviderText
      ("Here you go:" +:+ nl +:+ "```json" +:+ nl +:+
       Json.quoted "[{'question':'Q','answers':['a','b','c','d'],'correctAnswer':1}]" +:+
       nl +:+ "```") in
  let s0 := (display_quiz_generator Json.loads
               (GenSubmit "optics" "JEE Mains" 1 response) initialize_session_state).2 in
  let s1 := (display_quiz 739000 (ClickSubmit 1) s0).2 in
  score s1 = 1 ∧ current_quiz_correct_answers (answered_questions s1) = 1.
Proof.
  intros nl response s0 s1.
  assert (Hfresh : freshly_generated Json.loads s0).
  { exists initialize_session_state, "optics", "JEE Mains", 1%Z, response,
      [Success "Quiz generated successfully! Let's begin."].
    reflexivity. }
  assert (Hs : in_session s0 s1)
    by (apply session_action; [apply session_start | apply action_submit]).
  pose proof (score_counts_correct_entries Json.loads s0 s1 Hfresh Hs) as (Hscore & _).
  split; [reflexivity|]. rewrite <- Hscore. reflexivity.
Defined.

(** ** Generation failures *)

(** What a script run of [display_quiz] does to the stored quiz: it leaves
    it and the view as they are, or it empties it. *)
Lemma display_quiz_stored_quiz today ev s :
  let s' := (display_quiz today ev s).2 in
  (showing_quiz s' = showing_quiz s ∧ quiz_questions s' = quiz_questions s) ∨
  quiz_questions s' = [].
Proof.
  unfold display_quiz, answered_question, unanswered_question, start_new_quiz, grade,
    record_completion.
  cbv zeta.
  repeat match goal with
         | |- context [match ?x with _ => _ end] => destruct x eqn:?
         end; cbn; auto.
Qed.

Lemma display_quiz_clean today ev s :
  generator_page_clean s -> generator_page_clean (display_quiz today ev s).2.
Proof.
  unfold generator_page_clean. intros H.
  destruct (display_quiz_stored_quiz today ev s) as [[H1 H2] | H1]; cbv zeta in *.
  - rewrite H1, H2. exact H.
  - intros _. exact H1.
Qed.

Lemma display_quiz_generator_clean json_loads ev s :
  generator_page_clean s ->
  generator_page_clean (display_quiz_generator json_loads ev s).2.
Proof.
  unfold generator_page_clean, display_quiz_generator. intros H.
  destruct ev as [|topic difficulty n response]; [exact H|].
  destruct (negb (String.eqb topic EmptyString)); [|exact H].
  destruct (generate_quiz json_loads response) as [questions errs].
  cbn [quiz_questions set_quiz_questions].
  destruct questions as [|q qs]; cbn; [reflexivity|discriminate].
Qed.

Lemma page_run_clean json_loads today c s :
  generator_page_clean s -> generator_page_clean (page_run json_loads today c s).2.
Proof.
  intros H. unfold page_run. destruct (showing_quiz s).
  - apply display_quiz_clean, H.
  - pose proof (display_quiz_generator_clean json_loads
                  (match c with OnGenerator ev => ev | OnQuiz _ => GenNoClick end) s H) as Hg.
    destruct (display_quiz_generator _ _ _) as [[o shown] s']. exact Hg.
Qed.

(** In every state of the application, the generator page is shown only
    while no quiz is stored. *)
Lemma reachable_clean json_loads s :
  reachable json_loads s -> generator_page_clean s.
Proof.
  induction 1 as [|today c s Hs IH|s s' Hs IH Ho].
  - intros _. reflexivity.
  - unfold page_step.
    pose proof (page_run_clean json_loads today c s IH) as H1.
    destruct (page_run json_loads today c s) as [[| |e] s1]; cbn [snd] in *; try exact H1.
    apply page_run_clean, H1.
  - destruct Ho as (H1 & _ & H3 & _). unfold generator_page_clean. rewrite H1, H3. exact IH.
Qed.

(** A state in which no quiz is stored is left as it was by every
    generation that yields no question. *)
Lemma failed_generation_leaves_state json_loads s topic difficulty num_questions response :
  quiz_questions s = [] ->
  (generate_quiz json_loads response).1 = [] ->
  let r := display_quiz_generator json_loads
             (GenSubmit topic difficulty num_questions response) s in
  r.2 = s ∧ r.1.1 = Rendered.
Proof.
  intros Hq Hg.
  assert (Hs : set_quiz_questions [] s = s)
    by (destruct s; cbn in *; subst; reflexivity).
  unfold display_quiz_generator.
  destruct (negb (String.eqb topic EmptyString)); [|split; reflexivity].
  destruct (generate_quiz json_loads response) as [questions errs].
  cbn [fst] in Hg. subst questions.
  cbn [quiz_questions set_quiz_questions]. rewrite Hs. split; reflexivity.
Qed.

(** C8. In every state of the application in which the generator page is
    shown, a generation whose provider call raises reports the failure and
    leaves the session state as it was: the stored questions, the cursor, the
    score, the answer map and every counter are those of before, and no
    rerun is asked for. *)
Theorem provider_failure_leaves_state json_loads s :
  reachable json_loads s ->
  showing_quiz s = false ->
  ∀ today topic difficulty num_questions exn,
    let ev := GenSubmit topic difficulty num_questions (ProviderRaised exn) in
    (display_quiz_generator json_loads ev s).2 = s ∧
    (display_quiz_generator json_loads ev s).1.1 = Rendered ∧
    (topic ≠ EmptyString ->
     (display_quiz_generator json_loads ev s).1.2 =
       [Error ("Error generating quiz: " +:+ exn);
        Error "Could not generate quiz. Please try a different topic or refine your request."]) ∧
    page_step json_loads today (OnGenerator ev) s = (Rendered, s).
Proof.
  intros Hr Hshow today topic difficulty n exn ev.
  pose proof (reachable_clean json_loads s Hr Hshow) as Hq.
  assert (Hs : set_quiz_questions [] s = s)
    by (destruct s; cbn in *; subst; reflexivity).
  assert (Hgen : display_quiz_generator json_loads ev s =
            if negb (String.eqb topic EmptyString)
            then (Rendered,
                  [Error ("Error generating quiz: " +:+ exn);
                   Error "Could not generate quiz. Please try a different topic or refine your request."],
                  s)
            else (Rendered, [Warning "Please enter a topic for the quiz."], s)).
  { unfold ev, display_quiz_generator, generate_quiz.
    destruct (negb (String.eqb topic EmptyString)); [|reflexivity].
    cbn [quiz_questions set_quiz_questions]. rewrite Hs. reflexivity. }
  split; [rewrite Hgen; destruct (negb _); reflexivity|].
  split; [rewrite Hgen; destruct (negb _); reflexivity|].
  split.
  { intros Ht. rewrite Hgen.
    replace (String.eqb topic EmptyString) with false
      by (symmetry; apply String.eqb_neq; exact Ht).
    reflexivity. }
  unfold page_step, page_run. rewrite Hshow, Hgen.
  destruct (negb _); reflexivity.
Qed.

Lemma provider_failure_leaves_state_witness :
  let nl := String (ascii_of_nat 10) EmptyString in
  let response :=
    ProviderText
      ("Here you go:" +:+ nl +:+ "```json" +:+ nl +:+
       Json.quoted "[{'question':'Q','answers':['a','b','c','d'],'correctAnswer':1}]" +:+
       nl +:+ "```") in
  let s1 := (page_step Json.loads 739000%Z
               (OnGenerator (GenSubmit "optics" "JEE Mains" 1 response))
               initialize_session_state).2 in
  let s2 := (page_step Json.loads 739000%Z (OnQuiz ClickSkip) s1).2 in
  let s3 := (page_step Json.loads 739000%Z (OnQuiz ClickNewQuiz) s2).2 in
  current_streak s3 = 1 ∧ showing_quiz s3 = false ∧
  (display_quiz_generator Json.loads
     (GenSubmit "waves" "JEE Mains" 5 (ProviderRaised "503 Service Unavailable")) s3).2 = s3.
Proof.
  intros nl response s1 s2 s3.
  assert (Hr : reachable Json.loads s3)
    by (repeat apply reach_click; apply reach_new).
  assert (Hshow : showing_quiz s3 = false) by reflexivity.
  split; [reflexivity|]. split; [exact Hshow|].
  exact (proj1 (provider_failure_leaves_state Json.loads s3 Hr Hshow
                  739001%Z "waves" "JEE Mains" 5%Z "503 Service Unavailable")).
Defined.

(** ** Text without an opening bracket *)

Lemma replace_from_chars (old : string) (skip : nat) (s : string) (c : ascii) :
  In c (list_ascii_of_string (replace_from old EmptyString skip s)) ->
  In c (list_ascii_of_string s).
Proof.
  revert skip. induction s as [|a s IH]; intros skip H; [exact H|].
  cbn [replace_from] in H. destruct skip as [|k].
  - destruct (startswith (String a s) old).
    + right. exact (IH _ H).
    + destruct H as [H|H]; [left; exact H|right; exact (IH _ H)].
  - right. exact (IH _ H).
Qed.

Lemma lstrip_chars (s : string) (c : ascii) :
  In c (list_ascii_of_string (lstrip s)) -> In c (list_ascii_of_string s).
Proof.
  induction s as [|a s IH]; intros H; [exact H|].
  cbn [lstrip] in H. destruct (isspace a); [right; exact (IH H)|exact H].
Qed.

Lemma rstrip_chars (s : string) (c : ascii) :
  In c (list_ascii_of_string (rstrip s)) -> In c (list_ascii_of_string s).
Proof.
  induction s as [|a s IH]; intros H; [exact H|].
  cbn [rstrip] in H. destruct (rstrip s) as [|b r].
  - destruct (isspace a); [destruct H|]. destruct H as [H|[]]. left. exact H.
  - destruct H as [H|H]; [left; exact H|right; exact (IH H)].
Qed.

Lemma find_from_absent (c : ascii) (i : Z) (s : string) :
  ¬ In c (list_ascii_of_string s) ->
  find_from (String c EmptyString) i s = (-1)%Z.
Proof.
  revert i. induction s as [|a s IH]; intros i H; [reflexivity|].
  cbn [find_from startswith].
  destruct (Ascii.eqb c a) eqn:E.
  - apply Ascii.eqb_eq in E. subst a. exfalso. apply H. left. reflexivity.
  - cbn [andb]. apply IH. intros Hin. apply H. right. exact Hin.
Qed.

(** X23. A text in which no opening bracket occurs holds no candidate, so
    [generate_quiz] answers it with the empty list and a diagnostic. *)
Lemma generate_quiz_no_bracket json_loads (text : string) :
  ¬ In "["%char (list_ascii_of_string text) ->
  generate_quiz json_loads (ProviderText text) =
    ([], [Error "Failed to find valid JSON array in response"]).
Proof.
  intros H. unfold generate_quiz, json_candidate. cbv zeta.
  unfold find. rewrite find_from_absent; [reflexivity|].
  intros Hin. apply H.
  apply (replace_from_chars "```json" 0), (replace_from_chars "```" 0).
  apply lstrip_chars, rstrip_chars. exact Hin.
Qed.

(** ** Bookmarking through the page *)

(** X24. On a question with no entry yet, bookmarking and then
    unbookmarking leaves the bookmark store as it was, when the store held
    no entry with the text and the topic of the question. *)
Lemma bookmark_toggle_twice today s question options (text : string) :
  in_progress s question ->
  dict_get question "question" = Some (PStr text) ->
  question_answers question = Some options ->
  answered_questions s !! current_question s = None ->
  (∀ q, In q (bookmarked_questions s) ->
        ¬ (dict_get q "question" = Some (PStr text) ∧
           dict_get q "quiz_topic" = Some (PStr (current_quiz_main_topic s)))) ->
  let s1 := (display_quiz today ClickBookmark s).2 in
  let s2 := (display_quiz today ClickBookmark s1).2 in
  bookmarked_questions s1 =
    (bookmarked_questions s ++
     [question_with_meta question (current_quiz_main_topic s) (current_question s)])%list ∧
  bookmarked_questions s2 = bookmarked_questions s.
Proof.
  intros Hq Ht Ho Ha Hno s1 s2.
  assert (E1 : display_quiz today ClickBookmark s =
               unanswered_question ClickBookmark question s)
    by (rewrite (display_quiz_in_progress today _ s question _ Hq Ht), Ha; reflexivity).
  unfold unanswered_question in E1. rewrite Ho, Ha in E1.
  subst s2. subst s1. rewrite E1. cbn [snd]. split; [reflexivity|].
  match goal with |- context [display_quiz today ClickBookmark ?t] => set (s1 := t) end.
  assert (Hq1 : in_progress s1 question) by exact Hq.
  assert (Ha1 : answered_questions s1 !! current_question s1 =
                Some {| selected_idx := None; is_correct := None;
                        is_skipped := None; is_bookmarked := Some true |})
    by apply lookup_insert_eq.
  rewrite (display_quiz_in_progress today _ s1 question _ Hq1 Ht), Ha1.
  unfold answered_question. cbn.
  unfold remove_bookmark, add_bookmark. rewrite List.filter_app. cbn [List.filter].
  replace (bookmark_matches (PStr text) (current_quiz_main_topic s)
             (question_with_meta question (current_quiz_main_topic s) (current_question s)))
    with true.
  2:{ symmetry. apply bookmark_matches_spec. unfold question_with_meta. split.
      - rewrite !dict_get_set_ne by discriminate. exact Ht.
      - rewrite dict_get_set_ne by discriminate. apply dict_get_set_eq. }
  cbn [negb]. rewrite app_nil_r.
  exact (remove_bookmark_unmatched _ _ _ Hno).
Qed.

(** * Further properties of the code *)

Import Utils ProfilePage Effects.

(** ** The handlers of [display_quiz] *)

(** Every script run of [display_quiz] is one of the handlers of
    [quiz_effect], or leaves the state as it is. *)
Lemma display_quiz_effect today ev s :
  quiz_effect today s ev (display_quiz today ev s).2.
Proof.
  unfold display_quiz.
  destruct (quiz_questions s) as [|q0 qs] eqn:Hqs.
  { destruct ev; try apply effect_none. apply effect_back, Hqs. }
  cbv zeta. rewrite <- Hqs.
  destruct (Nat.leb _ _) eqn:Hleb.
  { assert (Hc : completed s)
      by (split; [rewrite Hqs; discriminate | apply Nat.leb_le, Hleb]).
    destruct (review_all _ 0 _); [destruct ev|]; cbn [snd];
      try (apply effect_completed, Hc). apply effect_new_quiz, Hc. }
  destruct (nth_error _ _) as [question|] eqn:Hq; [|apply effect_none].
  destruct (dict_get question "question") as [text|] eqn:Ht; [|apply effect_none].
  destruct (answered_questions s !! current_question s) as [a|] eqn:Ha.
  - unfold answered_question.
    destruct (bool_decide (selected_idx a = None) && negb (default false (is_skipped a)))
      eqn:Hun.
    + assert (Hu : unanswered (answered_questions s !! current_question s)).
      { rewrite Ha. apply andb_true_iff in Hun as [H1 H2].
        apply bool_decide_eq_true in H1. apply negb_true_iff in H2. split; assumption. }
      destruct ev; cbn [snd];
        try (destruct (question_answers question); apply effect_none).
      * apply (effect_toggle today s question text a Hq Ht Ha).
      * destruct (question_answers question) as [options|] eqn:Ho; [|apply effect_none].
        unfold submitted_answer.
        destruct (nth_error options choice) as [opt|] eqn:Hopt; [|apply effect_none].
        destruct (dict_get question "correctAnswer") as [correct|] eqn:Hc;
          [|apply effect_none].
        cbn [snd].
        pose proof (effect_submit today s question options choice opt correct
                      Hq Ho Hopt Hc Hu) as E.
        rewrite Ha in E. exact E.
      * destruct (question_answers question) as [options|] eqn:Ho; [|apply effect_none].
        cbn [snd].
        pose proof (effect_skip today s question Hq Hu) as E.
        rewrite Ha in E. exact E.
    + assert (Hf : finalized (Some a)).
      { apply andb_false_iff in Hun as [H1 | H2].
        - left. apply bool_decide_eq_false in H1. exact H1.
        - right. apply negb_false_iff in H2. exact H2. }
      destruct ev; cbn [snd];
        try (destruct (finalized_renders question a); apply effect_none).
      * apply (effect_toggle today s question text a Hq Ht Ha).
      * destruct (finalized_renders question a); [|apply effect_none].
        apply (effect_next today s question a Hq Ha Hf).
  - assert (Hu : unanswered (answered_questions s !! current_question s))
      by (rewrite Ha; exact I).
    unfold unanswered_question. rewrite Ha.
    destruct (question_answers question) as [options|] eqn:Ho; [|apply effect_none].
    destruct ev; cbn [snd]; try apply effect_none.
    + apply (effect_bookmark today s question Hq Ha).
    + unfold submitted_answer.
      destruct (nth_error options choice) as [opt|] eqn:Hopt; [|apply effect_none].
      destruct (dict_get question "correctAnswer") as [correct|] eqn:Hc;
        [|apply effect_none].
      cbn [snd].
      pose proof (effect_submit today s question options choice opt correct
                    Hq Ho Hopt Hc Hu) as E.
      rewrite Ha in E. unfold bookmark_flag. rewrite Ha. exact E.
    + pose proof (effect_skip today s question Hq Hu) as E.
      rewrite Ha in E. unfold bookmark_flag. rewrite Ha. exact E.
Qed.

(** ** The shape of the session *)

Lemma finalized_insert_ne (answered : gmap nat answer_info) (i j : nat) (x : answer_info) :
  i ≠ j -> finalized (answered !! i) -> finalized (<[j := x]> answered !! i).
Proof. intros Hne H. rewrite lookup_insert_ne by congruence. exact H. Qed.

(** Every handler of [display_quiz] keeps the shape of the session. *)
Lemma quiz_effect_shape today ev s s' :
  quiz_effect today s ev s' ->
  session_shape (quiz_questions s) s ->
  session_shape (quiz_questions s') s'.
Proof.
  intros E (_ & Hcur & Hdom & Hfin & Hsel).
  destruct E as [ev|Hempty|ev Hc|Hc|question Hq Ha|question text a Hq Ht Ha
                 |question options choice opt correct Hq Ho Hopt Hcorrect Hu
                 |question Hq Hu|question a Hq Ha Hf].
  - exact (conj eq_refl (conj Hcur (conj Hdom (conj Hfin Hsel)))).
  - exact (conj eq_refl (conj Hcur (conj Hdom (conj Hfin Hsel)))).
  - destruct (record_completion_frame today s) as (F1 & F2 & _ & _ & F5 & _).
    cbv zeta in *. unfold session_shape. rewrite F1, F2, F5.
    exact (conj eq_refl (conj Hcur (conj Hdom (conj Hfin Hsel)))).
  - unfold session_shape. cbn.
    split; [reflexivity|]. split; [apply le_n|].
    split; [intros i a H; rewrite lookup_empty in H; discriminate H|].
    split; [intros i H; inversion H|].
    intros i a k H. rewrite lookup_empty in H. discriminate H.
  - assert (Hlt : current_question s < List.length (quiz_questions s))
      by (apply nth_error_Some; unfold in_progress in Hq; congruence).
    unfold session_shape. cbn.
    split; [reflexivity|]. split; [exact Hcur|].
    split.
    { intros i a. rewrite lookup_insert. destruct (decide (current_question s = i)) as [<-|Hne].
      - intros _. split; [apply le_n|exact Hlt].
      - apply Hdom. }
    split.
    { intros i Hi. apply finalized_insert_ne; [lia|apply Hfin, Hi]. }
    intros i a k. rewrite lookup_insert. destruct (decide (current_question s = i)) as [<-|Hne].
    + intros [= <-]. discriminate.
    + apply Hsel.
  - assert (Hlt : current_question s < List.length (quiz_questions s))
      by (apply nth_error_Some; unfold in_progress in Hq; congruence).
    unfold session_shape. cbn.
    split; [reflexivity|]. split; [exact Hcur|].
    split.
    { intros i b. rewrite lookup_insert. destruct (decide (current_question s = i)) as [<-|Hne].
      - intros _. split; [apply le_n|exact Hlt].
      - apply Hdom. }
    split.
    { intros i Hi. apply finalized_insert_ne; [lia|apply Hfin, Hi]. }
    intros i b k. rewrite lookup_insert. destruct (decide (current_question s = i)) as [<-|Hne].
    + intros [= <-]. cbn. apply (Hsel _ a k Ha).
    + apply Hsel.
  - assert (Hlt : current_question s < List.length (quiz_questions s))
      by (apply nth_error_Some; unfold in_progress in Hq; congruence).
    match goal with |- context [grade ?c ?t] =>
      pose proof (grade_fields c t) as (_ & _ & _ & _ & G5 & G6 & _ & G8 & _)
    end.
    cbv zeta in G5, G6, G8. unfold session_shape. rewrite G5, G6, G8. cbn.
    split; [reflexivity|]. split; [exact Hcur|].
    split.
    { intros i b. rewrite lookup_insert. destruct (decide (current_question s = i)) as [<-|Hne].
      - intros _. split; [apply le_n|exact Hlt].
      - apply Hdom. }
    split.
    { intros i Hi. apply finalized_insert_ne; [lia|apply Hfin, Hi]. }
    intros i b k. rewrite lookup_insert. destruct (decide (current_question s = i)) as [<-|Hne].
    + intros [= <-]. cbn. intros [= <-]. exists question, options.
      split; [exact Hq|]. split; [exact Ho|].
      pose proof (list_index_le options choice opt).
      assert (choice < List.length options) by (apply nth_error_Some; congruence). lia.
    + apply Hsel.
  - assert (Hlt : current_question s < List.length (quiz_questions s))
      by (apply nth_error_Some; unfold in_progress in Hq; congruence).
    unfold session_shape. cbn.
    split; [reflexivity|]. split; [lia|].
    split.
    { intros i b. rewrite lookup_insert. destruct (decide (current_question s = i)) as [<-|Hne].
      - intros _. split; [lia|exact Hlt].
      - intros H. destruct (Hdom i b H). split; [lia|assumption]. }
    split.
    { intros i Hi. destruct (decide (i = current_question s)) as [->|Hne].
      - rewrite lookup_insert_eq. left. discriminate.
      - apply finalized_insert_ne; [exact Hne|apply Hfin; lia]. }
    intros i b k. rewrite lookup_insert. destruct (decide (current_question s = i)) as [<-|Hne].
    + intros [= <-]. discriminate.
    + apply Hsel.
  - assert (Hlt : current_question s < List.length (quiz_questions s))
      by (apply nth_error_Some; unfold in_progress in Hq; congruence).
    unfold session_shape. cbn.
    split; [reflexivity|]. split; [lia|].
    split.
    { intros i b H. destruct (Hdom i b H). split; [lia|assumption]. }
    split.
    { intros i Hi. destruct (decide (i = current_question s)) as [->|Hne].
      - rewrite Ha. exact Hf.
      - apply Hfin. lia. }
    exact Hsel.
Qed.

(** An assignment to one key keeps the score equal to the number of entries
    marked correct when the score moves by what the new entry adds. *)
Lemma score_insert (s s' : State) (i : nat) (x : answer_info) (dc : nat) :
  score s = current_quiz_correct_answers (answered_questions s) ->
  entries_consistent (answered_questions s) ->
  answered_questions s' = <[i := x]> (answered_questions s) ->
  (selected_idx x = None -> is_correct x = None ∧ is_skipped x = None) ->
  (is_skipped x = Some true -> is_correct x = Some false) ->
  (if decide (default false (is_correct x) = true) then 1 else 0) =
    match answered_questions s !! i with
    | Some y => if decide (default false (is_correct y) = true) then 1 else 0
    | None => 0
    end + dc ->
  score s' = score s + dc ->
  score s' = current_quiz_correct_answers (answered_questions s') ∧
  entries_consistent (answered_questions s').
Proof.
  intros I1 I2 Ha Hx1 Hx2 Hc Es.
  pose proof (size_filter_insert
                (λ kv : nat * answer_info, default false (is_correct kv.2) = true)
                (answered_questions s) i x) as Sc.
  cbn [snd] in Sc. unfold current_quiz_correct_answers in *. rewrite Ha, Es. split; [lia|].
  intros j a. rewrite lookup_insert. destruct (decide (i = j)) as [_|_].
  - intros Heq. injection Heq as Heq. subst a. split; assumption.
  - apply I2.
Qed.

(** Every handler of [display_quiz] keeps the score equal to the number of
    entries marked correct. *)
Lemma quiz_effect_score today ev s s' :
  quiz_effect today s ev s' ->
  score s = current_quiz_correct_answers (answered_questions s) ∧
  entries_consistent (answered_questions s) ->
  score s' = current_quiz_correct_answers (answered_questions s') ∧
  entries_consistent (answered_questions s').
Proof.
  intros E [I1 I2].
  destruct E as [ev|Hempty|ev Hc|Hc|question Hq Ha|question text a Hq Ht Ha
                 |question options choice opt correct Hq Ho Hopt Hcorrect Hu
                 |question Hq Hu|question a Hq Ha Hf].
  - split; assumption.
  - split; assumption.
  - destruct (record_completion_frame today s) as (_ & _ & _ & F4 & F5 & _).
    cbv zeta in *. rewrite F4, F5. split; assumption.
  - cbn. unfold current_quiz_correct_answers, entries_consistent.
    rewrite map_filter_empty, map_size_empty. split; [reflexivity|].
    intros i a H. rewrite lookup_empty in H. discriminate H.
  - eapply (score_insert s _ (current_question s) _ 0); try eassumption; try reflexivity.
    + cbn. auto.
    + cbn. discriminate.
    + rewrite Ha. reflexivity.
    + cbn. lia.
  - eapply (score_insert s _ (current_question s) _ 0); try eassumption; try reflexivity.
    + cbn. apply (I2 _ a Ha).
    + cbn. apply (I2 _ a Ha).
    + rewrite Ha, Nat.add_0_r. reflexivity.
    + cbn. lia.
  - destruct (unanswered_uncounted _ _ I2 Hu) as [U1 _].
    match goal with |- context [grade ?c ?t] =>
      pose proof (grade_fields c t) as (_ & G2 & _ & _ & _ & _ & _ & G8 & _)
    end.
    cbv zeta in G2, G8.
    eapply (score_insert s _ (current_question s) _
              (if py_eq (PInt (Z.of_nat (list_index options choice opt))) correct
               then 1 else 0)); try eassumption.
    + exact G8.
    + cbn. discriminate.
    + cbn. discriminate.
    + apply (count_from_zero _ _ _ U1). cbn [is_correct].
      destruct (py_eq _ correct); reflexivity.
  - destruct (unanswered_uncounted _ _ I2 Hu) as [U1 _].
    eapply (score_insert s _ (current_question s) _ 0); try eassumption; try reflexivity.
    + cbn. discriminate.
    + apply (count_from_zero _ _ _ U1). reflexivity.
    + cbn. lia.
  - cbn. split; assumption.
Qed.

(** ** The streak and the calendar *)

Lemma streak_sound_same s s' :
  current_streak s' = current_streak s ->
  last_quiz_date s' = last_quiz_date s ->
  streak_history s' = streak_history s ->
  streak_sound s -> streak_sound s'.
Proof. unfold streak_sound. intros -> -> ->. auto. Qed.

(** The streak update keeps the streak and the calendar in agreement. *)
Lemma record_completion_sound today s :
  streak_sound s -> streak_sound (record_completion today s).
Proof.
  intros [H Htrue]. unfold streak_sound.
  rewrite record_completion_last, record_completion_streak, record_completion_history.
  split.
  - destruct (last_quiz_date s) as [last|].
    + destruct H as [H1 Hdays].
      destruct (today =? last + 1)%Z eqn:E1; [|destruct (today =? last)%Z eqn:E2].
      * apply Z.eqb_eq in E1. split; [lia|]. intros d Hd.
        destruct (decide (d = today)) as [->|Hne]; [apply lookup_insert_eq|].
        rewrite lookup_insert_ne by congruence. apply Hdays. lia.
      * apply Z.eqb_eq in E2. subst last. split; [exact H1|]. intros d Hd.
        destruct (decide (d = today)) as [->|Hne]; [apply lookup_insert_eq|].
        rewrite lookup_insert_ne by congruence. apply Hdays. lia.
      * split; [lia|]. intros d Hd.
        replace d with today by lia. apply lookup_insert_eq.
    + split; [lia|]. intros d Hd. replace d with today by lia. apply lookup_insert_eq.
  - intros d b. rewrite lookup_insert. destruct (decide (today = d)); [congruence|apply Htrue].
Qed.

Lemma quiz_effect_streak today ev s s' :
  quiz_effect today s ev s' -> streak_sound s -> streak_sound s'.
Proof.
  intros E H.
  destruct E as [ev|Hempty|ev Hc|Hc|question Hq Ha|question text a Hq Ht Ha
                 |question options choice opt correct Hq Ho Hopt Hcorrect Hu
                 |question Hq Hu|question a Hq Ha Hf];
    try exact H; try (apply record_completion_sound, H);
    try (eapply streak_sound_same; [| | |exact H]; reflexivity).
  match goal with |- context [grade ?c ?t] =>
    pose proof (grade_fields c t)
      as (_ & _ & _ & _ & _ & _ & _ & _ & _ & G10 & G11 & G12 & _)
  end.
  cbv zeta in *. eapply streak_sound_same; [exact G10|exact G11|exact G12|exact H].
Qed.

(** ** The counters and the ledger *)

Lemma quiz_effect_counters today ev s s' :
  quiz_effect today s ev s' -> counters_sound s -> counters_sound s'.
Proof.
  intros E [H1 H2].
  destruct E as [ev|Hempty|ev Hc|Hc|question Hq Ha|question text a Hq Ht Ha
                 |question options choice opt correct Hq Ho Hopt Hcorrect Hu
                 |question Hq Hu|question a Hq Ha Hf];
    try (split; assumption).
  - destruct (record_completion_frame today s) as (_ & _ & _ & _ & _ & F6 & F7 & _ & F9 & _).
    cbv zeta in *. revert F6 F7 F9. generalize (record_completion today s).
    intros r F6 F7 F9. split; [lia|]. intros topic p. rewrite F9. apply H2.
  - destruct (record_completion_frame today s) as (_ & _ & _ & _ & _ & F6 & F7 & _ & F9 & _).
    cbv zeta in *. revert F6 F7 F9. generalize (record_completion today s).
    intros r F6 F7 F9. split; [cbn; lia|]. intros topic p. cbn. rewrite F9. apply H2.
  - match goal with |- context [grade ?c ?t] =>
      pose proof (grade_fields c t) as (G1 & _ & G3 & G4 & _)
    end.
    cbv zeta in *. split; [rewrite G1, G3; cbn; repeat case_match; lia|].
    intros topic p. rewrite G4. cbn [current_quiz_main_topic topic_performance
                                     set_answered_questions].
    unfold record_topic. rewrite lookup_insert.
    destruct (decide (current_quiz_main_topic s = topic)) as [_|_]; [|apply H2].
    intros [= <-]. cbn.
    assert (Hold : correct_solved
                     (default {| total_solved := 0; correct_solved := 0 |}
                        (topic_performance s !! current_quiz_main_topic s)) ≤
                   total_solved
                     (default {| total_solved := 0; correct_solved := 0 |}
                        (topic_performance s !! current_quiz_main_topic s))).
    { destruct (topic_performance s !! current_quiz_main_topic s) as [p|] eqn:Hp;
        [apply (H2 _ p Hp)|apply le_n]. }
    repeat case_match; lia.
Qed.

(** ** The states of the application *)

Lemma set_quiz_questions_same s : set_quiz_questions (quiz_questions s) s = s.
Proof. destruct s; reflexivity. Qed.

(** A script run of the generator page, from a state with no stored quiz,
    leaves the state as it is or starts a quiz on the questions it got. *)
Lemma display_quiz_generator_effect json_loads ev s :
  quiz_questions s = [] ->
  let s' := (display_quiz_generator json_loads ev s).2 in
  s' = s ∨ ∃ questions topic, questions ≠ [] ∧ s' = quiz_started questions topic s.
Proof.
  intros Hq. unfold display_quiz_generator.
  destruct ev as [|topic difficulty n response]; [left; reflexivity|].
  destruct (negb (String.eqb topic EmptyString)); [|left; reflexivity].
  destruct (generate_quiz json_loads response) as [questions errs].
  cbn [quiz_questions set_quiz_questions].
  destruct questions as [|q qs]; cbn [snd].
  - left. rewrite <- Hq. apply set_quiz_questions_same.
  - right. exists (q :: qs), topic. split; [discriminate|reflexivity].
Qed.

(** A script run of the page "Quiz Generator" is a handler of [display_quiz]
    or the start of a quiz. *)
Lemma page_run_effect json_loads today c s :
  generator_page_clean s ->
  let s' := (page_run json_loads today c s).2 in
  (∃ ev, quiz_effect today s ev s') ∨
  (quiz_questions s = [] ∧
   ∃ questions topic, questions ≠ [] ∧ s' = quiz_started questions topic s).
Proof.
  intros Hclean. unfold page_run. destruct (showing_quiz s) eqn:Hshow.
  - left. eexists. apply display_quiz_effect.
  - pose proof (Hclean Hshow) as Hq.
    pose proof (display_quiz_generator_effect json_loads
                  (match c with OnGenerator ev => ev | OnQuiz _ => GenNoClick end) s Hq) as H.
    destruct (display_quiz_generator _ _ _) as [[o shown] s1]. cbn [snd] in *.
    destruct H as [-> | H]; [left; exists NoClick; apply effect_none|right; split; assumption].
Qed.

(** What holds of a new session and is kept by the handlers of
    [display_quiz], by the start of a quiz and by the other pages holds in
    every state of the application. *)
Lemma reachable_invariant json_loads (P : State -> Prop) :
  P initialize_session_state ->
  (∀ today ev s s', P s -> quiz_effect today s ev s' -> P s') ->
  (∀ questions topic s,
     P s -> quiz_questions s = [] -> questions ≠ [] -> P (quiz_started questions topic s)) ->
  (∀ s s', P s -> other_pages s s' -> P s') ->
  ∀ s, reachable json_loads s -> P s.
Proof.
  intros Hinit Heffect Hstart Hother.
  assert (Hrun : ∀ today c s, generator_page_clean s -> P s ->
                   P (page_run json_loads today c s).2).
  { intros today c s Hclean HP.
    destruct (page_run_effect json_loads today c s Hclean)
      as [[ev E] | (Hq & qs & topic & Hne & E)].
    - exact (Heffect today ev s _ HP E).
    - cbv zeta in E. rewrite E. apply Hstart; assumption. }
  induction 1 as [|today c s Hs IH|s s' Hs IH Ho].
  - exact Hinit.
  - pose proof (reachable_clean json_loads s Hs) as Hclean.
    unfold page_step.
    pose proof (Hrun today c s Hclean IH) as H1.
    pose proof (page_run_clean json_loads today c s Hclean) as C1.
    destruct (page_run json_loads today c s) as [[| |e] s1]; cbn [snd] in *; try exact H1.
    apply Hrun; assumption.
  - exact (Hother s s' IH Ho).
Qed.

Lemma session_shape_same s s' :
  quiz_questions s' = quiz_questions s ->
  current_question s' = current_question s ->
  answered_questions s' = answered_questions s ->
  session_shape (quiz_questions s) s -> session_shape (quiz_questions s') s'.
Proof. unfold session_shape. intros -> -> ->. auto. Qed.

Lemma session_shape_start questions s :
  answered_questions s = ∅ -> current_question s = 0 -> quiz_questions s = questions ->
  session_shape questions s.
Proof.
  intros Ha Hc Hq. unfold session_shape. rewrite Ha, Hc, Hq.
  split; [reflexivity|]. split; [lia|].
  split; [intros i a; rewrite lookup_empty; discriminate|].
  split; [intros i Hi; lia|].
  intros i a k. rewrite lookup_empty. discriminate.
Qed.

(** Every state of the application has the shape of a session on the quiz
    it stores. *)
Lemma reachable_shape json_loads s :
  reachable json_loads s -> session_shape (quiz_questions s) s.
Proof.
  apply (reachable_invariant json_loads (λ s, session_shape (quiz_questions s) s)).
  - apply session_shape_start; reflexivity.
  - intros today ev s0 s' H E. exact (quiz_effect_shape today ev s0 s' E H).
  - intros questions topic s0 _ _ _. apply session_shape_start; reflexivity.
  - intros s0 s' H (H1 & H2 & _ & _ & H5 & _). exact (session_shape_same s0 s' H1 H2 H5 H).
Qed.

(** Every state of the application has its score equal to the number of
    entries marked correct, and consistent entries. *)
Lemma reachable_score json_loads s :
  reachable json_loads s ->
  score s = current_quiz_correct_answers (answered_questions s) ∧
  entries_consistent (answered_questions s).
Proof.
  apply (reachable_invariant json_loads
           (λ s, score s = current_quiz_correct_answers (answered_questions s) ∧
                 entries_consistent (answered_questions s))).
  - split; [reflexivity|]. intros i a. cbn. rewrite lookup_empty. discriminate.
  - intros today ev s0 s' H E. exact (quiz_effect_score today ev s0 s' E H).
  - intros questions topic s0 _ _ _.
    split; [reflexivity|]. intros i a. cbn. rewrite lookup_empty. discriminate.
  - intros s0 s' H (_ & _ & _ & H4 & H5 & _). rewrite H4, H5. exact H.
Qed.

(** The number of entries marked correct is at most the number of entries. *)
Lemma correct_answers_le_size (answered : gmap nat answer_info) :
  current_quiz_correct_answers answered ≤ size answered.
Proof. apply map_size_filter. Qed.

(** A map whose keys are below [n] has at most [n] entries. *)
Lemma size_keys_below {A : Type} (m : gmap nat A) (n : nat) :
  (∀ i a, m !! i = Some a -> i < n) -> size m ≤ n.
Proof.
  intros H. rewrite <- size_dom.
  rewrite <- (size_set_seq (C := gset nat) 0 n).
  apply subseteq_size. intros i Hi.
  apply elem_of_dom in Hi as [a Ha]. apply elem_of_set_seq.
  specialize (H i a Ha). lia.
Qed.

(** Every handler of [display_quiz] writes entries in one of the three
    answer states. *)
Lemma quiz_effect_tagged today ev s s' :
  quiz_effect today s ev s' ->
  entries_tagged (answered_questions s) -> entries_tagged (answered_questions s').
Proof.
  intros E H.
  assert (Hins : ∀ x,
            match selected_idx x with
            | None => is_skipped x = None
            | Some None => skipped x
            | Some (Some choice) => ∃ correct, answered_with x choice correct
            end ->
            entries_tagged (<[current_question s := x]> (answered_questions s))).
  { intros x Hx i a. rewrite lookup_insert.
    destruct (decide (current_question s = i)) as [_|_]; [|apply H].
    intros Heq. injection Heq as <-. exact Hx. }
  destruct E as [ev|Hempty|ev Hc|Hc|question Hq Ha|question text a Hq Ht Ha
                 |question options choice opt correct Hq Ho Hopt Hcorrect Hu
                 |question Hq Hu|question a Hq Ha Hf]; try exact H.
  - destruct (record_completion_frame today s) as (_ & _ & _ & _ & F5 & _).
    cbv zeta in F5. rewrite F5. exact H.
  - intros i a. cbn. rewrite lookup_empty. discriminate.
  - apply Hins. reflexivity.
  - apply Hins. exact (H _ _ Ha).
  - match goal with |- context [grade ?c ?t] =>
      pose proof (grade_fields c t) as (_ & _ & _ & _ & _ & _ & _ & G8 & _)
    end.
    cbv zeta in G8. rewrite G8. apply Hins. cbn. eexists. repeat split.
  - apply Hins. repeat split.
Qed.

(** In every state of the application the entries are in one of the three
    answer states. *)
Lemma reachable_tagged json_loads s :
  reachable json_loads s -> entries_tagged (answered_questions s).
Proof.
  apply (reachable_invariant json_loads (λ s, entries_tagged (answered_questions s))).
  - intros i a. cbn. rewrite lookup_empty. discriminate.
  - intros today ev s0 s' H E. exact (quiz_effect_tagged today ev s0 s' E H).
  - intros questions topic s0 _ _ _ i a. cbn. rewrite lookup_empty. discriminate.
  - intros s0 s' H (_ & _ & _ & _ & H5 & _). rewrite H5. exact H.
Qed.

(** In every state of the application the streak and the calendar agree. *)
Lemma reachable_streak json_loads s :
  reachable json_loads s -> streak_sound s.
Proof.
  apply (reachable_invariant json_loads streak_sound).
  - split; [split; reflexivity|]. intros d b. cbn. rewrite lookup_empty. discriminate.
  - intros today ev s0 s' H E. exact (quiz_effect_streak today ev s0 s' E H).
  - intros questions topic s0 H _ _.
    eapply streak_sound_same; [| | |exact H]; reflexivity.
  - intros s0 s' H (_ & _ & _ & _ & _ & H6 & H7 & H8 & _).
    exact (streak_sound_same s0 s' H6 H7 H8 H).
Qed.

Lemma samples_reachable :
  reachable Json.loads Samples.state_generated ∧
  reachable Json.loads Samples.state_bookmarked ∧
  reachable Json.loads Samples.state_answered ∧
  reachable Json.loads Samples.state_second ∧
  reachable Json.loads Samples.state_completed ∧
  reachable Json.loads Samples.state_restarted.
Proof.
  assert (H1 : reachable Json.loads Samples.state_generated)
    by (apply reach_click, reach_new).
  assert (H2 : reachable Json.loads Samples.state_bookmarked)
    by (apply reach_click, H1).
  assert (H3 : reachable Json.loads Samples.state_answered)
    by (apply reach_click, H2).
  assert (H4 : reachable Json.loads Samples.state_second)
    by (apply reach_click, H3).
  assert (H5 : reachable Json.loads Samples.state_completed)
    by (apply reach_click, H4).
  assert (H6 : reachable Json.loads Samples.state_restarted)
    by (apply reach_click, H5).
  repeat split; assumption.
Defined.

Example samples_values :
  current_question Samples.state_answered = 0 ∧
  score Samples.state_answered = 1 ∧
  current_question Samples.state_completed = 2 ∧
  current_streak Samples.state_completed = 1 ∧
  List.length (bookmarked_questions Samples.state_completed) = 1 ∧
  quiz_questions Samples.state_restarted = [] ∧
  current_streak Samples.state_restarted = 2.
Proof. vm_compute. repeat split. Qed.

(** X1. In every state of the application the cursor is at most the number
    of stored questions, and an answer is stored only for a question of the
    quiz that the cursor has reached. *)
Theorem cursor_within_quiz json_loads s :
  reachable json_loads s ->
  current_question s ≤ List.length (quiz_questions s) ∧
  ∀ i a, answered_questions s !! i = Some a ->
         i ≤ current_question s ∧ i < List.length (quiz_questions s).
Proof.
  intros Hr. destruct (reachable_shape json_loads s Hr) as (_ & Hcur & Hdom & _).
  split; assumption.
Qed.

Lemma cursor_within_quiz_witness :
  current_question Samples.state_completed ≤
    List.length (quiz_questions Samples.state_completed).
Proof.
  exact (proj1 (cursor_within_quiz Json.loads Samples.state_completed
                  (proj1 (proj2 (proj2 (proj2 (proj2 samples_reachable))))))).
Defined.

(** X2. In every state of the application each question before the cursor
    has an entry, and the entry is that of a skipped question or that of an
    answer with its choice and its verdict. So the review of a completed
    quiz finds every question skipped or answered. *)
Theorem questions_before_cursor_settled json_loads s :
  reachable json_loads s ->
  ∀ i, i < current_question s ->
    ∃ a, answered_questions s !! i = Some a ∧
         (skipped a ∨ ∃ choice correct, answered_with a choice correct).
Proof.
  intros Hr i Hi.
  destruct (reachable_shape json_loads s Hr) as (_ & _ & _ & Hfin & _).
  pose proof (reachable_tagged json_loads s Hr) as Htag.
  specialize (Hfin i Hi). unfold finalized in Hfin.
  destruct (answered_questions s !! i) as [a|] eqn:Ha; [|destruct Hfin].
  exists a. split; [reflexivity|].
  specialize (Htag i a Ha).
  destruct (selected_idx a) as [[k|]|].
  - right. destruct Htag as [c Hc]. eauto.
  - left. exact Htag.
  - rewrite Htag in Hfin. destruct Hfin as [Hfin|Hfin]; [congruence|discriminate].
Qed.

Lemma questions_before_cursor_settled_witness :
  ∃ a, answered_questions Samples.state_completed !! 1 = Some a ∧
       (skipped a ∨ ∃ choice correct, answered_with a choice correct).
Proof.
  apply (questions_before_cursor_settled Json.loads Samples.state_completed
           (proj1 (proj2 (proj2 (proj2 (proj2 samples_reachable)))))).
  vm_compute. repeat constructor.
Defined.



(** X4. In every state of the application the score is at most the number
    of attempted questions, which is at most the number of questions: the
    fraction given to the progress bar is at most 1 and the final score at
    most 100%. *)
Theorem score_and_progress_bounded json_loads s :
  reachable json_loads s ->
  score s ≤ size (answered_questions s) ∧
  size (answered_questions s) ≤ List.length (quiz_questions s).
Proof.
  intros Hr.
  destruct (reachable_shape json_loads s Hr) as (_ & _ & Hdom & _).
  destruct (reachable_score json_loads s Hr) as [Hscore _].
  split.
  - rewrite Hscore. apply correct_answers_le_size.
  - apply size_keys_below. intros i a Ha. exact (proj2 (Hdom i a Ha)).
Qed.

Lemma score_and_progress_bounded_witness :
  score Samples.state_completed ≤ size (answered_questions Samples.state_completed) ∧
  size (answered_questions Samples.state_completed) ≤
    List.length (quiz_questions Samples.state_completed).
Proof.
  exact (score_and_progress_bounded Json.loads Samples.state_completed
           (proj1 (proj2 (proj2 (proj2 (proj2 samples_reachable)))))).
Defined.

(** X5. In every state of the application the streak and the calendar
    agree: before the first completion the streak is 0 and the calendar is
    empty; afterwards the streak is at least 1, the calendar marks every one
    of the [current_streak] days that end with the last completion, and it
    holds no day marked [False]. *)
Theorem streak_agrees_with_calendar json_loads s :
  reachable json_loads s ->
  match last_quiz_date s with
  | None => current_streak s = 0 ∧ streak_history s = ∅
  | Some last =>
      1 ≤ current_streak s ∧
      ∀ d, (last - Z.of_nat (current_streak s) < d ≤ last)%Z ->
           streak_history s !! d = Some true
  end ∧
  ∀ d b, streak_history s !! d = Some b -> b = true.
Proof. exact (reachable_streak json_loads s). Qed.

Lemma streak_agrees_with_calendar_witness :
  last_quiz_date Samples.state_restarted = Some (Samples.day + 1)%Z ∧
  current_streak Samples.state_restarted = 2 ∧
  streak_history Samples.state_restarted !! Samples.day = Some true.
Proof.
  pose proof (streak_agrees_with_calendar Json.loads Samples.state_restarted
                (proj2 (proj2 (proj2 (proj2 (proj2 samples_reachable)))))) as [H _].
  assert (Hlast : last_quiz_date Samples.state_restarted = Some (Samples.day + 1)%Z)
    by (vm_compute; reflexivity).
  assert (Hstreak : current_streak Samples.state_restarted = 2)
    by (vm_compute; reflexivity).
  rewrite Hlast, Hstreak in H.
  split; [exact Hlast|]. split; [exact Hstreak|].
  apply (proj2 H). unfold Samples.day. lia.
Defined.

(** X6. A script run of [display_quiz] keeps the counters sound: when there
    are no more correct answers than answers, overall and in each entry of
    the ledger, this is so afterwards. *)
Theorem display_quiz_counters_sound today ev s :
  counters_sound s -> counters_sound (display_quiz today ev s).2.
Proof. exact (quiz_effect_counters today ev s _ (display_quiz_effect today ev s)). Qed.

Lemma display_quiz_counters_sound_witness :
  counters_sound (display_quiz Samples.day (ClickSubmit 1) Samples.state_generated).2.
Proof.
  apply display_quiz_counters_sound.
  split; [vm_compute; constructor|].
  intros topic p. change (topic_performance Samples.state_generated) with (∅ : gmap string topic_stats).
  rewrite lookup_empty. discriminate.
Defined.

(** ** The questions [generate_quiz] returns *)

Lemma setdefault_get_eq (d : list (string * pyval)) (k : string) (v : pyval) :
  is_Some (dict_get (setdefault d k v) k).
Proof.
  unfold setdefault, dict_has.
  destruct (dict_get d k) as [w|] eqn:E; [rewrite E; eauto|].
  rewrite dict_get_set_eq. eauto.
Qed.

Lemma setdefault_get_ne (d : list (string * pyval)) (k k' : string) (v : pyval) :
  k ≠ k' -> dict_get (setdefault d k v) k' = dict_get d k'.
Proof.
  intros Hne. unfold setdefault. destruct (dict_has d k); [reflexivity|].
  apply dict_get_set_ne, Hne.
Qed.

(** A question the loop of [generate_quiz] lets through has an object for
    explanation with the two sub-fields, and its other keys as parsed. *)
Lemma ensure_explanation_shape (x : pyval) (question : list (string * pyval)) :
  ensure_explanation x = inr question ->
  (∃ e steps link,
     dict_get question "explanation" = Some (PDict e) ∧
     dict_get e "detailed_steps" = Some steps ∧
     dict_get e "youtube_link" = Some link) ∧
  ∃ d, x = PDict d ∧ ∀ k, k ≠ "explanation" -> dict_get question k = dict_get d k.
Proof.
  unfold ensure_explanation. intros H.
  destruct x as [| | | | | |d]; try discriminate H.
  destruct (dict_get (setdefault d "explanation" (PDict [])) "explanation")
    as [[| | | | | |e]|] eqn:He; try discriminate H.
  injection H as <-. split.
  - destruct (setdefault_get_eq
                (setdefault e "detailed_steps" (PStr detailed_steps_default))
                "youtube_link" (PStr EmptyString)) as [link Hlink].
    destruct (setdefault_get_eq e "detailed_steps" (PStr detailed_steps_default))
      as [steps Hsteps].
    eexists _, steps, link. split; [apply dict_get_set_eq|]. split; [|exact Hlink].
    rewrite setdefault_get_ne by discriminate. exact Hsteps.
  - exists d. split; [reflexivity|]. intros k Hk.
    rewrite dict_get_set_ne by congruence. apply setdefault_get_ne. congruence.
Qed.

Lemma ensure_explanations_shape (l : list pyval) (qs : list (list (string * pyval))) :
  ensure_explanations l = inr qs ->
  Forall2 (λ x question, ensure_explanation x = inr question) l qs.
Proof.
  revert qs. induction l as [|x l IH]; intros qs H; cbn [ensure_explanations] in H.
  - injection H as <-. constructor.
  - destruct (ensure_explanation x) as [e|d] eqn:Hx; [discriminate H|].
    destruct (ensure_explanations l) as [e|ds]; [discriminate H|].
    injection H as <-. constructor; [exact Hx|]. apply IH. reflexivity.
Qed.

(** X7. Whatever the provider answers and whatever [json.loads] makes of
    it, every question [generate_quiz] returns has under ["explanation"] an
    object with the sub-fields ["detailed_steps"] and ["youtube_link"]. *)
Theorem generated_question_explained json_loads response question :
  In question (generate_quiz json_loads response).1 ->
  ∃ e steps link,
    dict_get question "explanation" = Some (PDict e) ∧
    dict_get e "detailed_steps" = Some steps ∧
    dict_get e "youtube_link" = Some link.
Proof.
  unfold generate_quiz. intros H.
  destruct response as [exn|text]; [destruct H|].
  destruct (json_candidate text) as [json_text|]; [|destruct H].
  destruct (json_loads json_text) as [v|je|exn]; [|destruct H|destruct H].
  destruct (truthy v); [|destruct H].
  destruct (process_questions v) as [exn|qs] eqn:Hp; [destruct H|].
  cbn [fst] in H.
  destruct v as [| | | | |l|]; try discriminate Hp. cbn [process_questions] in Hp.
  apply ensure_explanations_shape in Hp.
  induction Hp as [|x q l qs Hx _ IH]; [destruct H|].
  destruct H as [<-|H]; [exact (proj1 (ensure_explanation_shape x q Hx))|exact (IH H)].
Qed.

Lemma generated_question_explained_witness :
  ∃ e steps link,
    dict_get Examples.question_Q "explanation" = Some (PDict e) ∧
    dict_get e "detailed_steps" = Some steps ∧
    dict_get e "youtube_link" = Some link.
Proof.
  apply (generated_question_explained Json.loads
           (ProviderText
              (Json.quoted "[{'question':'Q','answers':['a','b','c','d'],'correctAnswer':1}]"))).
  vm_compute. left. reflexivity.
Defined.

(** X8. A quiz that [generate_quiz] returns has one question for each
    element of the parsed array, in the order of the array, and each question
    has its fields other than ["explanation"] as they were parsed: no
    element is dropped, and none is checked for the fields of a question. *)
Theorem generated_questions_as_parsed json_loads text json_text l :
  json_candidate text = Some json_text ->
  json_loads json_text = Loaded (PList l) ->
  (generate_quiz json_loads (ProviderText text)).1 ≠ [] ->
  Forall2 (λ x question,
             ∃ d, x = PDict d ∧
                  ∀ k, k ≠ "explanation" -> dict_get question k = dict_get d k)
    l (generate_quiz json_loads (ProviderText text)).1.
Proof.
  intros Hc Hl. unfold generate_quiz. rewrite Hc, Hl.
  destruct (truthy (PList l)); [|intros H; destruct (H eq_refl)].
  cbn [process_questions].
  destruct (ensure_explanations l) as [exn|qs] eqn:Hp; [intros H; destruct (H eq_refl)|].
  intros _. cbn [fst]. apply ensure_explanations_shape in Hp. clear Hl.
  induction Hp as [|x q l' qs' Hx _ IH]; [constructor|].
  constructor; [|exact IH].
  exact (proj2 (ensure_explanation_shape x q Hx)).
Qed.

Lemma generated_questions_as_parsed_witness :
  Forall2 (λ x question,
             ∃ d, x = PDict d ∧
                  ∀ k, k ≠ "explanation" -> dict_get question k = dict_get d k)
    [PDict [("question", PStr "Q"); ("correctAnswer", PInt 7)]]
    (generate_quiz Json.loads
       (ProviderText (Json.quoted "Sure: [{'question':'Q','correctAnswer':7}] Enjoy."))).1.
Proof.
  apply (generated_questions_as_parsed Json.loads
           (Json.quoted "Sure: [{'question':'Q','correctAnswer':7}] Enjoy.")
           (Json.quoted "[{'question':'Q','correctAnswer':7}]")).
  - vm_compute. reflexivity.
  - vm_compute. reflexivity.
  - vm_compute. discriminate.
Defined.

(** ** The candidate text of [generate_quiz] *)

Lemma append_nil_l (s : string) : EmptyString +:+ s = s.
Proof. reflexivity. Qed.

Lemma startswith_empty (s : string) : startswith s EmptyString = true.
Proof. destruct s; reflexivity. Qed.

Lemma append_cons (a : ascii) (p s : string) : String a p +:+ s = String a (p +:+ s).
Proof. reflexivity. Qed.

Lemma find_from_first (c : ascii) (i : Z) (before rest : string) :
  ¬ In c (list_ascii_of_string before) ->
  find_from (String c EmptyString) i (before +:+ String c rest) =
    (i + Z.of_nat (String.length before))%Z.
Proof.
  revert i. induction before as [|a before IH]; intros i H.
  - rewrite append_nil_l. cbn [find_from startswith String.length].
    rewrite Ascii.eqb_refl, startswith_empty. cbn [andb]. lia.
  - rewrite append_cons. cbn [find_from startswith].
    destruct (Ascii.eqb c a) eqn:E.
    + apply Ascii.eqb_eq in E. subst a. exfalso. apply H. left. reflexivity.
    + cbn [andb]. rewrite IH by (intros Hin; apply H; right; exact Hin).
      cbn [String.length]. lia.
Qed.

Lemma rfind_from_absent (c : ascii) (i : Z) (s : string) :
  ¬ In c (list_ascii_of_string s) ->
  rfind_from (String c EmptyString) i s = (-1)%Z.
Proof.
  revert i. induction s as [|a s IH]; intros i H; [reflexivity|].
  cbn [rfind_from startswith].
  rewrite IH by (intros Hin; apply H; right; exact Hin).
  destruct (Ascii.eqb c a) eqn:E; [|reflexivity].
  apply Ascii.eqb_eq in E. subst a. exfalso. apply H. left. reflexivity.
Qed.

Lemma rfind_from_last (c : ascii) (i : Z) (pre after : string) :
  (0 <= i)%Z ->
  ¬ In c (list_ascii_of_string after) ->
  rfind_from (String c EmptyString) i (pre +:+ String c after) =
    (i + Z.of_nat (String.length pre))%Z.
Proof.
  revert i. induction pre as [|a pre IH]; intros i Hi H.
  - rewrite append_nil_l. cbn [rfind_from startswith].
    rewrite rfind_from_absent by exact H. rewrite Ascii.eqb_refl, startswith_empty.
    cbn. lia.
  - rewrite append_cons. cbn [rfind_from].
    rewrite IH by (lia || exact H).
    replace (i + 1 + Z.of_nat (String.length pre) =? -1)%Z with false
      by (symmetry; apply Z.eqb_neq; lia).
    cbn [String.length]. lia.
Qed.

Lemma split_first (c : ascii) (s : string) :
  In c (list_ascii_of_string s) ->
  ∃ before rest, s = before +:+ String c rest ∧ ¬ In c (list_ascii_of_string before).
Proof.
  induction s as [|a s IH]; intros H; [destruct H|].
  destruct (ascii_dec a c) as [->|Hne].
  - exists EmptyString, s. split; [reflexivity|]. intros [].
  - destruct H as [H|H]; [congruence|].
    destruct (IH H) as (before & rest & -> & Hb).
    exists (String a before), rest. split; [reflexivity|].
    intros [Hin|Hin]; [congruence|exact (Hb Hin)].
Qed.

Lemma split_last (c : ascii) (s : string) :
  In c (list_ascii_of_string s) ->
  ∃ pre after, s = pre +:+ String c after ∧ ¬ In c (list_ascii_of_string after).
Proof.
  induction s as [|a s IH]; intros H; [destruct H|].
  destruct (in_dec ascii_dec c (list_ascii_of_string s)) as [Hin|Hnot].
  - destruct (IH Hin) as (pre & after & -> & Ha).
    exists (String a pre), after. split; [reflexivity|exact Ha].
  - destruct H as [H|H]; [|destruct (Hnot H)]. subst a.
    exists EmptyString, s. split; [reflexivity|exact Hnot].
Qed.

(** Two ways to cut a text, at [a] and further on at [b]. *)
Lemma overlap (a b : ascii) (before rest pre after : string) :
  a ≠ b ->
  before +:+ String a rest = pre +:+ String b after ->
  String.length before ≤ String.length pre ->
  ∃ inner, rest = inner +:+ String b after ∧ pre = before +:+ String a inner.
Proof.
  intros Hab. revert pre. induction before as [|y before IH]; intros pre E Hlen.
  - destruct pre as [|x pre]; rewrite ?append_nil_l, ?append_cons in E.
    + injection E as E _. congruence.
    + injection E as E1 E2. subst x. exists pre. split; [exact E2|reflexivity].
  - destruct pre as [|x pre]; [cbn in Hlen; lia|].
    rewrite !append_cons in E. injection E as E1 E2. subst x.
    destruct (IH pre E2) as (inner & -> & ->); [cbn in Hlen; lia|].
    exists inner. split; reflexivity.
Qed.

Lemma substring_skip (p r : string) (n : nat) :
  substring (String.length p) n (p +:+ r) = substring 0 n r.
Proof. induction p as [|a p IH]; [reflexivity|exact IH]. Qed.

Lemma substring_prefix (p r : string) :
  substring 0 (String.length p) (p +:+ r) = p.
Proof.
  induction p as [|a p IH]; [destruct r; reflexivity|].
  rewrite append_cons. cbn [String.length substring]. rewrite IH. reflexivity.
Qed.

Lemma append_assoc (p q r : string) : (p +:+ q) +:+ r = p +:+ (q +:+ r).
Proof.
  induction p as [|a p IH]; [reflexivity|]. rewrite !append_cons, IH. reflexivity.
Qed.

Lemma length_append (p q : string) :
  String.length (p +:+ q) = String.length p + String.length q.
Proof.
  induction p as [|a p IH]; [reflexivity|].
  rewrite append_cons. cbn [String.length]. rewrite IH. reflexivity.
Qed.

(** The slice of [generate_quiz] on a text with a first [[] and a last []]
    after it. *)
Lemma slice_brackets (before inner after : string) :
  slice (before +:+ String "[" (inner +:+ String "]" after))
    (Z.of_nat (String.length before))
    (Z.of_nat (String.length (before +:+ String "[" inner)) + 1) =
  String "[" (inner +:+ String "]" EmptyString).
Proof.
  unfold slice. rewrite Nat2Z.id.
  replace (Z.to_nat (Z.of_nat (String.length (before +:+ String "[" inner)) + 1 -
                     Z.of_nat (String.length before)))
    with (String.length (String "[" (inner +:+ String "]" EmptyString)))
    by (rewrite length_append; cbn [String.length]; rewrite length_append;
        cbn [String.length]; lia).
  rewrite substring_skip.
  replace (String "[" (inner +:+ String "]" after))
    with (String "[" (inner +:+ String "]" EmptyString) +:+ after)
    by (rewrite append_cons, append_assoc; reflexivity).
  apply substring_prefix.
Qed.

(** X9. The candidate that [generate_quiz] hands to [json.loads] is the part
    of the response, without its code fences and the blanks around it, from
    the first opening bracket to the last closing bracket; there is a
    candidate exactly when a closing bracket follows the first opening one. *)
Theorem json_candidate_brackets (text candidate : string) :
  json_candidate text = Some candidate ↔
  ∃ before inner after,
    strip (replace (replace text "```json" EmptyString) "```" EmptyString) =
      before +:+ "[" +:+ inner +:+ "]" +:+ after ∧
    candidate = "[" +:+ inner +:+ "]" ∧
    ¬ In "["%char (list_ascii_of_string before) ∧
    ¬ In "]"%char (list_ascii_of_string after).
Proof.
  unfold json_candidate. cbv zeta.
  generalize (strip (replace (replace text "```json" EmptyString) "```" EmptyString)).
  intros t. unfold find, rfind. split.
  - intros H.
    destruct (in_dec ascii_dec "["%char (list_ascii_of_string t)) as [Hopen|Hopen].
    2:{ rewrite find_from_absent in H by exact Hopen. discriminate H. }
    destruct (split_first _ _ Hopen) as (before & rest & -> & Hb).
    rewrite find_from_first in H by exact Hb.
    destruct (in_dec ascii_dec "]"%char
                (list_ascii_of_string (before +:+ String "[" rest))) as [Hclose|Hclose].
    2:{ rewrite rfind_from_absent in H by exact Hclose.
        replace (-1 + 1 >? 0 + Z.of_nat (String.length before))%Z with false in H
          by (symmetry; rewrite Z.gtb_ltb; apply Z.ltb_ge; lia).
        rewrite !andb_false_r in H. discriminate H. }
    destruct (split_last _ _ Hclose) as (pre & after & E & Ha).
    rewrite E in H. rewrite rfind_from_last in H by (lia || exact Ha).
    destruct (0 + Z.of_nat (String.length pre) + 1 >? 0 + Z.of_nat (String.length before))%Z
      eqn:Hgt; [|rewrite !andb_false_r in H; discriminate H].
    rewrite Z.gtb_ltb in Hgt. apply Z.ltb_lt in Hgt.
    destruct (overlap "[" "]" before rest pre after) as (inner & -> & ->);
      [discriminate|exact E|lia|].
    exists before, inner, after.
    split; [reflexivity|]. split; [|split; assumption].
    replace (negb (0 + Z.of_nat (String.length before) =? -1)%Z) with true in H
      by (symmetry; apply negb_true_iff, Z.eqb_neq; lia).
    replace (negb (0 + Z.of_nat (String.length (before +:+ String "[" inner)) + 1 =? -1)%Z)
      with true in H by (symmetry; apply negb_true_iff, Z.eqb_neq; lia).
    cbn [andb] in H. injection H as <-.
    rewrite <- E. rewrite !Z.add_0_l. apply slice_brackets.
  - intros (before & inner & after & -> & -> & Hb & Ha).
    change (before +:+ "[" +:+ inner +:+ "]" +:+ after)
      with (before +:+ String "[" (inner +:+ String "]" after)).
    rewrite find_from_first by exact Hb.
    assert (Hr : rfind_from "]" 0 (before +:+ String "[" (inner +:+ String "]" after)) =
                 (0 + Z.of_nat (String.length (before +:+ String "[" inner)))%Z).
    { rewrite <- (rfind_from_last "]" 0 (before +:+ String "[" inner) after)
        by (lia || exact Ha).
      rewrite append_assoc. reflexivity. }
    rewrite Hr.
    replace (negb (0 + Z.of_nat (String.length before) =? -1)%Z) with true
      by (symmetry; apply negb_true_iff, Z.eqb_neq; lia).
    replace (negb (0 + Z.of_nat (String.length (before +:+ String "[" inner)) + 1 =? -1)%Z)
      with true by (symmetry; apply negb_true_iff, Z.eqb_neq; lia).
    replace (0 + Z.of_nat (String.length (before +:+ String "[" inner)) + 1 >?
             0 + Z.of_nat (String.length before))%Z with true
      by (symmetry; rewrite Z.gtb_ltb; apply Z.ltb_lt; rewrite length_append; lia).
    cbn [andb]. rewrite !Z.add_0_l. rewrite slice_brackets. reflexivity.
Qed.

Lemma json_candidate_brackets_witness :
  json_candidate "Sure: [[1], [2]] Enjoy." = Some "[[1], [2]]".
Proof.
  apply (proj2 (json_candidate_brackets "Sure: [[1], [2]] Enjoy." "[[1], [2]]")).
  exists "Sure: ", "[1], [2]", " Enjoy.".
  split; [reflexivity|]. split; [reflexivity|].
  split; cbn; intuition discriminate.
Defined.

(** ** What a script run of [display_quiz] leaves alone *)

Ltac frame_case :=
  repeat split; intros;
  try reflexivity; try assumption; try congruence;
  try (exfalso; tauto);
  try (exfalso; intuition discriminate);
  try (exfalso; match goal with H : ∀ choice, _ ≠ _ |- _ => eapply H; reflexivity end).

Lemma quiz_effect_frame today ev s s' :
  quiz_effect today s ev s' ->
  topics_covered s' = topics_covered s ∧
  current_quiz_main_topic s' = current_quiz_main_topic s ∧
  (¬ completed s ->
     current_streak s' = current_streak s ∧ last_quiz_date s' = last_quiz_date s ∧
     streak_history s' = streak_history s) ∧
  (ev ≠ ClickNewQuiz -> quiz_questions s' = quiz_questions s) ∧
  ((∀ choice, ev ≠ ClickSubmit choice) ->
     total_questions_solved s' = total_questions_solved s ∧
     total_correct_answers s' = total_correct_answers s ∧
     topic_performance s' = topic_performance s) ∧
  ((∀ choice, ev ≠ ClickSubmit choice) -> ev ≠ ClickNewQuiz -> score s' = score s) ∧
  (ev ≠ ClickBookmark -> bookmarked_questions s' = bookmarked_questions s) ∧
  (ev = NoClick ∨ ev = ClickBack ∨ ev = ClickNext ->
     answered_questions s' = answered_questions s).
Proof.
  intros E.
  destruct E as [ev|Hempty|ev Hc|Hc|question Hq Ha|question text a Hq Ht Ha
                 |question options choice opt correct Hq Ho Hopt Hcorrect Hu
                 |question Hq Hu|question a Hq Ha Hf].
  - frame_case.
  - frame_case.
  - destruct (record_completion_frame today s)
      as (F1 & F2 & F3 & F4 & F5 & F6 & F7 & F8 & F9 & F10 & F11).
    cbv zeta in *. frame_case.
  - destruct (record_completion_frame today s)
      as (F1 & F2 & F3 & F4 & F5 & F6 & F7 & F8 & F9 & F10 & F11).
    cbv zeta in *. revert F1 F2 F3 F4 F5 F6 F7 F8 F9 F10 F11.
    generalize (record_completion today s). intros r. intros. cbn. frame_case.
  - frame_case.
  - frame_case.
  - match goal with |- context [grade ?c ?t] =>
      pose proof (grade_fields c t)
        as (G1 & G2 & G3 & G4 & G5 & G6 & G7 & G8 & G9 & G10 & G11 & G12 & G13 & G14)
    end.
    cbv zeta in *. frame_case.
  - frame_case.
  - frame_case.
Qed.

(** X10. What a script run of [display_quiz] leaves alone. It never writes
    the covered topics or the topic of the quiz; it writes the streak, the
    last completion and the calendar only on the view of a completed quiz;
    it replaces the stored questions only on "Start New Quiz"; it writes the
    global counters and the ledger only on "Submit Answer", and the score
    only there and on "Start New Quiz"; it writes the bookmark store only on
    the bookmark button; and with no click, on "Back" and on "Next
    Question" it leaves the answers as they are. *)
Theorem display_quiz_frame today ev s :
  let s' := (display_quiz today ev s).2 in
  topics_covered s' = topics_covered s ∧
  current_quiz_main_topic s' = current_quiz_main_topic s ∧
  (¬ completed s ->
     current_streak s' = current_streak s ∧ last_quiz_date s' = last_quiz_date s ∧
     streak_history s' = streak_history s) ∧
  (ev ≠ ClickNewQuiz -> quiz_questions s' = quiz_questions s) ∧
  ((∀ choice, ev ≠ ClickSubmit choice) ->
     total_questions_solved s' = total_questions_solved s ∧
     total_correct_answers s' = total_correct_answers s ∧
     topic_performance s' = topic_performance s) ∧
  ((∀ choice, ev ≠ ClickSubmit choice) -> ev ≠ ClickNewQuiz -> score s' = score s) ∧
  (ev ≠ ClickBookmark -> bookmarked_questions s' = bookmarked_questions s) ∧
  (ev = NoClick ∨ ev = ClickBack ∨ ev = ClickNext ->
     answered_questions s' = answered_questions s).
Proof. exact (quiz_effect_frame today ev s _ (display_quiz_effect today ev s)). Qed.

(** ** Recorded answers *)

Lemma quiz_effect_recorded today ev s s' i a :
  quiz_effect today s ev s' ->
  answered_questions s !! i = Some a ->
  finalized (Some a) ->
  ev ≠ ClickNewQuiz ->
  ∃ a', answered_questions s' !! i = Some a' ∧
        selected_idx a' = selected_idx a ∧ is_correct a' = is_correct a ∧
        is_skipped a' = is_skipped a.
Proof.
  intros E Hi Hfin Hev.
  assert (Hne : unanswered (answered_questions s !! current_question s) ->
                i ≠ current_question s).
  { intros Hu ->. rewrite Hi in Hu. destruct Hu as [Hu1 Hu2].
    destruct Hfin as [Hfin|Hfin]; congruence. }
  destruct E as [ev|Hempty|ev Hc|Hc|question Hq Ha|question text b Hq Ht Ha
                 |question options choice opt correct Hq Ho Hopt Hcorrect Hu
                 |question Hq Hu|question b Hq Ha Hf].
  - eauto.
  - eauto.
  - destruct (record_completion_frame today s) as (_ & _ & _ & _ & F5 & _).
    cbv zeta in F5. rewrite F5. eauto.
  - congruence.
  - cbn. rewrite lookup_insert_ne by congruence. eauto.
  - cbn. destruct (decide (i = current_question s)) as [->|Hn].
    + rewrite lookup_insert_eq. rewrite Hi in Ha. injection Ha as <-.
      eexists. split; [reflexivity|]. repeat split.
    + rewrite lookup_insert_ne by congruence. eauto.
  - match goal with |- context [grade ?c ?t] =>
      pose proof (grade_fields c t) as (_ & _ & _ & _ & _ & _ & _ & G8 & _)
    end.
    cbv zeta in G8. rewrite G8. cbn.
    rewrite lookup_insert_ne by (specialize (Hne Hu); congruence). eauto.
  - cbn. rewrite lookup_insert_ne by (specialize (Hne Hu); congruence). eauto.
  - eauto.
Qed.

(** X11. A recorded answer is final. Once a question is answered or
    skipped, no script run of [display_quiz] other than "Start New Quiz"
    changes its choice, its verdict or its skipped mark, whatever the click
    and whichever question is shown; only its bookmark can change. *)
Theorem recorded_answer_kept today ev s i a :
  answered_questions s !! i = Some a ->
  finalized (Some a) ->
  ev ≠ ClickNewQuiz ->
  ∃ a', answered_questions (display_quiz today ev s).2 !! i = Some a' ∧
        selected_idx a' = selected_idx a ∧ is_correct a' = is_correct a ∧
        is_skipped a' = is_skipped a.
Proof. exact (quiz_effect_recorded today ev s _ i a (display_quiz_effect today ev s)). Qed.

Lemma recorded_answer_kept_witness :
  ∃ a', answered_questions
          (display_quiz Samples.day (ClickSubmit 0) Samples.state_answered).2 !! 0 = Some a' ∧
        selected_idx a' = Some (Some 1) ∧ is_correct a' = Some true ∧
        is_skipped a' = Some false.
Proof.
  apply (recorded_answer_kept Samples.day (ClickSubmit 0) Samples.state_answered 0
           {| selected_idx := Some (Some 1); is_correct := Some true;
              is_skipped := Some false; is_bookmarked := Some true |}).
  - vm_compute. reflexivity.
  - left. discriminate.
  - discriminate.
Defined.

(** ** Reruns *)

Lemma display_quiz_idle_outcome today s : (display_quiz today NoClick s).1 ≠ Rerun.
Proof.
  unfold display_quiz, answered_question, unanswered_question. cbv zeta.
  repeat match goal with
         | |- context [match ?x with _ => _ end] => destruct x eqn:?
         end; cbn; discriminate.
Qed.

(** X12. A script run that sees no click never asks for a rerun, on the
    quiz as on the generator page: the rerun that follows a click is the
    last one. *)
Theorem no_click_no_rerun json_loads today c s :
  (display_quiz today NoClick s).1 ≠ Rerun ∧
  (display_quiz_generator json_loads GenNoClick s).1.1 ≠ Rerun ∧
  (page_step json_loads today c s).1 ≠ Rerun.
Proof.
  assert (H1 : ∀ s0, (display_quiz today NoClick s0).1 ≠ Rerun)
    by (intros s0; apply display_quiz_idle_outcome).
  assert (H2 : ∀ s0, (page_run json_loads today (OnQuiz NoClick) s0).1 ≠ Rerun).
  { intros s0. unfold page_run. destruct (showing_quiz s0); [apply H1|].
    cbn. discriminate. }
  split; [apply H1|]. split; [cbn; discriminate|].
  unfold page_step.
  destruct (page_run json_loads today c s) as [[| |exn] s1] eqn:E; cbn [fst];
    try discriminate.
  apply H2.
Qed.

(** ** The figures of the profile *)

(** [a / b * 100] against a whole number, in whole numbers. *)
Lemma percent_of_ge (k a b : nat) :
  0 < b ->
  (inject_Z (Z.of_nat k) <= Profile.percent_of a b)%Q ↔ k * b ≤ 100 * a.
Proof.
  intros Hb. destruct b as [|n]; [lia|].
  unfold Profile.percent_of, Qle, Qdiv, Qmult, Qinv, inject_Z.
  change (Z.of_nat (S n)) with (Z.pos (Pos.of_succ_nat n)). cbn [Qnum Qden].
  rewrite !Pos2Z.inj_mul, Zpos_P_of_succ_nat. lia.
Qed.

Lemma percent_of_le (k a b : nat) :
  0 < b ->
  (Profile.percent_of a b <= inject_Z (Z.of_nat k))%Q ↔ 100 * a ≤ k * b.
Proof.
  intros Hb. destruct b as [|n]; [lia|].
  unfold Profile.percent_of, Qle, Qdiv, Qmult, Qinv, inject_Z.
  change (Z.of_nat (S n)) with (Z.pos (Pos.of_succ_nat n)). cbn [Qnum Qden].
  rewrite !Pos2Z.inj_mul, Zpos_P_of_succ_nat. lia.
Qed.

Lemma percent_of_bounds (a b : nat) :
  0 < b -> a ≤ b -> (0 <= Profile.percent_of a b <= 100)%Q.
Proof.
  intros Hb Hab. split.
  - apply (percent_of_ge 0 a b Hb). lia.
  - apply (percent_of_le 100 a b Hb). lia.
Qed.

Lemma zero_percent_bounds : (0 <= 0 <= 100)%Q.
Proof. split; discriminate. Qed.

(** X13. With counters that are sound, every figure of the profile is a
    percentage: the overall accuracy and the accuracy of each topic lie
    between 0 and 100. *)
Theorem profile_figures_within_bounds (s : State) :
  counters_sound s ->
  (0 <= Profile.accuracy s <= 100)%Q ∧
  ∀ topic, (0 <= Profile.percentage (Profile.performance s topic) <= 100)%Q.
Proof.
  intros [H1 H2]. split.
  - unfold Profile.accuracy. cbv zeta.
    destruct (Nat.ltb 0 (total_questions_solved s)) eqn:E.
    + apply Nat.ltb_lt in E. apply percent_of_bounds; assumption.
    + exact zero_percent_bounds.
  - intros topic. unfold Profile.percentage, Profile.performance. cbv zeta.
    destruct (topic_performance s !! topic) as [p|] eqn:Hp; cbn [default from_option id].
    + destruct (Nat.ltb 0 (total_solved p)) eqn:E; [|exact zero_percent_bounds].
      apply Nat.ltb_lt in E. apply percent_of_bounds; [exact E|exact (H2 topic p Hp)].
    + exact zero_percent_bounds.
Qed.

Lemma profile_figures_within_bounds_witness :
  let s := set_total_questions_solved 4
             (set_total_correct_answers 3 initialize_session_state) in
  (0 <= Profile.accuracy s <= 100)%Q.
Proof.
  intros s. refine (proj1 (profile_figures_within_bounds s _)).
  split; [cbn; lia|].
  intros topic p. cbn. rewrite lookup_empty. discriminate.
Defined.

(** X14. The colour of the tag of a topic with answers, in whole numbers:
    green from three correct answers in four, orange from one in two, red
    below. (The quotient is the exact one.) *)
Theorem topic_color_thresholds (p : topic_stats) :
  0 < total_solved p ->
  (Profile.color p = "green" ↔ 3 * total_solved p ≤ 4 * correct_solved p) ∧
  (Profile.color p = "orange" ↔
     total_solved p ≤ 2 * correct_solved p ∧ 4 * correct_solved p < 3 * total_solved p) ∧
  (Profile.color p = "red" ↔ 2 * correct_solved p < total_solved p).
Proof.
  intros Ht.
  pose proof (percent_of_ge 75 (correct_solved p) (total_solved p) Ht) as H75.
  pose proof (percent_of_ge 50 (correct_solved p) (total_solved p) Ht) as H50.
  unfold Profile.color, Profile.percentage. cbv zeta.
  replace (Nat.ltb 0 (total_solved p)) with true by (symmetry; apply Nat.ltb_lt, Ht).
  change 75%Q with (inject_Z (Z.of_nat 75)). change 50%Q with (inject_Z (Z.of_nat 50)).
  destruct (Qle_bool (inject_Z (Z.of_nat 75)) _) eqn:E75.
  { apply Qle_bool_iff, H75 in E75.
    repeat split; intros; try discriminate; try reflexivity; lia. }
  assert (N75 : ¬ 75 * total_solved p ≤ 100 * correct_solved p).
  { intros H. apply H75, Qle_bool_iff in H. congruence. }
  destruct (Qle_bool (inject_Z (Z.of_nat 50)) _) eqn:E50.
  { apply Qle_bool_iff, H50 in E50.
    repeat split; intros; try discriminate; try reflexivity; lia. }
  assert (N50 : ¬ 50 * total_solved p ≤ 100 * correct_solved p).
  { intros H. apply H50, Qle_bool_iff in H. congruence. }
  repeat split; intros; try discriminate; try reflexivity; lia.
Qed.

Lemma topic_color_thresholds_witness :
  Profile.color {| total_solved := 4; correct_solved := 3 |} = "green" ∧
  Profile.color {| total_solved := 4; correct_solved := 2 |} = "orange" ∧
  Profile.color {| total_solved := 4; correct_solved := 1 |} = "red".
Proof.
  split; [|split].
  - apply (proj1 (topic_color_thresholds {| total_solved := 4; correct_solved := 3 |}
                    (Nat.lt_0_succ 3))).
    cbn. lia.
  - apply (proj1 (proj2 (topic_color_thresholds {| total_solved := 4; correct_solved := 2 |}
                           (Nat.lt_0_succ 3)))).
    cbn. lia.
  - apply (proj2 (proj2 (topic_color_thresholds {| total_solved := 4; correct_solved := 1 |}
                           (Nat.lt_0_succ 3)))).
    cbn. lia.
Defined.

(** ** The streak chart *)

Lemma weekday_lt (d : Z) : weekday d < 7.
Proof.
  unfold weekday. pose proof (Z.mod_pos_bound (d + 6) 7 eq_refl). lia.
Qed.

Lemma weekday_add (d : Z) (k : nat) :
  weekday (d + Z.of_nat k) = (weekday d + k) mod 7.
Proof.
  unfold weekday.
  pose proof (Z.mod_pos_bound (d + 6) 7 eq_refl) as Hb.
  apply Nat2Z.inj.
  rewrite Nat2Z.inj_mod, Nat2Z.inj_add, !Z2Nat.id
    by (try apply Z.mod_pos_bound; lia).
  replace (d + Z.of_nat k + 6)%Z with ((d + 6) + Z.of_nat k)%Z by lia.
  rewrite Zplus_mod_idemp_l. reflexivity.
Qed.

Lemma dates_to_display_from (today : Z) :
  dates_to_display today = map (λ k, (today - 89 + Z.of_nat k)%Z) (seq 0 90).
Proof.
  unfold dates_to_display, num_days. apply map_ext_in.
  intros i Hi. apply in_seq in Hi. lia.
Qed.

(** One more position of the calendar adds a cell to the row of its week
    day and to no other. *)
Lemma chart_row_succ (cell : nat -> string) (m r : nat) :
  r < 7 ->
  chart_row cell (S m) r =
    (chart_row cell m r ++ (if decide (m mod 7 = r) then [cell m] else []))%list.
Proof.
  intros Hr. unfold chart_row.
  pose proof (Nat.div_mod_eq m 7). pose proof (Nat.mod_upper_bound m 7).
  pose proof (Nat.div_mod_eq (S m + 6 - r) 7).
  pose proof (Nat.mod_upper_bound (S m + 6 - r) 7).
  pose proof (Nat.div_mod_eq (m + 6 - r) 7).
  pose proof (Nat.mod_upper_bound (m + 6 - r) 7).
  destruct (decide (m mod 7 = r)) as [E|E].
  - replace ((S m + 6 - r) / 7) with (S ((m + 6 - r) / 7)) by lia.
    rewrite seq_S, map_app. cbn [map]. do 3 f_equal. lia.
  - replace ((S m + 6 - r) / 7) with ((m + 6 - r) / 7) by lia.
    rewrite app_nil_r. reflexivity.
Qed.

Lemma append_cell_rows (cell : nat -> string) (m : nat) :
  append_cell (m mod 7) (cell m) (map (chart_row cell m) (seq 0 7)) =
  map (chart_row cell (S m)) (seq 0 7).
Proof.
  pose proof (Nat.mod_upper_bound m 7) as Hm.
  cbn [seq map]. rewrite !chart_row_succ by lia.
  destruct (m mod 7) as [|[|[|[|[|[|[|k]]]]]]] eqn:E; [..|lia];
    unfold append_cell; cbn [alter list_alter];
    repeat (destruct (decide _) as [?|?]; try lia);
    rewrite ?app_nil_r; reflexivity.
Qed.

Lemma fill_days_rows (cell : nat -> string) (history : gmap Z bool) (first : Z) (n : nat) :
  (∀ k, k < n -> symbol history (first + Z.of_nat k) = cell (weekday first + k)) ->
  fill_days history (map (λ k, (first + Z.of_nat k)%Z) (seq 0 n))
    (map (chart_row cell (weekday first)) (seq 0 7)) =
  map (chart_row cell (weekday first + n)) (seq 0 7).
Proof.
  unfold fill_days. induction n as [|n IH]; intros Hcell.
  - rewrite Nat.add_0_r. reflexivity.
  - rewrite seq_S, map_app, fold_left_app, IH by (intros k Hk; apply Hcell; lia).
    cbn [map fold_left]. rewrite Nat.add_0_l, weekday_add, Hcell by lia.
    rewrite append_cell_rows. rewrite Nat.add_succ_r. reflexivity.
Qed.

Lemma placeholders_rows (cell : nat -> string) (f : nat) :
  f < 7 ->
  (∀ n, n < f -> cell n = " ") ->
  placeholders (seq 0 7) f (repeat [] 7) = map (chart_row cell f) (seq 0 7).
Proof.
  intros Hf Hcell.
  destruct f as [|[|[|[|[|[|[|k]]]]]]]; [..|lia];
    cbn; rewrite ?Hcell by lia; reflexivity.
Qed.

Lemma chart_row_length (cell : nat -> string) (m r : nat) :
  List.length (chart_row cell m r) = (m + 6 - r) / 7.
Proof. unfold chart_row. rewrite length_map, length_seq. reflexivity. Qed.

Lemma pad_rows_rows (cell : nat -> string) (m : nat) :
  pad_rows (map (chart_row cell m) (seq 0 7)) =
  map (λ r, (chart_row cell m r ++
             repeat " " ((m + 6) / 7 - List.length (chart_row cell m r)))%list)
    (seq 0 7).
Proof.
  unfold pad_rows. cbv zeta.
  replace (fold_right Nat.max 0
             (map (@List.length string) (map (chart_row cell m) (seq 0 7))))
    with ((m + 6) / 7).
  { rewrite map_map. reflexivity. }
  cbn [seq map fold_right]. rewrite !chart_row_length.
  pose proof (Nat.div_mod_eq (m + 6) 7). pose proof (Nat.mod_upper_bound (m + 6) 7).
  pose proof (Nat.div_mod_eq (m + 6 - 1) 7). pose proof (Nat.mod_upper_bound (m + 6 - 1) 7).
  pose proof (Nat.div_mod_eq (m + 6 - 2) 7). pose proof (Nat.mod_upper_bound (m + 6 - 2) 7).
  pose proof (Nat.div_mod_eq (m + 6 - 3) 7). pose proof (Nat.mod_upper_bound (m + 6 - 3) 7).
  pose proof (Nat.div_mod_eq (m + 6 - 4) 7). pose proof (Nat.mod_upper_bound (m + 6 - 4) 7).
  pose proof (Nat.div_mod_eq (m + 6 - 5) 7). pose proof (Nat.mod_upper_bound (m + 6 - 5) 7).
  pose proof (Nat.div_mod_eq (m + 6 - 6) 7). pose proof (Nat.mod_upper_bound (m + 6 - 6) 7).
  rewrite Nat.sub_0_r. lia.
Qed.

(** The grid of the chart, row by row. *)
Lemma chart_grid_rows (today : Z) (history : gmap Z bool) :
  let m := weekday (today - 89) + 90 in
  chart_grid today history =
  map (λ r, (chart_row (calendar_cell today history) m r ++
             repeat " " ((m + 6) / 7 -
                         List.length (chart_row (calendar_cell today history) m r)))%list)
    (seq 0 7).
Proof.
  intros m. unfold chart_grid. cbv zeta.
  rewrite dates_to_display_from.
  change (hd today (map (λ k, (today - 89 + Z.of_nat k)%Z) (seq 0 90)))
    with (today - 89 + Z.of_nat 0)%Z.
  rewrite Z.add_0_r.
  pose proof (weekday_lt (today - 89)) as Hf.
  rewrite (placeholders_rows (calendar_cell today history)).
  - rewrite fill_days_rows; [apply pad_rows_rows|].
    intros k Hk. unfold calendar_cell, num_days. cbv zeta.
    replace (Nat.ltb (weekday (today - 89) + k) (weekday (today - 89))) with false
      by (symmetry; apply Nat.ltb_ge; lia).
    replace (Nat.leb (weekday (today - 89) + 90) (weekday (today - 89) + k)) with false
      by (symmetry; apply Nat.leb_gt; lia).
    cbn [orb]. do 3 f_equal. lia.
  - exact Hf.
  - intros n Hn. unfold calendar_cell. cbv zeta.
    replace (Nat.ltb n (weekday (today - 89))) with true
      by (symmetry; apply Nat.ltb_lt; lia).
    reflexivity.
Qed.

(** X15. The grid of the streak chart has seven rows of one length, the
    number of weeks the 90 days shown touch. The cell of the week day [r] in
    the week [j] is that of position [7 * j + r] of the calendar that starts
    on the Monday of the first week: a blank before the first day shown and
    after today, and otherwise the mark of the day, green when the calendar
    of the session holds it. *)
Theorem chart_grid_cells (today : Z) (history : gmap Z bool) (r j : nat) :
  r < 7 ->
  let weeks := (weekday (today - 89) + 90 + 6) / 7 in
  List.length (chart_grid today history) = 7 ∧
  ∃ row, nth_error (chart_grid today history) r = Some row ∧
         List.length row = weeks ∧
         (j < weeks ->
          nth_error row j = Some (calendar_cell today history (7 * j + r))).
Proof.
  intros Hr weeks. rewrite chart_grid_rows. cbv zeta.
  set (m := weekday (today - 89) + 90) in *.
  set (cell := calendar_cell today history).
  split; [rewrite length_map, length_seq; reflexivity|].
  rewrite nth_error_map, nth_error_seq.
  replace (Nat.ltb r 7) with true by (symmetry; apply Nat.ltb_lt, Hr).
  cbn [option_map Nat.add].
  eexists. split; [reflexivity|].
  pose proof (Nat.div_mod_eq (m + 6) 7). pose proof (Nat.mod_upper_bound (m + 6) 7).
  pose proof (Nat.div_mod_eq (m + 6 - r) 7). pose proof (Nat.mod_upper_bound (m + 6 - r) 7).
  split.
  - rewrite length_app, repeat_length, chart_row_length. unfold weeks. lia.
  - intros Hj. unfold weeks in Hj.
    destruct (Nat.lt_ge_cases j ((m + 6 - r) / 7)) as [Hin|Hout].
    + rewrite nth_error_app1 by (rewrite chart_row_length; exact Hin).
      unfold chart_row. rewrite nth_error_map, nth_error_seq.
      replace (Nat.ltb j ((m + 6 - r) / 7)) with true by (symmetry; apply Nat.ltb_lt, Hin).
      reflexivity.
    + rewrite nth_error_app2 by (rewrite chart_row_length; exact Hout).
      rewrite nth_error_repeat by (rewrite chart_row_length; lia).
      unfold cell, calendar_cell, num_days. cbv zeta. fold m.
      replace (Nat.leb m (7 * j + r)) with true by (symmetry; apply Nat.leb_le; lia).
      rewrite orb_true_r. reflexivity.
Qed.

Lemma chart_grid_cells_witness :
  List.length (chart_grid 739000 {[739000%Z := true]}) = 7 ∧
  ∃ row, nth_error (chart_grid 739000 {[739000%Z := true]}) 3 = Some row ∧
         List.length row = (weekday (739000 - 89) + 90 + 6) / 7 ∧
         (2 < (weekday (739000 - 89) + 90 + 6) / 7 ->
          nth_error row 2 = Some (calendar_cell 739000 {[739000%Z := true]} (7 * 2 + 3))).
Proof. apply (chart_grid_cells 739000 {[739000%Z := true]} 3 2). lia. Defined.

(** ** The saved questions of the profile *)

(** [options.index(opt)] for the option at position [choice]: no option
    before the position found is equal to [opt], and the option found before
    [choice] is. *)
Lemma list_index_spec (options : list pyval) (choice : nat) (opt : pyval) :
  let position := list_index options choice opt in
  position ≤ choice ∧
  (∀ j o, j < position -> nth_error options j = Some o -> py_eq o opt = false) ∧
  (position < choice -> choice < List.length options ->
   ∃ o, nth_error options position = Some o ∧ py_eq o opt = true).
Proof.
  cbv zeta. revert options. induction choice as [|k IH]; intros options.
  - destruct options; cbn; repeat split; intros; lia.
  - destruct options as [|o rest]; [cbn; repeat split; intros; lia|].
    cbn [list_index]. destruct (py_eq o opt) eqn:E.
    + split; [lia|]. split; [intros; lia|]. intros _ _. exists o. split; [reflexivity|exact E].
    + destruct (IH rest) as (H1 & H2 & H3). split; [lia|]. split.
      * intros [|j] o' Hj Ho'; [cbn in Ho'; congruence|].
        apply (H2 j o'); [lia|exact Ho'].
      * intros Hlt Hlen. cbn [List.length] in Hlen.
        destruct H3 as (o' & Ho' & Eo'); [lia|lia|]. exists o'. split; assumption.
Qed.

Lemma saved_questions_click expander_renders (clicked : nat) (question : list (string * pyval))
    (store : list (list (string * pyval))) :
  nth_error store clicked = Some question ->
  (∀ i q, i ≤ clicked -> nth_error store i = Some q -> expander_renders q = true) ->
  ∀ idx, idx ≤ clicked ->
    saved_questions expander_renders (ClickRemoveBookmark clicked) idx (skipn idx store) store =
    (Rerun, list_remove store clicked question).
Proof.
  intros Hq Hrender idx Hidx.
  remember (clicked - idx) as gap eqn:Hgap.
  revert idx Hidx Hgap. induction gap as [|gap IH]; intros idx Hidx Hgap.
  - assert (idx = clicked) by lia. subst idx.
    destruct (skipn clicked store) as [|q rest] eqn:E.
    { apply (f_equal (λ l, nth_error l 0)) in E.
      rewrite nth_error_skipn, Nat.add_0_r, Hq in E. discriminate E. }
    assert (q = question).
    { apply (f_equal (λ l, nth_error l 0)) in E.
      rewrite nth_error_skipn, Nat.add_0_r, Hq in E. cbn in E. congruence. }
    subst q. cbn [saved_questions].
    rewrite (Hrender clicked question (le_n _) Hq), Nat.eqb_refl. reflexivity.
  - destruct (skipn idx store) as [|q rest] eqn:E.
    { apply (f_equal (@List.length _)) in E. rewrite length_skipn in E. cbn in E.
      assert (clicked < List.length store) by (apply nth_error_Some; congruence). lia. }
    assert (Hq' : nth_error store idx = Some q).
    { apply (f_equal (λ l, nth_error l 0)) in E.
      rewrite nth_error_skipn, Nat.add_0_r in E. exact E. }
    assert (Hrest : rest = skipn (S idx) store).
    { change (S idx) with (1 + idx). rewrite <- skipn_skipn, E. reflexivity. }
    cbn [saved_questions]. rewrite (Hrender idx q Hidx Hq').
    replace (Nat.eqb clicked idx) with false by (symmetry; apply Nat.eqb_neq; lia).
    rewrite Hrest. apply IH; lia.
Qed.

(** X16. "Remove Bookmark" on the profile, on a saved question that is
    drawn without error as are those before it: the run ends in a rerun and
    the store loses exactly one entry, the first that is equal to the
    clicked one, which lies at or before it; the other entries stay, in
    order, and the answers of the quiz in progress keep their bookmark
    flags. *)
Theorem remove_saved_question expander_renders (s : State) (clicked : nat)
    (question : list (string * pyval)) :
  nth_error (bookmarked_questions s) clicked = Some question ->
  (∀ i q, i ≤ clicked -> nth_error (bookmarked_questions s) i = Some q ->
          expander_renders q = true) ->
  let store := bookmarked_questions s in
  let r := display_profile expander_renders (ClickRemoveBookmark clicked) s in
  r.1 = Rerun ∧
  answered_questions r.2 = answered_questions s ∧
  ∃ position,
    position ≤ clicked ∧
    (∀ i q, i < position -> nth_error store i = Some q ->
            py_eq (PDict q) (PDict question) = false) ∧
    (position < clicked ->
     ∃ q, nth_error store position = Some q ∧ py_eq (PDict q) (PDict question) = true) ∧
    bookmarked_questions r.2 = (firstn position store ++ skipn (S position) store)%list ∧
    List.length (bookmarked_questions r.2) + 1 = List.length store.
Proof.
  intros Hq Hrender store r.
  pose proof (saved_questions_click expander_renders clicked question store Hq Hrender 0
                (Nat.le_0_l _)) as Hrun.
  change (skipn 0 store) with store in Hrun.
  assert (Hlen : clicked < List.length store)
    by (unfold store; apply nth_error_Some; rewrite Hq; discriminate).
  unfold r, display_profile. fold store. rewrite Hrun. cbn [fst snd].
  split; [reflexivity|]. split; [reflexivity|].
  destruct (list_index_spec (map PDict store) clicked (PDict question)) as (H1 & H2 & H3).
  exists (list_index (map PDict store) clicked (PDict question)).
  split; [exact H1|]. split; [|split; [|split]].
  - intros i q Hi Hiq. apply (H2 i (PDict q) Hi). rewrite nth_error_map, Hiq. reflexivity.
  - intros Hlt. destruct (H3 Hlt) as (o & Ho & Eo); [rewrite length_map; exact Hlen|].
    rewrite nth_error_map in Ho.
    destruct (nth_error store _) as [q|]; [|discriminate Ho].
    injection Ho as <-. exists q. split; [reflexivity|exact Eo].
  - reflexivity.
  - cbn [bookmarked_questions set_bookmarked_questions]. unfold list_remove.
    rewrite length_app, length_firstn, length_skipn. lia.
Qed.

Lemma remove_saved_question_witness :
  let s := set_bookmarked_questions
             [question_with_meta Examples.question_Q "optics" 0;
              question_with_meta Examples.question_twice "optics" 1;
              question_with_meta Examples.question_Q "optics" 0]
             initialize_session_state in
  bookmarked_questions (display_profile (λ _, true) (ClickRemoveBookmark 2) s).2 =
    [question_with_meta Examples.question_twice "optics" 1;
     question_with_meta Examples.question_Q "optics" 0].
Proof.
  intros s.
  destruct (remove_saved_question (λ _, true) s 2
              (question_with_meta Examples.question_Q "optics" 0) eq_refl
              (λ _ _ _ _, eq_refl))
    as (_ & _ & position & _ & Hbefore & _ & H & _).
  destruct position as [|position]; [exact H|].
  specialize (Hbefore 0 _ (Nat.lt_0_succ _) eq_refl). discriminate Hbefore.
Defined.




(** ** The link to a written solution *)

Lemma first_fit_spec (results : list (string * fetch_result)) (url : string) :
  first_fit results = Some url ↔
  ∃ before fetched after,
    results = (before ++ (url, fetched) :: after)%list ∧
    fits fetched = true ∧
    Forall (λ entry, fits entry.2 = false) before.
Proof.
  induction results as [|[u fetched] rest IH].
  - split; [discriminate|]. intros (before & f & after & E & _). destruct before; discriminate E.
  - cbn [first_fit].
    assert (Hcase : first_fit ((u, fetched) :: rest) =
                    if fits fetched then Some u else first_fit rest).
    { destruct fetched as [exn|status text]; [reflexivity|].
      cbn [first_fit fits]. destruct (_ && _); reflexivity. }
    cbn [first_fit] in Hcase. rewrite Hcase. clear Hcase.
    destruct (fits fetched) eqn:Hf.
    + split.
      * intros [= <-]. exists [], fetched, rest. repeat split; [exact Hf|constructor].
      * intros (before & f & after & E & Hfit & Hbefore).
        destruct before as [|[u0 f0] before]; cbn in E.
        -- congruence.
        -- injection E as -> -> _. inversion Hbefore as [|? ? Hf0 _]. cbn in Hf0. congruence.
    + rewrite IH. split.
      * intros (before & f & after & -> & Hfit & Hbefore).
        exists ((u, fetched) :: before), f, after.
        repeat split; [exact Hfit|constructor; [exact Hf|exact Hbefore]].
      * intros (before & f & after & E & Hfit & Hbefore).
        destruct before as [|[u0 f0] before]; cbn in E.
        -- injection E as -> -> _. congruence.
        -- injection E as -> -> ->. inversion Hbefore as [|? ? _ Hrest].
           exists before, f, after. repeat split; assumption.
Qed.

(** X18. [get_solution_link] returns the first link of the search, in the
    order of the search, whose page was fetched with status 200 and holds
    one of the key words, the pages before it having failed, answered with
    another status or held none; it returns nothing exactly when no link is
    fit. A link that was found is returned with no warning, also when the
    search breaks off afterwards. *)
Theorem get_solution_link_first_fit (results : list (string * fetch_result))
    (search_raised : option string) :
  let r := get_solution_link results search_raised in
  (∀ url,
     r.1 = Some url ↔
     ∃ before fetched after,
       results = (before ++ (url, fetched) :: after)%list ∧
       fits fetched = true ∧
       Forall (λ entry, fits entry.2 = false) before) ∧
  (r.1 = None ↔ Forall (λ entry, fits entry.2 = false) results) ∧
  (r.2 = [] ↔ is_Some r.1 ∨ search_raised = None).
Proof.
  cbv zeta. unfold get_solution_link.
  assert (Hnone : first_fit results = None ↔
                  Forall (λ entry, fits entry.2 = false) results).
  { clear. induction results as [|[u fetched] rest IH]; [split; [constructor|reflexivity]|].
    cbn [first_fit].
    replace (match fetched with
             | FetchRaised _ => first_fit rest
             | FetchResponse status_code text =>
                 if (status_code =? 200)%Z && mentions_solution text
                 then Some u else first_fit rest
             end) with (if fits fetched then Some u else first_fit rest)
      by (destruct fetched as [exn|status text]; [reflexivity|];
          cbn [fits]; destruct (_ && _); reflexivity).
    destruct (fits fetched) eqn:Hf.
    - split; [discriminate|]. intros H. inversion H as [|? ? Hf0 _]. cbn in Hf0. congruence.
    - rewrite IH. split.
      + intros H. constructor; [exact Hf|exact H].
      + intros H. inversion H. assumption. }
  split; [|split].
  - intros url. rewrite <- first_fit_spec.
    destruct (first_fit results) as [u|]; [reflexivity|].
    destruct search_raised; cbn [fst]; reflexivity.
  - rewrite <- Hnone.
    destruct (first_fit results) as [u|]; [cbn; split; discriminate|].
    destruct search_raised; cbn [fst]; split; reflexivity.
  - destruct (first_fit results) as [u|]; [cbn; split; eauto|].
    destruct search_raised as [exn|]; cbn [fst snd].
    + split; [discriminate|]. intros [[x Hx]|H]; discriminate.
    + split; [right; reflexivity|reflexivity].
Qed.

Lemma get_solution_link_first_fit_witness :
  (get_solution_link
     [("https://a.example", FetchRaised "Timeout");
      ("https://b.example", FetchResponse 404 "no answer here");
      ("https://c.example", FetchResponse 200 "the solution of the problem");
      ("https://d.example", FetchResponse 200 "jee")]
     (Some "429 Too Many Requests")).1 = Some "https://c.example".
Proof.
  apply (proj1 (get_solution_link_first_fit _ _)).
  exists [("https://a.example", FetchRaised "Timeout");
          ("https://b.example", FetchResponse 404 "no answer here")],
         (FetchResponse 200 "the solution of the problem"),
         [("https://d.example", FetchResponse 200 "jee")].
  split; [reflexivity|]. split; [reflexivity|].
  repeat constructor.
Defined.

(** ** The generator page, with the rerun that follows *)

(** X19. In every state of the application in which the generator page is
    shown, a generation that yields no question, whatever the reason (the
    provider raised, no array in the response, an array that does not parse,
    an empty array, an element that is not an object), leaves the whole
    session state as it was and asks for no rerun. *)
Theorem unproductive_generation_leaves_state json_loads s today topic difficulty
    num_questions response :
  reachable json_loads s ->
  showing_quiz s = false ->
  (generate_quiz json_loads response).1 = [] ->
  page_step json_loads today
    (OnGenerator (GenSubmit topic difficulty num_questions response)) s = (Rendered, s).
Proof.
  intros Hr Hshow Hg.
  pose proof (reachable_clean json_loads s Hr Hshow) as Hq.
  unfold page_step, page_run. rewrite Hshow. unfold display_quiz_generator.
  destruct (negb (String.eqb topic EmptyString)); [|reflexivity].
  destruct (generate_quiz json_loads response) as [questions shown].
  cbn [fst] in Hg. subst questions. cbn [quiz_questions set_quiz_questions].
  rewrite <- Hq at 1. rewrite set_quiz_questions_same. reflexivity.
Qed.

Lemma unproductive_generation_leaves_state_witness :
  page_step Json.loads Samples.day
    (OnGenerator (GenSubmit "waves" "JEE Advanced" 3
                    (ProviderText (Json.quoted "[{'question':'Q','explanation':null}]"))))
    Samples.state_restarted = (Rendered, Samples.state_restarted).
Proof.
  apply unproductive_generation_leaves_state.
  - exact (proj2 (proj2 (proj2 (proj2 (proj2 samples_reachable))))).
  - vm_compute. reflexivity.
  - vm_compute. reflexivity.
Defined.

(** X20. A generation that yields questions, on a topic that is given,
    starts a session on them: after the rerun the quiz is shown with the
    cursor on the first question, the score 0 and no answer, the topic is
    added to the covered ones and becomes the topic of the quiz, and the
    counters, the ledger, the streak and the saved questions are those of
    before. *)
Theorem generation_starts_session json_loads today s topic difficulty num_questions
    response :
  showing_quiz s = false ->
  topic ≠ EmptyString ->
  (generate_quiz json_loads response).1 ≠ [] ->
  let r := page_step json_loads today
             (OnGenerator (GenSubmit topic difficulty num_questions response)) s in
  r.1 ≠ Rerun ∧
  r.2 = quiz_started (generate_quiz json_loads response).1 topic s.
Proof.
  intros Hshow Htopic Hg r. unfold r, page_step, page_run.
  rewrite Hshow. unfold display_quiz_generator.
  replace (String.eqb topic EmptyString) with false
    by (symmetry; apply String.eqb_neq; exact Htopic).
  cbn [negb].
  destruct (generate_quiz json_loads response) as [questions shown].
  cbn [fst] in *. cbn [quiz_questions set_quiz_questions].
  destruct questions as [|q qs]; [congruence|].
  change (set_current_quiz_main_topic topic _) with (quiz_started (q :: qs) topic s).
  set (s1 := quiz_started (q :: qs) topic s).
  change (showing_quiz s1) with true. cbv iota.
  pose proof (display_quiz_effect today NoClick s1) as E.
  pose proof (display_quiz_idle_outcome today s1) as Hrun.
  destruct (display_quiz today NoClick s1) as [o s2]. cbn [fst snd] in *.
  split; [exact Hrun|].
  inversion E as [| |ev [_ Hc]| | | | | |]; [reflexivity|].
  cbn in Hc. lia.
Qed.

Lemma generation_starts_session_witness :
  Samples.state_generated =
    quiz_started (generate_quiz Json.loads Samples.sample_response).1 "optics"
      initialize_session_state.
Proof.
  refine (proj2 (generation_starts_session Json.loads Samples.day initialize_session_state
                   "optics" "JEE Mains" 2 Samples.sample_response _ _ _)).
  - reflexivity.
  - discriminate.
  - vm_compute. discriminate.
Defined.

(** ** Samples for the parser and the answer handlers *)

Lemma generate_quiz_accepts_witness :
  ∃ qs, generate_quiz Json.loads (ProviderText (Json.quoted "[{'question':'Q'}]")) = (qs, []) ∧
        Forall2 (λ q d, ensure_explanation q = inr d) [PDict [("question", PStr "Q")]] qs.
Proof.
  apply (generate_quiz_accepts Json.loads (Json.quoted "[{'question':'Q'}]")
           (Json.quoted "[{'question':'Q'}]") [PDict [("question", PStr "Q")]]).
  - vm_compute. reflexivity.
  - vm_compute. reflexivity.
  - discriminate.
  - constructor; [|constructor]. eexists. split; [reflexivity|left; reflexivity].
Defined.

Lemma generate_quiz_no_bracket_witness :
  generate_quiz Json.loads (ProviderText "Sorry, no quiz today.") =
    ([], [Error "Failed to find valid JSON array in response"]).
Proof.
  apply generate_quiz_no_bracket. cbn. intuition discriminate.
Defined.

Lemma bookmark_toggle_twice_witness :
  let s := Examples.session_of [Examples.question_Q] in
  let s1 := (display_quiz Samples.day ClickBookmark s).2 in
  let s2 := (display_quiz Samples.day ClickBookmark s1).2 in
  bookmarked_questions s1 =
    (bookmarked_questions s ++
     [question_with_meta Examples.question_Q (current_quiz_main_topic s)
        (current_question s)])%list ∧
  bookmarked_questions s2 = bookmarked_questions s.
Proof.
  apply (bookmark_toggle_twice Samples.day (Examples.session_of [Examples.question_Q])
           Examples.question_Q [PStr "a"; PStr "b"; PStr "c"; PStr "d"] "Q").
  - reflexivity.
  - reflexivity.
  - reflexivity.
  - vm_compute. reflexivity.
  - intros q [].
Defined.

Lemma submit_first_occurrence_witness :
  let s := Examples.session_of [Examples.question_Q] in
  let r := display_quiz Samples.day (ClickSubmit 1) s in
  (∃ a, answered_questions r.2 !! current_question s = Some a ∧ answered_with a 1 true) ∧
  total_questions_solved r.2 = total_questions_solved s + 1 ∧
  score r.2 = score s + 1.
Proof.
  intros s r.
  destruct (submit_first_occurrence Samples.day s Examples.question_Q
              [PStr "a"; PStr "b"; PStr "c"; PStr "d"] 1 (PStr "b") (PInt 1))
    as (H1 & H2 & H3 & _).
  - reflexivity.
  - split; [eexists; reflexivity|reflexivity].
  - reflexivity.
  - intros [|j] o Hj Ho; [injection Ho as <-; reflexivity|lia].
  - reflexivity.
  - vm_compute. exact I.
  - split; [exact H1|]. split; [exact H2|exact H3].
Defined.
